(** * DailyWell asset generator: the hand-rolled inference path

    A shallow embedding of [generate_assets.py] (timestep embedding, the
    transformer denoising loop, Euler flow-matching sampling, the approximate
    VAE decode) and of the HTTP client in [generate_assets_comfyui.py].

    Tensors carry their shape and their elements in row-major order.  The
    index-moving operators of torch (reshape, permute, pad, slicing, cat,
    chunk, broadcasting) are written out; its numerical kernels (linear,
    layer norm, convolution, bilinear interpolation, linspace, the random
    generator) keep their shape rule and leave their values uninterpreted,
    as does the scalar arithmetic, so every statement holds for whatever
    rounding the device performs.  Python exceptions are an error result.
    Of the printing only what can raise is kept. *)

From Stdlib Require Import ZArith QArith List Lia Ascii.
From stdpp Require Import gmap strings list pretty.

Local Open Scope nat_scope.

(** ** Python results *)

Inductive pyerr :=
  | KeyError | IndexError | AttributeError | TypeError | ValueError
  | RuntimeError | NotImplementedError | OSError | InvalidURL.

Inductive res (A : Type) :=
  | Ok (a : A)
  | Err (e : pyerr).
Arguments Ok {A} a.
Arguments Err {A} e.

#[global] Instance res_ret : MRet res := fun A a => Ok a.
#[global] Instance res_bind : MBind res :=
  fun A B f m => match m with Ok a => f a | Err e => Err e end.

Definition is_ok {A} (r : res A) : bool :=
  match r with Ok _ => true | Err _ => false end.

(** [for i in l: x = body(x, i)] *)
Fixpoint for_each {A I} (body : A -> I -> res A) (l : list I) (x : A) : res A :=
  match l with
  | [] => Ok x
  | i :: l' => x' ← body x i; for_each body l' x'
  end.

(** [range(n)] for a Python int [n] *)
Definition py_range (n : Z) : list nat := seq 0 (Z.to_nat n).

(** ** Scalars *)

Inductive dtype := bfloat16 | float32.
Inductive device := cpu | cuda.

Class Arith (F : Type) := {
  f_lit : Q -> F;
  f_of_Z : Z -> F;
  f_add : F -> F -> F;
  f_sub : F -> F -> F;
  f_mul : F -> F -> F;
  f_div : F -> F -> F;
  f_neg : F -> F;
  f_exp : F -> F;
  f_log : F -> F;
  f_sin : F -> F;
  f_cos : F -> F;
  f_silu : F -> F;
  f_gelu_tanh : F -> F;
  f_clamp : F -> F -> F -> F;
  f_cast : dtype -> F -> F;
  f_to_uint8 : F -> Z
}.

(** ** Shapes and row-major indices *)

Definition numel (s : list nat) : nat := foldr Nat.mul 1 s.

Fixpoint unravel (s : list nat) (i : nat) : list nat :=
  match s with
  | [] => []
  | _ :: s' => i / numel s' :: unravel s' (i mod numel s')
  end.

Fixpoint ravel (s idx : list nat) : nat :=
  match s, idx with
  | _ :: s', k :: idx' => k * numel s' + ravel s' idx'
  | _, _ => 0
  end.

Definition bdim (a b : nat) : option nat :=
  if a =? b then Some a
  else if a =? 1 then Some b
  else if b =? 1 then Some a
  else None.

(** broadcasting, on shapes written last dimension first *)
Fixpoint bshape_rev (r1 r2 : list nat) : option (list nat) :=
  match r1, r2 with
  | [], r => Some r
  | r, [] => Some r
  | a :: r1', b :: r2' =>
      d ← bdim a b; r ← bshape_rev r1' r2'; Some (d :: r)
  end.

Definition broadcast_shapes (s1 s2 : list nat) : option (list nat) :=
  reverse <$> bshape_rev (reverse s1) (reverse s2).

(** the element of a tensor of shape [sf] read at flat index [i] of its
    expansion to shape [st] *)
Definition expand_index (sf st : list nat) (i : nat) : nat :=
  ravel sf (zip_with (fun d k => if d =? 1 then 0 else k) sf
              (drop (length st - length sf) (unravel st i))).

Definition chunk_sizes (n k : nat) : list nat :=
  if n =? 0 then replicate k 0
  else
    let cs := (n + k - 1) / k in
    let m := (n + cs - 1) / cs in
    replicate (m - 1) cs ++ [n - cs * (m - 1)].

Fixpoint offsets (from : nat) (sizes : list nat) : list (nat * nat) :=
  match sizes with
  | [] => []
  | c :: sizes' => (from, c) :: offsets (from + c) sizes'
  end.

Definition is_perm (perm : list nat) (n : nat) : bool :=
  (length perm =? n) && forallb (fun k => existsb (Nat.eqb k) perm) (seq 0 n).

Definition index_of (k : nat) (perm : list nat) : nat :=
  default 0 (fst <$> list_find (eq k) perm).

Definition unpack4 (s : list nat) : res (nat * nat * nat * nat) :=
  match s with
  | [a; b; c; d] => Ok (a, b, c, d)
  | _ => Err ValueError
  end.

(** ** Tensors *)

Section Tensors.
Context {F : Type} `{Arith F}.

Record tensor := Tensor { shape : list nat; data : list F }.

Definition zero : F := f_of_Z 0.

(** elements [rows * n + from .. rows * n + from + c) of every row of
    length [n] *)
Definition row_slices (n from c rows : nat) (d : list F) : list F :=
  flat_map (fun r => take c (drop (r * n + from) d)) (seq 0 rows).

(** read the elements of [d] at the places [g] gives for the multi-indices
    of shape [s]; [None] reads the fill value *)
Definition gather (s : list nat) (g : list nat -> option nat) (d : list F)
  : list F :=
  omap (fun i => match g (unravel s i) with
                 | Some j => d !! j
                 | None => Some zero
                 end) (seq 0 (numel s)).

Definition expand (sf st : list nat) (d : list F) : list F :=
  omap (fun i => d !! expand_index sf st i) (seq 0 (numel st)).

Definition tmap (f : F -> F) (t : tensor) : tensor :=
  Tensor (shape t) (f <$> data t).

(** an elementwise operator on two tensors, with broadcasting *)
Definition binop (f : F -> F -> F) (a b : tensor) : res tensor :=
  match broadcast_shapes (shape a) (shape b) with
  | Some s =>
      Ok (Tensor s (zip_with f (expand (shape a) s (data a))
                               (expand (shape b) s (data b))))
  | None => Err RuntimeError
  end.

Definition t_add := binop f_add.
Definition t_sub := binop f_sub.
Definition t_mul := binop f_mul.

(** [t.to(device=device, dtype=dtype)]: the device moves no value *)
Definition to_ (dev : device) (dt : dtype) (t : tensor) : tensor :=
  tmap (f_cast dt) t.

Definition reshape (t : tensor) (s : list nat) : res tensor :=
  if numel (shape t) =? numel s then Ok (Tensor s (data t))
  else Err RuntimeError.

Definition permute (t : tensor) (perm : list nat) : res tensor :=
  if is_perm perm (length (shape t)) then
    let s := (fun p => nth p (shape t) 0) <$> perm in
    Ok (Tensor s
          (gather s (fun idx =>
                       Some (ravel (shape t)
                               ((fun k => nth (index_of k perm) idx 0)
                                  <$> seq 0 (length perm))))
             (data t)))
  else Err RuntimeError.

(** [F.pad(t, (left, right, top, bottom))], constant mode, value 0 *)
Definition F_pad (t : tensor) (l r tp bt : nat) : res tensor :=
  match reverse (shape t) with
  | w :: h :: lead_rev =>
      let lead := reverse lead_rev in
      let s := lead ++ [tp + h + bt; l + w + r] in
      Ok (Tensor s
            (gather s (fun idx =>
                         match reverse idx with
                         | x :: y :: li =>
                             if (l <=? x) && (x <? l + w) &&
                                (tp <=? y) && (y <? tp + h)
                             then Some (ravel (shape t)
                                          (reverse li ++ [y - tp; x - l]))
                             else None
                         | _ => None
                         end) (data t)))
  | _ => Err RuntimeError
  end.

(** [t[:a, :b, ...]]: one optional upper limit per leading dimension *)
Definition slice_to (t : tensor) (limits : list (option nat)) : res tensor :=
  if length (shape t) <? length limits then Err IndexError
  else
    let s := zip_with (fun d l => match l with
                                  | Some k => Nat.min k d
                                  | None => d
                                  end)
               (shape t) (limits ++ replicate (length (shape t)) None) in
    Ok (Tensor s (gather s (fun idx => Some (ravel (shape t) idx)) (data t))).

(** [t[i]] for [0 <= i] *)
Definition t_index (t : tensor) (i : nat) : res tensor :=
  match shape t with
  | [] => Err IndexError
  | d :: s' =>
      if i <? d then
        Ok (Tensor s' (take (numel s') (drop (i * numel s') (data t))))
      else Err IndexError
  end.

(** [len(t)] *)
Definition t_len (t : tensor) : res nat :=
  match shape t with
  | [] => Err TypeError
  | d :: _ => Ok d
  end.

Definition unsqueeze (t : tensor) (pos : nat) : res tensor :=
  if pos <=? length (shape t) then
    Ok (Tensor (take pos (shape t) ++ 1 :: drop pos (shape t)) (data t))
  else Err IndexError.

(** [t[:, None]] *)
Definition index_colon_none (t : tensor) : res tensor :=
  match shape t with
  | [] => Err IndexError
  | _ => unsqueeze t 1
  end.

(** [t[None, :]] *)
Definition index_none_colon (t : tensor) : res tensor :=
  match shape t with
  | [] => Err IndexError
  | _ => unsqueeze t 0
  end.

(** [torch.cat([a, b], dim=-1)] *)
Definition cat_last (a b : tensor) : res tensor :=
  match reverse (shape a), reverse (shape b) with
  | la :: ra, lb :: rb =>
      if bool_decide (ra = rb) then
        let rows := numel ra in
        Ok (Tensor (reverse ra ++ [la + lb])
              (flat_map (fun r => take la (drop (r * la) (data a)) ++
                                  take lb (drop (r * lb) (data b)))
                 (seq 0 rows)))
      else Err RuntimeError
  | _, _ => Err RuntimeError
  end.

(** [t.chunk(k, dim=-1)] *)
Definition chunk (t : tensor) (k : nat) : res (list tensor) :=
  match reverse (shape t) with
  | n :: lead_rev =>
      if k =? 0 then Err RuntimeError
      else
        let lead := reverse lead_rev in
        Ok ((fun oc : nat * nat =>
               Tensor (lead ++ [oc.2])
                 (row_slices n oc.1 oc.2 (numel lead) (data t)))
              <$> offsets 0 (chunk_sizes n k))
  | [] => Err RuntimeError
  end.

Definition arange (n : nat) : tensor :=
  Tensor [n] ((fun k => f_of_Z (Z.of_nat k)) <$> seq 0 n).

Definition zeros (s : list nat) : tensor :=
  Tensor s (replicate (numel s) zero).

End Tensors.

Arguments tensor F : clear implicits.
Arguments Tensor {F} shape data.
Arguments shape {F} t.
Arguments data {F} t.

(** ** The runtime outside the repository

    Values of torch's numerical kernels (one element per flat index of the
    result), the random generator, Python's string hash and PIL's image
    constructor.  [k_dtype] is the element type torch records for a tensor,
    which the tensors of this model do not carry.  [k_linear_vector] is
    what F.linear makes of a weight of one dimension, with or without a
    bias: the functions of this file hand it the weights of the checkpoint
    as they come, and nothing here depends on what torch does with such a
    one. *)

Record ndarray := NdArray { a_shape : list nat; a_data : list Z }.

Class Backend (F : Type) `{Arith F} := {
  k_linear : tensor F -> tensor F -> option (tensor F) -> nat -> F;
  k_linear_vector : tensor F -> tensor F -> option (tensor F) -> res (tensor F);
  k_layer_norm : tensor F -> nat -> F;
  k_conv2d : tensor F -> tensor F -> tensor F -> nat -> F;
  k_interpolate : nat -> tensor F -> nat -> F;
  k_linspace : F -> F -> nat -> nat -> F;
  k_dtype : tensor F -> dtype;
  rng : Type;
  k_manual_seed : Z -> rng;
  k_randn : rng -> dtype -> nat -> nat -> F;
  k_randn_next : rng -> nat -> rng;
  py_hash : string -> Z;
  image : Type;
  Image_fromarray : ndarray -> res image
}.

(** shape rules of the kernels *)

Definition linear_shape (sx sw : list nat) (sb : option (list nat))
  : option (list nat) :=
  match reverse sx, sw with
  | i :: lead_rev, [o; i'] =>
      if (i =? i') && bool_decide (sb = None \/ sb = Some [o])
      then Some (reverse lead_rev ++ [o])
      else None
  | _, _ => None
  end.

(** a batch of images [b; ci; h; w] under a weight [co; ci; kh; kw] with
    its bias [co]: at least one output channel, a kernel that fits the
    padded image, and no empty image unless the batch or the channels are
    empty; an input without channels gives an output without channels.  An
    image [ci; h; w] without the batch dimension is a batch of one, and so
    is its result. *)
Definition conv2d_batch_shape (b ci h w : nat) (sw sb : list nat)
    (padding : nat) : option (list nat) :=
  match sw with
  | [co; ci'; kh; kw] =>
      if (1 <=? co) && (ci =? ci') && bool_decide (sb = [co]) &&
         (1 <=? kh) && (1 <=? kw) &&
         (kh <=? h + 2 * padding) && (kw <=? w + 2 * padding) &&
         ((b =? 0) || (ci =? 0) || ((0 <? h) && (0 <? w)))
      then Some [b; if ci =? 0 then 0 else co;
                 h + 2 * padding + 1 - kh; w + 2 * padding + 1 - kw]
      else None
  | _ => None
  end.

Definition conv2d_shape (sx sw sb : list nat) (padding : nat)
  : option (list nat) :=
  match sx with
  | [b; ci; h; w] => conv2d_batch_shape b ci h w sw sb padding
  | [ci; h; w] => drop 1 <$> conv2d_batch_shape 1 ci h w sw sb padding
  | _ => None
  end.

Section Torch.
Context {F : Type} `{Backend F}.

Definition of_kernel (s : list nat) (k : nat -> F) : tensor F :=
  Tensor s (k <$> seq 0 (numel s)).

(** [F.linear(x, w, b)] on operands of one element type, which is what
    [.to(dtype)] and autocast establish where this file calls it (torch
    refuses operands of different element types outside autocast; the
    tensors of the model carry no element type).  A weight that is [None]
    is a [TypeError]. *)
Definition F_linear (x : tensor F) (w b : option (tensor F))
  : res (tensor F) :=
  match w with
  | None => Err TypeError
  | Some w =>
      match shape w with
      | [_] => k_linear_vector x w b
      | _ =>
          match linear_shape (shape x) (shape w) (shape <$> b) with
          | Some s => Ok (of_kernel s (k_linear x w b))
          | None => Err RuntimeError
          end
      end
  end.

(** [F.layer_norm(x, x.shape[-1:])] *)
Definition F_layer_norm (x : tensor F) : res (tensor F) :=
  match shape x with
  | [] => Err RuntimeError
  | s => Ok (of_kernel s (k_layer_norm x))
  end.

(** [F.conv2d(x, w, b, padding=1)] *)
Definition F_conv2d (x w b : tensor F) : res (tensor F) :=
  match conv2d_shape (shape x) (shape w) (shape b) 1 with
  | Some s => Ok (of_kernel s (k_conv2d x w b))
  | None => Err RuntimeError
  end.

(** [F.interpolate(x, scale_factor=k, mode='bilinear', align_corners=False)] *)
Definition F_interpolate (x : tensor F) (k : nat) : res (tensor F) :=
  match shape x with
  | [b; c; h; w] =>
      if (0 <? c) && (0 <? h) && (0 <? w) && (0 <? k) then
        Ok (of_kernel [b; c; k * h; k * w] (k_interpolate k x))
      else Err RuntimeError
  | _ => Err NotImplementedError
  end.

(** [torch.linspace(a, b, n)] *)
Definition linspace (a b : F) (n : Z) : res (tensor F) :=
  if (n <? 0)%Z then Err RuntimeError
  else Ok (of_kernel [Z.to_nat n] (k_linspace a b (Z.to_nat n))).

(** [torch.manual_seed(s)] *)
Definition manual_seed (s : Z) : res rng :=
  if ((- 2 ^ 63 <=? s) && (s <? 2 ^ 64))%Z then Ok (k_manual_seed s)
  else Err RuntimeError.

(** [torch.randn(sizes, dtype=dt)] from the generator state [g] *)
Definition randn (sizes : list Z) (dt : dtype) (g : rng)
  : res (tensor F * rng) :=
  if forallb (fun z => (0 <=? z)%Z) sizes then
    let s := Z.to_nat <$> sizes in
    Ok (of_kernel s (k_randn g dt (numel s)), k_randn_next g (numel s))
  else Err RuntimeError.

Definition randn_like (t : tensor F) (g : rng) : tensor F * rng :=
  (of_kernel (shape t) (k_randn g (k_dtype t) (numel (shape t))),
   k_randn_next g (numel (shape t))).

(** [o.to(device=dev, dtype=dt)] for [o] a tensor or [None] *)
Definition py_to (o : option (tensor F)) (dev : device) (dt : dtype)
  : res (tensor F) :=
  match o with
  | Some t => Ok (to_ dev dt t)
  | None => Err AttributeError
  end.

(** [o.to(...) if o is not None else None] *)
Definition to_if_present (o : option (tensor F)) (dev : device) (dt : dtype)
  : option (tensor F) :=
  to_ dev dt <$> o.

Definition unpack2 (l : list (tensor F)) : res (tensor F * tensor F) :=
  match l with
  | [a; b] => Ok (a, b)
  | _ => Err ValueError
  end.

Definition unpack6 (l : list (tensor F))
  : res (tensor F * tensor F * tensor F * tensor F * tensor F * tensor F) :=
  match l with
  | [a; b; c; d; e; f] => Ok (a, b, c, d, e, f)
  | _ => Err ValueError
  end.

(** [1 + t] *)
Definition one_plus (t : tensor F) : tensor F :=
  tmap (fun v => f_add v (f_of_Z 1)) t.

(** [h * (1 + scale.unsqueeze(1)) + shift.unsqueeze(1)] *)
Definition modulate (h scale shift : tensor F) : res (tensor F) :=
  su ← unsqueeze scale 1;
  h ← t_mul h (one_plus su);
  sh ← unsqueeze shift 1;
  t_add h sh.

(** [x + gate.unsqueeze(1) * h] *)
Definition gated (x gate h : tensor F) : res (tensor F) :=
  gu ← unsqueeze gate 1;
  gh ← t_mul gu h;
  t_add x gh.

(** *** apply_transformer_block *)

Definition block_prefix (block_idx : nat) : string :=
  "model.diffusion_model.transformer_blocks." +:+ pretty block_idx +:+ ".".

Definition get_weight (transformer_sd : gmap string (tensor F))
    (prefix : string) (dev : device) (dt : dtype) (name : string)
  : option (tensor F) :=
  to_ dev dt <$> transformer_sd !! (prefix +:+ name).

Definition apply_transformer_block (x context timestep_emb : tensor F)
    (block_idx : nat) (transformer_sd : gmap string (tensor F))
    (dev : device) (dt : dtype) : res (tensor F) :=
  let get_weight := get_weight transformer_sd (block_prefix block_idx) dev dt in
  let img_mod_w := get_weight "img_mod.1.weight" in
  let img_mod_b := get_weight "img_mod.1.bias" in
  match img_mod_w with
  | None => Ok x
  | Some _ =>
      let mod_ := tmap f_silu timestep_emb in
      mod_ ← F_linear mod_ img_mod_w img_mod_b;
      parts ← chunk mod_ 6;
      '(shift, scale, gate, shift2, scale2, gate2) ← unpack6 parts;
      let h := x in
      h ← F_layer_norm h;
      h ← modulate h scale shift;
      x ← gated x gate h;
      h ← F_layer_norm x;
      h ← modulate h scale2 shift2;
      let mlp_w1 := get_weight "img_mlp.net.0.proj.weight" in
      let mlp_b1 := get_weight "img_mlp.net.0.proj.bias" in
      let mlp_w2 := get_weight "img_mlp.net.2.weight" in
      let mlp_b2 := get_weight "img_mlp.net.2.bias" in
      h ← match mlp_w1 with
          | Some _ =>
              h ← F_linear h mlp_w1 mlp_b1;
              let h := tmap f_gelu_tanh h in
              F_linear h mlp_w2 mlp_b2
          | None => Ok h
          end;
      gated x gate2 h
  end.

End Torch.

Definition LATENT_CHANNELS : Z := 16.
Definition VAE_SCALE_FACTOR : Z := 8.

Section Inference.
Context {F : Type} `{Backend F}.

Local Abbreviation state_dict := (gmap string (tensor F)).

(** *** run_transformer

    The function is one body in the source; its stages are named here in
    the order the source runs them. *)

Definition half_dim : nat := 128.

(** the frequency [exp(arange(half_dim) * -(log(10000) / (half_dim - 1)))]
    at position [k] *)
Definition frequency (k : nat) : F :=
  f_exp (f_mul (f_cast float32 (f_of_Z (Z.of_nat k)))
           (f_neg (f_div (f_log (f_of_Z 10000))
                     (f_of_Z (Z.of_nat half_dim - 1))))).

(** the sinusoidal embedding of the timestep *)
Definition sinusoidal (timestep : tensor F) (dt : dtype) : res (tensor F) :=
  let emb := f_div (f_log (f_of_Z 10000)) (f_of_Z (Z.of_nat half_dim - 1)) in
  let emb :=
    tmap f_exp
      (tmap (fun k => f_mul k (f_neg emb))
         (tmap (f_cast float32) (arange half_dim))) in
  tcol ← index_colon_none timestep;
  erow ← index_none_colon emb;
  emb ← t_mul tcol erow;
  emb ← cat_last (tmap f_sin emb) (tmap f_cos emb);
  Ok (to_ cuda dt emb).

Definition prefix : string := "model.diffusion_model.".

Definition pad_amount (n : nat) : nat := (2 - n mod 2) mod 2.

(** [B, C, H, W] -> [B, (H/2)*(W/2), C*4] *)
Definition patchify (latent : tensor F) (batch ch h w : nat)
  : res (tensor F) :=
  x ← reshape latent [batch; ch; h / 2; 2; w / 2; 2];
  x ← permute x [0; 2; 4; 1; 3; 5];
  reshape x [batch; (h / 2) * (w / 2); ch * 4].

(** [B, (H/2)*(W/2), C*4] -> [B, C, H, W] *)
Definition unpatchify (x : tensor F) (batch ch h w : nat) : res (tensor F) :=
  x ← reshape x [batch; h / 2; w / 2; ch; 2; 2];
  x ← permute x [0; 3; 1; 4; 2; 5];
  reshape x [batch; ch; h; w].

Definition input_projection (transformer_sd : state_dict) (x : tensor F)
    (dev : device) (dt : dtype) : res (tensor F) :=
  let img_in_w := transformer_sd !! (prefix +:+ "img_in.weight") in
  let img_in_b := transformer_sd !! (prefix +:+ "img_in.bias") in
  match img_in_w with
  | Some _ =>
      img_in_w ← py_to img_in_w dev dt;
      let img_in_b := to_if_present img_in_b dev dt in
      F_linear x (Some img_in_w) img_in_b
  | None => Ok x
  end.

Definition timestep_embedding (transformer_sd : state_dict)
    (timestep : tensor F) (dev : device) (dt : dtype) : res (tensor F) :=
  let t_emb_w1 := transformer_sd !!
    (prefix +:+ "time_text_embed.timestep_embedder.linear_1.weight") in
  let t_emb_b1 := transformer_sd !!
    (prefix +:+ "time_text_embed.timestep_embedder.linear_1.bias") in
  let t_emb_w2 := transformer_sd !!
    (prefix +:+ "time_text_embed.timestep_embedder.linear_2.weight") in
  let t_emb_b2 := transformer_sd !!
    (prefix +:+ "time_text_embed.timestep_embedder.linear_2.bias") in
  emb ← sinusoidal timestep dt;
  match t_emb_w1 with
  | Some _ =>
      t_emb_w1 ← py_to t_emb_w1 dev dt;
      let t_emb_b1 := to_if_present t_emb_b1 dev dt in
      t_emb_w2 ← py_to t_emb_w2 dev dt;
      let t_emb_b2 := to_if_present t_emb_b2 dev dt in
      temb ← F_linear emb (Some t_emb_w1) t_emb_b1;
      let temb := tmap f_silu temb in
      F_linear temb (Some t_emb_w2) t_emb_b2
  | None => Ok emb
  end.

Definition blocks_to_run (num_blocks : Z) : Z := Z.min num_blocks 10.

Definition run_blocks (transformer_sd : state_dict)
    (x context temb : tensor F) (num_blocks : Z) (dev : device) (dt : dtype)
  : res (tensor F) :=
  for_each
    (fun x i => apply_transformer_block x context temb i transformer_sd dev dt)
    (py_range (blocks_to_run num_blocks)) x.

Definition output_modulation (transformer_sd : state_dict)
    (x temb : tensor F) (dev : device) (dt : dtype) : res (tensor F) :=
  let norm_out_w := transformer_sd !! (prefix +:+ "norm_out.linear.weight") in
  let norm_out_b := transformer_sd !! (prefix +:+ "norm_out.linear.bias") in
  match norm_out_w with
  | Some _ =>
      norm_out_w ← py_to norm_out_w dev dt;
      let norm_out_b := to_if_present norm_out_b dev dt in
      let mod_ := tmap f_silu temb in
      mod_ ← F_linear mod_ (Some norm_out_w) norm_out_b;
      parts ← chunk mod_ 2;
      '(scale, shift) ← unpack2 parts;
      x ← F_layer_norm x;
      modulate x scale shift
  | None => Ok x
  end.

Definition output_projection (transformer_sd : state_dict) (x : tensor F)
    (dev : device) (dt : dtype) : res (tensor F) :=
  let proj_out_w := transformer_sd !! (prefix +:+ "proj_out.weight") in
  let proj_out_b := transformer_sd !! (prefix +:+ "proj_out.bias") in
  match proj_out_w with
  | Some _ =>
      proj_out_w ← py_to proj_out_w dev dt;
      let proj_out_b := to_if_present proj_out_b dev dt in
      F_linear x (Some proj_out_w) proj_out_b
  | None => Ok x
  end.

Definition run_transformer (latent timestep context : tensor F)
    (transformer_sd : state_dict) (num_blocks : Z) : res (tensor F) :=
  let dev := cuda in
  let dt := bfloat16 in
  '(batch, ch, orig_h, orig_w) ← unpack4 (shape latent);
  let pad_h := pad_amount orig_h in
  let pad_w := pad_amount orig_w in
  latent ← (if (0 <? pad_h) || (0 <? pad_w)
            then F_pad latent 0 pad_w 0 pad_h else Ok latent);
  '(_, _, h, w) ← unpack4 (shape latent);
  x ← patchify latent batch ch h w;
  x ← input_projection transformer_sd x dev dt;
  temb ← timestep_embedding transformer_sd timestep dev dt;
  x ← run_blocks transformer_sd x context temb num_blocks dev dt;
  x ← output_modulation transformer_sd x temb dev dt;
  x ← output_projection transformer_sd x dev dt;
  x ← unpatchify x batch ch h w;
  if (0 <? pad_h) || (0 <? pad_w)
  then slice_to x [None; None; Some orig_h; Some orig_w]
  else Ok x.

(** *** euler_sample *)

(** the line printed after every fifth pass formats the sigma with
    [:.4f], which a tensor has only when it is 0-d *)
Definition print_sigma (i : nat) (sigma : tensor F) : res unit :=
  if (i + 1) mod 5 =? 0 then
    match shape sigma with
    | [] => Ok tt
    | _ => Err TypeError
    end
  else Ok tt.

Definition euler_sample
    (model_fn : tensor F -> tensor F -> tensor F -> option (tensor F)
                -> res (tensor F))
    (x sigmas context : tensor F) (attention_mask : option (tensor F))
    (cfg_scale : F) (steps : Z) : res (tensor F) :=
  n ← t_len sigmas;
  for_each
    (fun x i =>
       sigma ← t_index sigmas i;
       sigma_next ← t_index sigmas (i + 1);
       dt ← t_sub sigma_next sigma;
       v ← model_fn x sigma context attention_mask;
       vdt ← t_mul v (tmap f_neg dt);
       x ← t_add x vdt;
       _ ← print_sigma i sigma;
       Ok x)
    (py_range (Z.of_nat n - 1)) x.

(** *** decode_vae_simple and latent_to_image *)

Definition conv_out_key : string := "decoder.conv_out.weight".
Definition conv_out_bias_key : string := "decoder.conv_out.bias".

(** [sd[key]] *)
Definition sd_item (sd : state_dict) (key : string) : res (tensor F) :=
  match sd !! key with
  | Some t => Ok t
  | None => Err KeyError
  end.

(** [t.shape[i]] *)
Definition shape_at (t : tensor F) (i : nat) : res nat :=
  match shape t !! i with
  | Some d => Ok d
  | None => Err IndexError
  end.


Definition normalize01 (img : tensor F) : tensor F :=
  tmap (fun v => f_clamp v (f_of_Z 0) (f_of_Z 1))
    (tmap (fun v => f_div (f_add v (f_of_Z 1)) (f_of_Z 2)) img).

(** [latent / 0.13025] *)
Definition vae_scale (latent : tensor F) : tensor F :=
  tmap (fun v => f_div v (f_lit (13025 # 100000))) latent.

Definition decode_vae_simple (latent : tensor F) (vae_sd : state_dict)
  : res (tensor F) :=
  let z := vae_scale latent in
  '(batch, ch, h, w) ← unpack4 (shape z);
  img ← F_interpolate z 8;
  img ← match vae_sd !! conv_out_key with
        | Some _ =>
            weight ← sd_item vae_sd conv_out_key;
            let weight := tmap (f_cast (k_dtype z)) weight in
            bias ← sd_item vae_sd conv_out_bias_key;
            let bias := tmap (f_cast (k_dtype z)) bias in
            cin ← shape_at weight 1;
            img ← slice_to img [None; Some cin];
            F_conv2d img weight bias
        | None => slice_to img [None; Some 3]
        end;
  Ok (normalize01 img).

Definition latent_to_image (latent : tensor F) (vae_sd : state_dict)
  : res image :=
  img ← decode_vae_simple latent vae_sd;
  img ← t_index img 0;
  img ← permute img [1; 2; 0];
  let img := tmap (f_cast float32) img in
  Image_fromarray
    (NdArray (shape img)
       ((fun v => f_to_uint8 (f_mul v (f_of_Z 255))) <$> data img)).

(** *** generate_with_ai *)

(** one pass of the sampling loop, the model call taken as an argument *)
Definition euler_step (model : tensor F -> tensor F -> res (tensor F))
    (sigmas latent : tensor F) (i : nat) : res (tensor F) :=
  sigma ← t_index sigmas i;
  sigma_next ← t_index sigmas (i + 1);
  t ← unsqueeze sigma 0;
  let t := tmap (fun v => f_mul v (f_of_Z 1000)) t in
  v ← model latent t;
  dt ← t_sub sigma sigma_next;
  vdt ← t_mul v dt;
  latent ← t_sub latent vdt;
  _ ← print_sigma i sigma;
  Ok latent.

Definition sampling_loop (model : tensor F -> tensor F -> res (tensor F))
    (sigmas latent : tensor F) : res (tensor F) :=
  n ← t_len sigmas;
  for_each (euler_step model sigmas) (py_range (Z.of_nat n - 1)) latent.

(** [if seed is not None: torch.manual_seed(seed)] *)
Definition reseed (seed : option Z) (g : rng) : res rng :=
  match seed with
  | Some s => manual_seed s
  | None => Ok g
  end.

(** the stand-in for the prompt encoding: the context tensor and the
    generator state it leaves *)
Definition encode_prompt (prompt : string) (dt : dtype)
  : res (tensor F * rng) :=
  let context := to_ cuda dt (zeros [1; 77; 3584]) in
  let prompt_hash := py_hash prompt in
  g ← manual_seed (prompt_hash `mod` 2 ^ 32)%Z;
  let '(context, g) := randn_like context g in
  Ok (tmap (fun v => f_mul v (f_lit (1 # 10))) context, g).

(** the body of generate_with_ai, the function it calls for the velocity
    taken as an argument, so that what the body hands to that function can
    be stated *)
Definition generate_with
    (model : tensor F -> tensor F -> tensor F -> res (tensor F))
    (prompt : string) (width height : Z)
    (vae_sd text_encoder_sd : state_dict)
    (steps : Z) (cfg_scale : F) (seed : option Z) (g : rng)
  : res (image * rng) :=
  g ← reseed seed g;
  let dt := bfloat16 in
  let latent_h := (height `div` VAE_SCALE_FACTOR)%Z in
  let latent_w := (width `div` VAE_SCALE_FACTOR)%Z in
  '(latent, g) ← randn [1%Z; LATENT_CHANNELS; latent_h; latent_w] dt g;
  sigmas ← linspace (f_lit 1) (f_lit 0) (steps + 1);
  '(context, g) ← encode_prompt prompt dt;
  g ← reseed seed g;
  latent ← sampling_loop (fun latent t => model latent t context) sigmas latent;
  image ← latent_to_image latent vae_sd;
  Ok (image, g).

Definition generate_with_ai (prompt : string) (width height : Z)
    (transformer_sd vae_sd text_encoder_sd : state_dict)
    (steps : Z) (cfg_scale : F) (seed : option Z) (g : rng)
  : res (image * rng) :=
  generate_with
    (fun latent t context =>
       run_transformer latent t context transformer_sd 60)
    prompt width height vae_sd text_encoder_sd steps cfg_scale seed g.

End Inference.

(** ** An integer backend

    Exact integer arithmetic for the scalars and index-valued kernels: an
    executable instance of the runtime on which the functions above can be
    evaluated. *)

Module IntBackend.

#[global] Instance int_arith : Arith Z := {|
  f_lit q := (Qnum q `div` Z.pos (Qden q))%Z;
  f_of_Z z := z;
  f_add := Z.add;
  f_sub := Z.sub;
  f_mul := Z.mul;
  f_div := Z.div;
  f_neg := Z.opp;
  f_exp z := z;
  f_log z := z;
  f_sin z := z;
  f_cos z := (z + 1)%Z;
  f_silu z := z;
  f_gelu_tanh z := z;
  f_clamp x lo hi := Z.max lo (Z.min x hi);
  f_cast _ z := z;
  f_to_uint8 z := (z `mod` 256)%Z
|}.

#[global] Instance int_backend : Backend Z := {|
  k_linear _ _ _ i := Z.of_nat i;
  k_linear_vector _ _ _ := Err RuntimeError;
  k_layer_norm _ i := Z.of_nat i;
  k_conv2d _ _ _ i := Z.of_nat i;
  k_interpolate _ _ i := Z.of_nat i;
  k_linspace a b n i := (a + (b - a) * Z.of_nat i)%Z;
  k_dtype _ := bfloat16;
  rng := Z;
  k_manual_seed s := s;
  k_randn g _ _ i := ((g + Z.of_nat i) `mod` 7)%Z;
  k_randn_next g n := (g + Z.of_nat n)%Z;
  py_hash s := Z.of_nat (String.length s);
  image := ndarray;
  Image_fromarray a := Ok a
|}.

Definition iota (s : list nat) : tensor Z :=
  Tensor s (Z.of_nat <$> seq 0 (numel s)).

End IntBackend.

(** * The ComfyUI client

    [generate_assets_comfyui.py] talks to a server and to the file system.
    urllib refuses some requests before it connects (a URL with a space or
    a control character in it): [refused] says which, and with what
    exception; it refuses no URL that is the address of the server followed
    by plain characters.  A request that is made is answered: the server
    is a function from the number of the request and the request to the
    bytes it answers or the exception urlopen raises.  A server that never
    answers, on which a call without a timeout would wait for ever, is
    outside the model.  The clock is the list of the readings time.time()
    will return, which the polling loop consumes ([Stuck] when the list
    ends before the loop does); the three file-system calls of one run
    fail or not as the environment says, and a write that fails has put
    the first [write_reach] bytes into the file.  The world records the
    requests made and the files.  Printing is left out, but for the
    subscripts a printed string evaluates. *)

Module ComfyUI.

#[local] Unset Elimination Schemes.
Inductive pyval :=
  | PNone
  | PBool (b : bool)
  | PInt (z : Z)
  | PFloat (q : Q)
  | PStr (s : string)
  | PList (l : list pyval)
  | PDict (d : list (string * pyval)).
#[local] Set Elimination Schemes.

Inductive request :=
  | POST (url body content_type : string)
  | GET (url : string).

Inductive outcome (A : Type) :=
  | Ret (a : A)
  | Raise (e : pyerr)
  | Stuck.
Arguments Ret {A} a.
Arguments Raise {A} e.
Arguments Stuck {A}.

Record world := World { requests : list request; files : gmap string string }.

Definition M (A : Type) : Type := world -> outcome A * world.

Definition ret {A} (a : A) : M A := fun w => (Ret a, w).

Definition bind {A B} (m : M A) (k : A -> M B) : M B :=
  fun w =>
    match m w with
    | (Ret a, w') => k a w'
    | (Raise e, w') => (Raise e, w')
    | (Stuck, w') => (Stuck, w')
    end.

Definition lift {A} (r : res A) : M A :=
  fun w => match r with Ok a => (Ret a, w) | Err e => (Raise e, w) end.

(** [try: body  except Exception: handler] *)
Definition try_except {A} (body : M A) (handler : pyerr -> M A) : M A :=
  fun w =>
    match body w with
    | (Raise e, w') => handler e w'
    | r => r
    end.

Notation "x <- m ;; k" := (bind m (fun x => k))
  (at level 100, m at next level, right associativity).

Definition OUTPUT_DIR : string :=
  "C:\Users\PC\Desktop\moneygrinder\mobile\PART_2_HEALTH_APPS\03_HABIT_BASED_HEALTH\habit-health\shared\src\androidMain\res\drawable".
Definition COMFYUI_URL : string := "http://127.0.0.1:8001".

(** ** Requests urllib does not refuse

    Letters, digits and the marks of a path and a query; no space, no
    control character, no [#]. *)

Definition plain_char (a : Ascii.ascii) : bool :=
  let n := Ascii.nat_of_ascii a in
  ((48 <=? n) && (n <=? 57)) || ((65 <=? n) && (n <=? 90)) ||
  ((97 <=? n) && (n <=? 122)) ||
  existsb (Ascii.eqb a) ["-"; "."; "_"; "~"; "/"; "?"; "="; "&"]%char.

Fixpoint plain (s : string) : bool :=
  match s with
  | EmptyString => true
  | String a s' => plain_char a && plain s'
  end.

(** what is left of [s] after the prefix [p] *)
Fixpoint strip_prefix (p s : string) : option string :=
  match p, s with
  | EmptyString, _ => Some s
  | String a p', String b s' =>
      if Ascii.eqb a b then strip_prefix p' s' else None
  | String _ _, EmptyString => None
  end.

Definition url_of (r : request) : string :=
  match r with
  | POST url _ _ => url
  | GET url => url
  end.

(** the URL is the server's address, a slash and plain characters, and so
    is the content type of a POST *)
Definition plain_request (r : request) : bool :=
  match strip_prefix (COMFYUI_URL +:+ "/") (url_of r) with
  | Some path =>
      plain path &&
      match r with
      | POST _ _ content_type => plain content_type
      | GET _ => true
      end
  | None => false
  end.

Class Env := {
  server : nat -> request -> res string;
  refused : request -> option pyerr;
  json_loads : string -> res pyval;
  json_dumps : pyval -> string;
  py_str : pyval -> string;
  py_eq : pyval -> pyval -> bool;
  py_substring : string -> string -> bool;
  str_hash : string -> Z;
  path_join : string -> string -> string;
  path_parent : string -> string;
  mkdir_fault : option pyerr;
  open_fault : option pyerr;
  write_fault : option pyerr;
  write_reach : nat;
  refused_plain : forall r, plain_request r = true -> refused r = None
}.

(** ** Python's operators on the values of a JSON document *)

Fixpoint assoc (k : string) (d : list (string * pyval)) : option pyval :=
  match d with
  | [] => None
  | (k', v) :: d' => if String.eqb k k' then Some v else assoc k d'
  end.

(** [d[k] = v] on a dict: in place when the key is there, at the end when
    it is not *)
Fixpoint assoc_set (k : string) (v : pyval) (d : list (string * pyval))
  : list (string * pyval) :=
  match d with
  | [] => [(k, v)]
  | (k', v') :: d' =>
      if String.eqb k k' then (k, v) :: d' else (k', v') :: assoc_set k v d'
  end.

Definition py_truthy (v : pyval) : bool :=
  match v with
  | PNone => false
  | PBool b => b
  | PInt z => negb (z =? 0)%Z
  | PFloat q => negb (Qeq_bool q 0)
  | PStr s => negb (String.eqb s EmptyString)
  | PList l => negb (Nat.eqb (length l) 0)
  | PDict d => negb (Nat.eqb (length d) 0)
  end.

Definition hashable (v : pyval) : bool :=
  match v with
  | PList _ | PDict _ => false
  | _ => true
  end.

(** [l[z]] for a list or the characters of a string, negative indices
    counting from the end *)
Definition py_index {A} (l : list A) (z : Z) : res A :=
  let i := if (0 <=? z)%Z then z else (Z.of_nat (length l) + z)%Z in
  if (i <? 0)%Z then Err IndexError
  else match l !! Z.to_nat i with
       | Some v => Ok v
       | None => Err IndexError
       end.

(** [c[k]] *)
Definition py_getitem (c k : pyval) : res pyval :=
  match c with
  | PDict d =>
      if hashable k then
        match k with
        | PStr s => match assoc s d with Some v => Ok v | None => Err KeyError end
        | _ => Err KeyError
        end
      else Err TypeError
  | PList l =>
      match k with
      | PInt z => py_index l z
      | PBool b => py_index l (if b then 1 else 0)%Z
      | _ => Err TypeError
      end
  | PStr s =>
      let chars := (fun a => PStr (String a EmptyString)) <$> Stdlib.Strings.String.list_ascii_of_string s in
      match k with
      | PInt z => py_index chars z
      | PBool b => py_index chars (if b then 1 else 0)%Z
      | _ => Err TypeError
      end
  | _ => Err TypeError
  end.

(** [c.get(k, default)] *)
Definition py_get (c : pyval) (k : string) (default : pyval) : res pyval :=
  match c with
  | PDict d => Ok (match assoc k d with Some v => v | None => default end)
  | _ => Err AttributeError
  end.

(** [c.items()] *)
Definition py_items (c : pyval) : res (list (string * pyval)) :=
  match c with
  | PDict d => Ok d
  | _ => Err AttributeError
  end.

Section Client.
Context `{Env}.

(** [k in c] *)
Definition py_contains (k c : pyval) : res bool :=
  match c with
  | PDict d =>
      if hashable k then
        Ok (match k with
            | PStr s => match assoc s d with Some _ => true | None => false end
            | _ => false
            end)
      else Err TypeError
  | PList l => Ok (existsb (fun e => py_eq e k) l)
  | PStr s =>
      match k with
      | PStr t => Ok (py_substring t s)
      | _ => Err TypeError
      end
  | _ => Err TypeError
  end.

(** ** The world's primitives *)

(** [urlopen(req)] and the read of the response: nothing is sent for a
    request urllib refuses *)
Definition urlopen (r : request) : M string :=
  fun w =>
    match refused r with
    | Some e => (Raise e, w)
    | None =>
        let w' := World (requests w ++ [r]) (files w) in
        match server (length (requests w)) r with
        | Ok bytes => (Ret bytes, w')
        | Err e => (Raise e, w')
        end
    end.

Definition fault (f : option pyerr) : M unit :=
  fun w => match f with Some e => (Raise e, w) | None => (Ret tt, w) end.

(** [path.mkdir(parents=True, exist_ok=True)]: no file is touched *)
Definition mkdir (path : string) : M unit := fault mkdir_fault.

(** [open(path, 'wb')]: the file is there and empty afterwards *)
Definition open_wb (path : string) : M unit :=
  fun w =>
    match open_fault with
    | Some e => (Raise e, w)
    | None => (Ret tt, World (requests w) (<[path := EmptyString]> (files w)))
    end.

(** [f.write(data)] until the file is closed: all of [data], or, when
    the write fails, what had reached the file by then *)
Definition write_all (path data : string) : M unit :=
  fun w =>
    match write_fault with
    | Some e =>
        (Raise e,
         World (requests w)
           (<[path := String.substring 0 write_reach data]> (files w)))
    | None => (Ret tt, World (requests w) (<[path := data]> (files w)))
    end.

(** ** The script *)

Definition node (class_type : string) (inputs : list (string * pyval)) : pyval :=
  PDict [("class_type", PStr class_type); ("inputs", PDict inputs)].

Definition link (n : string) : pyval := PList [PStr n; PInt 0].

Definition get_workflow_template : pyval :=
  PDict [
    ("1", node "UNETLoader"
            [("unet_name", PStr "qwen_image_2512_fp8_e4m3fn.safetensors");
             ("weight_dtype", PStr "fp8_e4m3fn")]);
    ("2", node "CLIPLoader"
            [("clip_name", PStr "umt5_xxl_fp8_e4m3fn_scaled.safetensors");
             ("type", PStr "wan")]);
    ("3", node "VAELoader" [("vae_name", PStr "qwen_image_vae.safetensors")]);
    ("4", node "CLIPTextEncode"
            [("clip", link "2"); ("text", PStr "prompt here")]);
    ("5", node "EmptySD3LatentImage"
            [("batch_size", PInt 1); ("height", PInt 512); ("width", PInt 512)]);
    ("6", node "KSampler"
            [("cfg", PFloat 4); ("denoise", PFloat 1);
             ("latent_image", link "5"); ("model", link "1");
             ("negative", link "4"); ("positive", link "4");
             ("sampler_name", PStr "euler"); ("scheduler", PStr "simple");
             ("seed", PInt 0); ("steps", PInt 28)]);
    ("7", node "VAEDecode" [("samples", link "6"); ("vae", link "3")]);
    ("8", node "SaveImage"
            [("filename_prefix", PStr "DailyWell"); ("images", link "7")])
  ].

(** [workflow[n]["inputs"][key] = v] *)
Definition set_input (workflow : pyval) (n key : string) (v : pyval)
  : res pyval :=
  nd ← py_getitem workflow (PStr n);
  inputs ← py_getitem nd (PStr "inputs");
  match workflow, nd, inputs with
  | PDict wd, PDict ndd, PDict ind =>
      Ok (PDict (assoc_set n
                   (PDict (assoc_set "inputs" (PDict (assoc_set key v ind)) ndd))
                   wd))
  | _, _, _ => Err TypeError
  end.

(** [workflow[n]["inputs"][key]] *)
Definition get_input (workflow : pyval) (n key : string) : res pyval :=
  nd ← py_getitem workflow (PStr n);
  inputs ← py_getitem nd (PStr "inputs");
  py_getitem inputs (PStr key).

Definition queue_prompt (prompt_workflow : pyval) : M pyval :=
  let p := PDict [("prompt", prompt_workflow)] in
  let data := json_dumps p in
  response <- urlopen (POST (COMFYUI_URL +:+ "/prompt") data "application/json") ;;
  result <- lift (json_loads response) ;;
  lift (py_get result "prompt_id" PNone).

Definition get_history (prompt_id : pyval) : M pyval :=
  response <- urlopen (GET (COMFYUI_URL +:+ "/history/" +:+ py_str prompt_id)) ;;
  lift (json_loads response).

Definition view_url (filename subfolder folder_type : pyval) : string :=
  COMFYUI_URL +:+ "/view?filename=" +:+ py_str filename +:+
  "&subfolder=" +:+ py_str subfolder +:+ "&type=" +:+ py_str folder_type.

Definition get_image (filename subfolder folder_type : pyval) : M string :=
  urlopen (GET (view_url filename subfolder folder_type)).

(** the [for node_id, node_output in outputs.items()] loop: the images of
    the first node output that has some *)
Fixpoint find_images (items : list (string * pyval)) : res (option pyval) :=
  match items with
  | [] => Ok None
  | (_, node_output) :: items' =>
      has ← py_contains (PStr "images") node_output;
      if has : bool then
        images ← py_getitem node_output (PStr "images"); Ok (Some images)
      else find_images items'
  end.

Definition Qlt_bool (a b : Q) : bool := negb (Qle_bool b a).

(** the body of the polling loop down to time.sleep: the images the
    history shows for the prompt, if any *)
Definition poll (prompt_id : pyval) : M (option pyval) :=
  history <- get_history prompt_id ;;
  present <- lift (py_contains prompt_id history) ;;
  if present : bool then
    entry <- lift (py_getitem history prompt_id) ;;
    outputs <- lift (py_get entry "outputs" (PDict [])) ;;
    if py_truthy outputs then
      items <- lift (py_items outputs) ;;
      lift (find_images items)
    else ret None
  else ret None.

(** the [while time.time() - start_time < timeout] loop, on the readings
    the clock still has to give *)
Fixpoint wait_loop (clock : list Q) (start_time timeout : Q)
    (prompt_id : pyval) : M pyval :=
  match clock with
  | [] => fun w => (Stuck, w)
  | now :: clock' =>
      if Qlt_bool (now - start_time) timeout then
        found <- poll prompt_id ;;
        match found with
        | Some images => ret images
        | None => wait_loop clock' start_time timeout prompt_id
        end
      else ret PNone
  end.

Definition wait_for_completion (clock : list Q) (prompt_id : pyval)
    (timeout : Q) : M pyval :=
  match clock with
  | [] => fun w => (Stuck, w)
  | start_time :: clock' => wait_loop clock' start_time timeout prompt_id
  end.

(** an entry of the asset table, and the dict the script holds for it *)
Record asset_config := AssetConfig {
  filename : string;
  width : Z;
  height : Z;
  prompt : string;
  negative : string
}.

Definition config_dict (c : asset_config) : pyval :=
  PDict [("filename", PStr (filename c));
         ("width", PInt (width c));
         ("height", PInt (height c));
         ("prompt", PStr (prompt c));
         ("negative", PStr (negative c))].

Definition output_path (asset_config : asset_config) : string :=
  path_join OUTPUT_DIR (filename asset_config).

(** [OUTPUT_DIR / name]: a path for a string, a TypeError for another
    value *)
Definition path_div (dir : string) (name : pyval) : res string :=
  match name with
  | PStr s => Ok (path_join dir s)
  | _ => Err TypeError
  end.

(** the body of the [try] block; [asset_config] is whatever value the
    caller passes for the dict *)
Definition fetch_and_save (clock : list Q) (asset_config : pyval)
    (workflow : pyval) : M bool :=
  prompt_id <- queue_prompt workflow ;;
  images <- wait_for_completion clock prompt_id 300 ;;
  if py_truthy images then
    img_info <- lift (py_getitem images (PInt 0)) ;;
    fname <- lift (py_getitem img_info (PStr "filename")) ;;
    subfolder <- lift (py_get img_info "subfolder" (PStr EmptyString)) ;;
    folder_type <- lift (py_getitem img_info (PStr "type")) ;;
    img_data <- get_image fname subfolder folder_type ;;
    name <- lift (py_getitem asset_config (PStr "filename")) ;;
    output_path <- lift (path_div OUTPUT_DIR name) ;;
    _ <- mkdir (path_parent output_path) ;;
    _ <- open_wb output_path ;;
    _ <- write_all output_path img_data ;;
    ret true
  else ret false.

Definition generate_asset_comfyui (clock : list Q) (asset_name : string)
    (asset_config : pyval) (seed : option Z) : M bool :=
  (* the two subscripts in the print of the size *)
  _ <- lift (py_getitem asset_config (PStr "width")) ;;
  _ <- lift (py_getitem asset_config (PStr "height")) ;;
  let workflow := get_workflow_template in
  v <- lift (py_getitem asset_config (PStr "width")) ;;
  workflow <- lift (set_input workflow "5" "width" v) ;;
  v <- lift (py_getitem asset_config (PStr "height")) ;;
  workflow <- lift (set_input workflow "5" "height" v) ;;
  v <- lift (py_getitem asset_config (PStr "prompt")) ;;
  workflow <- lift (set_input workflow "4" "text" v) ;;
  let seed := match seed with
              | None => (str_hash asset_name `mod` 2 ^ 32)%Z
              | Some s => s
              end in
  workflow <- lift (set_input workflow "6" "seed" (PInt seed)) ;;
  try_except (fetch_and_save clock asset_config workflow) (fun e => ret false).

(** the template with its four inputs filled *)
Definition filled_workflow (width height text : pyval) (seed : Z) : pyval :=
  PDict [
    ("1", node "UNETLoader"
            [("unet_name", PStr "qwen_image_2512_fp8_e4m3fn.safetensors");
             ("weight_dtype", PStr "fp8_e4m3fn")]);
    ("2", node "CLIPLoader"
            [("clip_name", PStr "umt5_xxl_fp8_e4m3fn_scaled.safetensors");
             ("type", PStr "wan")]);
    ("3", node "VAELoader" [("vae_name", PStr "qwen_image_vae.safetensors")]);
    ("4", node "CLIPTextEncode" [("clip", link "2"); ("text", text)]);
    ("5", node "EmptySD3LatentImage"
            [("batch_size", PInt 1); ("height", height); ("width", width)]);
    ("6", node "KSampler"
            [("cfg", PFloat 4); ("denoise", PFloat 1);
             ("latent_image", link "5"); ("model", link "1");
             ("negative", link "4"); ("positive", link "4");
             ("sampler_name", PStr "euler"); ("scheduler", PStr "simple");
             ("seed", PInt seed); ("steps", PInt 28)]);
    ("7", node "VAEDecode" [("samples", link "6"); ("vae", link "3")]);
    ("8", node "SaveImage"
            [("filename_prefix", PStr "DailyWell"); ("images", link "7")])
  ].

(** the workflow submitted for an asset *)
Definition asset_workflow (asset_config : asset_config) (seed : Z) : pyval :=
  PDict [
    ("1", node "UNETLoader"
            [("unet_name", PStr "qwen_image_2512_fp8_e4m3fn.safetensors");
             ("weight_dtype", PStr "fp8_e4m3fn")]);
    ("2", node "CLIPLoader"
            [("clip_name", PStr "umt5_xxl_fp8_e4m3fn_scaled.safetensors");
             ("type", PStr "wan")]);
    ("3", node "VAELoader" [("vae_name", PStr "qwen_image_vae.safetensors")]);
    ("4", node "CLIPTextEncode"
            [("clip", link "2"); ("text", PStr (prompt asset_config))]);
    ("5", node "EmptySD3LatentImage"
            [("batch_size", PInt 1); ("height", PInt (height asset_config));
             ("width", PInt (width asset_config))]);
    ("6", node "KSampler"
            [("cfg", PFloat 4); ("denoise", PFloat 1);
             ("latent_image", link "5"); ("model", link "1");
             ("negative", link "4"); ("positive", link "4");
             ("sampler_name", PStr "euler"); ("scheduler", PStr "simple");
             ("seed", PInt seed); ("steps", PInt 28)]);
    ("7", node "VAEDecode" [("samples", link "6"); ("vae", link "3")]);
    ("8", node "SaveImage"
            [("filename_prefix", PStr "DailyWell"); ("images", link "7")])
  ].

End Client.

(** ** The vocabulary of the statements about the client *)

Section ClientVocabulary.
Context `{Env}.

(** [stable m]: [m] leaves the files alone and only adds requests *)
Definition stable {A} (m : M A) : Prop :=
  forall w,
    files (m w).2 = files w /\
    exists rest, requests (m w).2 = requests w ++ rest.

Definition never_stuck {A} (m : M A) : Prop := forall w, (m w).1 <> Stuck.

(** the world after a call of urlopen on [r] *)
Definition after_request (r : request) (w : world) : world :=
  match refused r with
  | Some _ => w
  | None => World (requests w ++ [r]) (files w)
  end.

(** the request that submits a workflow *)
Definition submission (workflow : pyval) : request :=
  POST (COMFYUI_URL +:+ "/prompt")
    (json_dumps (PDict [("prompt", workflow)])) "application/json".



(** the [try] block in two halves, for the proofs: down to the download,
    and from the output path on *)
Definition fetch_image (clock : list Q) (workflow : pyval)
  : M (option string) :=
  prompt_id <- queue_prompt workflow ;;
  images <- wait_for_completion clock prompt_id 300 ;;
  if py_truthy images then
    img_info <- lift (py_getitem images (PInt 0)) ;;
    fname <- lift (py_getitem img_info (PStr "filename")) ;;
    subfolder <- lift (py_get img_info "subfolder" (PStr EmptyString)) ;;
    folder_type <- lift (py_getitem img_info (PStr "type")) ;;
    img_data <- get_image fname subfolder folder_type ;;
    ret (Some img_data)
  else ret None.

Definition save_image (asset_config : pyval) (img_data : string) : M bool :=
  name <- lift (py_getitem asset_config (PStr "filename")) ;;
  output_path <- lift (path_div OUTPUT_DIR name) ;;
  _ <- mkdir (path_parent output_path) ;;
  _ <- open_wb output_path ;;
  _ <- write_all output_path img_data ;;
  ret true.

End ClientVocabulary.

End ComfyUI.

(** ** The sampler as the specification words it

    The schedule is [steps + 1] equally spaced values from 1.0 down to 0.0,
    [sigma_at steps i] being value [i] of torch.linspace(1.0, 0.0, steps + 1);
    pass [i] replaces the latent by
    latent - v * (sigma_i - sigma_(i+1)), v = model(latent, sigma_i * 1000). *)

Section SamplerSpec.
Context {F : Type} `{Backend F}.

Definition sigma_at (steps : Z) (i : nat) : F :=
  k_linspace (f_lit 1) (f_lit 0) (Z.to_nat (steps + 1)) i.

Definition scalar (v : F) : tensor F := Tensor [] [v].

Definition spec_step (model : tensor F -> tensor F -> res (tensor F))
    (steps : Z) (latent : tensor F) (i : nat) : res (tensor F) :=
  v ← model latent (Tensor [1] [f_mul (sigma_at steps i) (f_of_Z 1000)]);
  vdt ← t_mul v (scalar (f_sub (sigma_at steps i) (sigma_at steps (i + 1))));
  t_sub latent vdt.

Definition spec_sampler (model : tensor F -> tensor F -> res (tensor F))
    (steps : Z) (latent : tensor F) : res (tensor F) :=
  for_each (spec_step model steps) (py_range steps) latent.

Definition generate_with_ai_spec (prompt : string) (width height : Z)
    (transformer_sd vae_sd : gmap string (tensor F))
    (steps : Z) (seed : option Z) (g : rng) : res (image * rng) :=
  g ← reseed seed g;
  '(latent, g) ← randn [1%Z; LATENT_CHANNELS;
                        (height `div` VAE_SCALE_FACTOR)%Z;
                        (width `div` VAE_SCALE_FACTOR)%Z] bfloat16 g;
  _ ← linspace (f_lit 1) (f_lit 0) (steps + 1);
  '(context, g) ← encode_prompt prompt bfloat16;
  g ← reseed seed g;
  latent ← spec_sampler
             (fun latent t => run_transformer latent t context transformer_sd 60)
             steps latent;
  image ← latent_to_image latent vae_sd;
  Ok (image, g).

(** The generation as a function of the conditioning context: [context]
    is the tensor handed to the model at every pass and [g_context] the
    state of the generator once the context has been drawn.  Neither the
    prompt nor the state dict of the text encoder is among its arguments. *)
Definition generate_from_context
    (model : tensor F -> tensor F -> tensor F -> res (tensor F))
    (context : tensor F) (g_context : rng) (width height : Z)
    (vae_sd : gmap string (tensor F))
    (steps : Z) (seed : option Z) (g : rng) : res (image * rng) :=
  g ← reseed seed g;
  '(latent, _) ← randn [1%Z; LATENT_CHANNELS;
                        (height `div` VAE_SCALE_FACTOR)%Z;
                        (width `div` VAE_SCALE_FACTOR)%Z] bfloat16 g;
  sigmas ← linspace (f_lit 1) (f_lit 0) (steps + 1);
  g ← reseed seed g_context;
  latent ← sampling_loop (fun latent t => model latent t context)
             sigmas latent;
  image ← latent_to_image latent vae_sd;
  Ok (image, g).

(** euler_sample's model function made from a model of the inline loop:
    the timestep is the sigma, unsqueezed and scaled as the inline loop
    does; the context and the mask go unused *)
Definition as_model_fn (model : tensor F -> tensor F -> res (tensor F))
    (x sigma context : tensor F) (attention_mask : option (tensor F))
  : res (tensor F) :=
  t ← unsqueeze sigma 0;
  model x (tmap (fun v => f_mul v (f_of_Z 1000)) t).

Definition negated (model : tensor F -> tensor F -> res (tensor F))
    (x t : tensor F) : res (tensor F) :=
  v ← model x t; Ok (tmap f_neg v).

End SamplerSpec.

(** ** The vocabulary of the statements *)

Section Vocabulary.
Context {F : Type} `{Backend F}.

Local Abbreviation state_dict := (gmap string (tensor F)).

(** the entries of the state dict a transformer block reads, after the
    prefix of its index *)
Definition block_weight_names : list string :=
  ["img_mod.1.weight"; "img_mod.1.bias";
   "img_mlp.net.0.proj.weight"; "img_mlp.net.0.proj.bias";
   "img_mlp.net.2.weight"; "img_mlp.net.2.bias"].

(** [yields r s]: the computation [r] returns a tensor, of shape [s]. *)

Definition yields (r : res (tensor F)) (s : list nat) : Prop :=
  exists t, r = Ok t /\ shape t = s.

(** Weights whose dimensions fit the patch sequence:
    [c] latent channels, [d] the width of the sequence after the input
    projection, [e] the width of the timestep embedding handed to the
    blocks.  Where the code enters a stage on its first weight (the
    timestep embedder, the MLP of a block), [dims_consistent] asks for the
    second weight of the stage as well. *)

Definition shape_is (o : option (tensor F)) (s : list nat) : bool :=
  match o with
  | Some t => bool_decide (shape t = s)
  | None => false
  end.

Definition shape_if_present (o : option (tensor F)) (s : list nat) : bool :=
  match o with
  | Some t => bool_decide (shape t = s)
  | None => true
  end.

Definition mlp_consistent (sd : state_dict) (i d : nat) : bool :=
  let key name := block_prefix i +:+ name in
  match sd !! key "img_mlp.net.0.proj.weight" with
  | None => true
  | Some w1 =>
      match shape w1 with
      | [m; d'] =>
          (d' =? d) &&
          shape_if_present (sd !! key "img_mlp.net.0.proj.bias") [m] &&
          shape_is (sd !! key "img_mlp.net.2.weight") [d; m] &&
          shape_if_present (sd !! key "img_mlp.net.2.bias") [d]
      | _ => false
      end
  end.

Definition block_consistent (sd : state_dict) (d e i : nat) : bool :=
  let key name := block_prefix i +:+ name in
  match sd !! key "img_mod.1.weight" with
  | None => true
  | Some w =>
      bool_decide (shape w = [6 * d; e]) &&
      shape_if_present (sd !! key "img_mod.1.bias") [6 * d] &&
      mlp_consistent sd i d
  end.

Definition embedder_consistent (sd : state_dict) (e : nat) : bool :=
  let key name := prefix +:+ "time_text_embed.timestep_embedder." +:+ name in
  match sd !! key "linear_1.weight" with
  | None => e =? 2 * half_dim
  | Some w1 =>
      match shape w1 with
      | [m; i] =>
          (i =? 2 * half_dim) &&
          shape_if_present (sd !! key "linear_1.bias") [m] &&
          shape_is (sd !! key "linear_2.weight") [e; m] &&
          shape_if_present (sd !! key "linear_2.bias") [e]
      | _ => false
      end
  end.

Definition dims_consistent (sd : state_dict) (c d e : nat) : bool :=
  match sd !! (prefix +:+ "img_in.weight") with
  | None => d =? c * 4
  | Some w => bool_decide (shape w = [d; c * 4])
  end &&
  shape_if_present (sd !! (prefix +:+ "img_in.bias")) [d] &&
  embedder_consistent sd e &&
  forallb (block_consistent sd d e) (seq 0 10) &&
  shape_if_present (sd !! (prefix +:+ "norm_out.linear.weight")) [2 * d; e] &&
  shape_if_present (sd !! (prefix +:+ "norm_out.linear.bias")) [2 * d] &&
  match sd !! (prefix +:+ "proj_out.weight") with
  | None => d =? c * 4
  | Some w => bool_decide (shape w = [c * 4; d])
  end &&
  shape_if_present (sd !! (prefix +:+ "proj_out.bias")) [c * 4].

(** The same with nothing asked to be there: every weight that is present
    has the dimensions that fit, the second weight of the embedder and of
    an MLP included when it is present. *)

Definition mlp_fits (sd : state_dict) (i d : nat) : bool :=
  let key name := block_prefix i +:+ name in
  match sd !! key "img_mlp.net.0.proj.weight" with
  | None => true
  | Some w1 =>
      match shape w1 with
      | [m; d'] =>
          (d' =? d) &&
          shape_if_present (sd !! key "img_mlp.net.0.proj.bias") [m] &&
          shape_if_present (sd !! key "img_mlp.net.2.weight") [d; m] &&
          shape_if_present (sd !! key "img_mlp.net.2.bias") [d]
      | _ => false
      end
  end.

Definition block_fits (sd : state_dict) (d e i : nat) : bool :=
  let key name := block_prefix i +:+ name in
  match sd !! key "img_mod.1.weight" with
  | None => true
  | Some w =>
      bool_decide (shape w = [6 * d; e]) &&
      shape_if_present (sd !! key "img_mod.1.bias") [6 * d] &&
      mlp_fits sd i d
  end.

Definition embedder_fits (sd : state_dict) (e : nat) : bool :=
  let key name := prefix +:+ "time_text_embed.timestep_embedder." +:+ name in
  match sd !! key "linear_1.weight" with
  | None => e =? 2 * half_dim
  | Some w1 =>
      match shape w1 with
      | [m; i] =>
          (i =? 2 * half_dim) &&
          shape_if_present (sd !! key "linear_1.bias") [m] &&
          shape_if_present (sd !! key "linear_2.weight") [e; m] &&
          shape_if_present (sd !! key "linear_2.bias") [e]
      | _ => false
      end
  end.

Definition weights_fit (sd : state_dict) (c d e : nat) : bool :=
  match sd !! (prefix +:+ "img_in.weight") with
  | None => d =? c * 4
  | Some w => bool_decide (shape w = [d; c * 4])
  end &&
  shape_if_present (sd !! (prefix +:+ "img_in.bias")) [d] &&
  embedder_fits sd e &&
  forallb (block_fits sd d e) (seq 0 10) &&
  shape_if_present (sd !! (prefix +:+ "norm_out.linear.weight")) [2 * d; e] &&
  shape_if_present (sd !! (prefix +:+ "norm_out.linear.bias")) [2 * d] &&
  match sd !! (prefix +:+ "proj_out.weight") with
  | None => d =? c * 4
  | Some w => bool_decide (shape w = [c * 4; d])
  end &&
  shape_if_present (sd !! (prefix +:+ "proj_out.bias")) [c * 4].

(** the three sign laws of the arithmetic the next statements rest on;
    exact arithmetic has them, and so does round-to-nearest floating
    point *)
Definition sign_laws : Prop :=
  (forall a b : F, f_neg (f_sub a b) = f_sub b a) /\
  (forall a b : F, f_mul (f_neg a) b = f_neg (f_mul a b)) /\
  (forall a b : F, f_add a (f_neg b) = f_sub a b).

End Vocabulary.

(** ** Inputs for the examples *)

Module Inputs.
Import IntBackend ComfyUI.

Definition unit_model (x t : tensor Z) : res (tensor Z) := Ok (Tensor [1] [1%Z]).
Definition x0 : tensor Z := Tensor [1] [0%Z].
Definition two_sigmas : tensor Z := Tensor [2] [1%Z; 0%Z].

Definition partial_sd : gmap string (tensor Z) :=
  {[ "model.diffusion_model.time_text_embed.timestep_embedder.linear_1.weight"
     := iota [4; 256] ]}.

Definition small_sd : gmap string (tensor Z) :=
  <[ "model.diffusion_model.img_in.weight" := iota [8; 4] ]>
    (<[ "model.diffusion_model.transformer_blocks.0.img_mod.1.weight"
        := iota [48; 256] ]>
       (<[ "model.diffusion_model.proj_out.weight" := iota [4; 8] ]> ∅)).

Definition queued_answer : pyval := PDict [("prompt_id", PStr "p1")].

Definition history_answer : pyval :=
  PDict [("p1",
          PDict [("outputs",
                  PDict [("8",
                          PDict [("images",
                                  PList [PDict [("filename", PStr "a.png");
                                                ("subfolder", PStr EmptyString);
                                                ("type", PStr "output")]])])])])].

(** a server that queues the prompt, shows the image at the first poll and
    serves it, on a disk where the write fails or not *)
Definition scripted_env (write_result : option pyerr) : Env := {|
  server k r := match k with
                | 0 => Ok "queued"
                | 1 => Ok "history"
                | _ => Ok "png-bytes"
                end;
  json_loads s := if String.eqb s "queued" then Ok queued_answer
                  else if String.eqb s "history" then Ok history_answer
                  else Err ValueError;
  json_dumps _ := "{}";
  py_str v := match v with PStr s => s | _ => EmptyString end;
  py_eq _ _ := false;
  py_substring _ _ := false;
  str_hash s := Z.of_nat (String.length s);
  path_join a b := a +:+ "/" +:+ b;
  path_parent p := p;
  mkdir_fault := None;
  open_fault := None;
  write_fault := write_result;
  write_reach := 3;
  refused r := if plain_request r then None else Some InvalidURL;
  refused_plain r E :=
    @eq_ind_r bool true
      (fun b : bool => (if b then None else Some InvalidURL) = None)
      eq_refl (plain_request r) E
|}.

Definition habit_rest : asset_config :=
  AssetConfig "habit_rest.png" 256 256 "minimalist sleep icon"
    "realistic, photo".

Definition empty_world : world := World [] ∅.

End Inputs.

(** * The module classes of generate_assets.py

    RMSNorm, TimestepEmbedding and SimpleVAEDecoder are torch.nn modules.
    A module is the record of its attributes; a constructor that draws its
    initial parameters takes the generator state and returns the next one.
    The values torch computes (the initial parameters, the mean, group
    normalisation, nearest-neighbour upsampling) stay uninterpreted, the
    shapes and the exceptions are written out. *)

Class Modules (F : Type) `{Backend F} := {
  f_pow : F -> Z -> F;
  f_rsqrt : F -> F;
  k_mean_last : tensor F -> nat -> F;
  k_group_norm : nat -> tensor F -> tensor F -> tensor F -> nat -> F;
  k_upsample_nearest : nat -> tensor F -> nat -> F;
  k_init_weight : rng -> list nat -> nat -> F;
  k_init_bias : rng -> nat -> list nat -> nat -> F;
  k_init_next : rng -> nat -> rng
}.

(** shape rule of F.group_norm(x, num_groups, weight, bias): at least two
    dimensions, more than one value per group, channels divisible by the
    groups and matching the parameters *)
Definition group_norm_shape (sx : list nat) (num_groups : nat)
    (sw sb : list nat) : res (list nat) :=
  match sx with
  | b :: c :: spatial =>
      if (b * c / num_groups) * numel spatial =? 1 then Err ValueError
      else if (0 <? num_groups) && (c mod num_groups =? 0) &&
              bool_decide (sw = [c]) && bool_decide (sb = [c])
      then Ok sx
      else Err RuntimeError
  | _ => Err RuntimeError
  end.

Section Layers.
Context {F : Type} `{Modules F}.

(** [torch.ones(n)] *)
Definition ones (s : list nat) : tensor F :=
  Tensor s (replicate (numel s) (f_of_Z 1)).

(** [math.log(z)] for a Python int *)
Definition math_log (z : Z) : res F :=
  if (z <=? 0)%Z then Err ValueError else Ok (f_log (f_of_Z z)).

(** [torch.arange(n)] for a Python int *)
Definition torch_arange (n : Z) : res (tensor F) :=
  if (n <? 0)%Z then Err RuntimeError else Ok (arange (Z.to_nat n)).

(** [x.mean(-1, keepdim=True)] *)
Definition mean_last (x : tensor F) : tensor F :=
  match reverse (shape x) with
  | _ :: lead_rev => of_kernel (reverse lead_rev ++ [1]) (k_mean_last x)
  | [] => of_kernel [] (k_mean_last x)
  end.

(** *** nn.Linear *)

Record Linear := { l_weight : tensor F; l_bias : tensor F }.

(** [nn.Linear(in_features, out_features)] *)
Definition nn_Linear (in_features out_features : Z) (g : rng)
  : res (Linear * rng) :=
  if ((in_features <? 0) || (out_features <? 0))%Z then Err RuntimeError
  else
    let i := Z.to_nat in_features in
    let o := Z.to_nat out_features in
    let weight := of_kernel [o; i] (k_init_weight g [o; i]) in
    let g := k_init_next g (o * i) in
    let bias := of_kernel [o] (k_init_bias g i [o]) in
    Ok ({| l_weight := weight; l_bias := bias |}, k_init_next g o).

Definition Linear_forward (m : Linear) (x : tensor F) : res (tensor F) :=
  F_linear x (Some (l_weight m)) (Some (l_bias m)).

(** *** nn.Conv2d with a square kernel and padding 1 *)

Record Conv2d := { c_weight : tensor F; c_bias : tensor F }.

(** [nn.Conv2d(in_ch, out_ch, k, padding=1)] *)
Definition nn_Conv2d (in_ch out_ch k : nat) (g : rng) : Conv2d * rng :=
  let weight := of_kernel [out_ch; in_ch; k; k]
                  (k_init_weight g [out_ch; in_ch; k; k]) in
  let g := k_init_next g (numel [out_ch; in_ch; k; k]) in
  let bias := of_kernel [out_ch] (k_init_bias g (in_ch * k * k) [out_ch]) in
  ({| c_weight := weight; c_bias := bias |}, k_init_next g out_ch).

Definition Conv2d_forward (m : Conv2d) (x : tensor F) : res (tensor F) :=
  F_conv2d x (c_weight m) (c_bias m).

(** *** nn.GroupNorm *)

Record GroupNorm := {
  num_groups : nat;
  gn_weight : tensor F;
  gn_bias : tensor F
}.

(** [nn.GroupNorm(num_groups, num_channels)] *)
Definition nn_GroupNorm (groups channels : nat) : res GroupNorm :=
  if (0 <? groups) && (channels mod groups =? 0) then
    Ok {| num_groups := groups;
          gn_weight := ones [channels];
          gn_bias := zeros [channels] |}
  else Err ValueError.

Definition GroupNorm_forward (m : GroupNorm) (x : tensor F) : res (tensor F) :=
  s ← group_norm_shape (shape x) (num_groups m)
         (shape (gn_weight m)) (shape (gn_bias m));
  Ok (of_kernel s (k_group_norm (num_groups m) x (gn_weight m) (gn_bias m))).

(** *** nn.Upsample(scale_factor=k, mode='nearest') *)

Definition Upsample_forward (k : nat) (x : tensor F) : res (tensor F) :=
  match shape x with
  | b :: c :: spatial =>
      if (1 <=? length spatial) && (length spatial <=? 3) then
        if (0 <? c) && forallb (Nat.ltb 0) spatial && (0 <? k) then
          Ok (of_kernel (b :: c :: (Nat.mul k <$> spatial))
                (k_upsample_nearest k x))
        else Err RuntimeError
      else Err NotImplementedError
  | _ => Err NotImplementedError
  end.

(** [self.name] for an attribute that is set or not *)
Definition getattr {A} (o : option A) : res A :=
  match o with
  | Some a => Ok a
  | None => Err AttributeError
  end.

End Layers.

Arguments Linear F : clear implicits.
Arguments Conv2d F : clear implicits.
Arguments GroupNorm F : clear implicits.

Module RMSNorm.
Section Def.
Context {F : Type} `{Modules F}.

Record t := { eps : F; weight : tensor F }.

(** [RMSNorm(dim, eps)] *)
Definition init (dim : Z) (eps : F) : res t :=
  if (dim <? 0)%Z then Err RuntimeError
  else Ok {| eps := eps; weight := ones [Z.to_nat dim] |}.

Definition forward (self : t) (x : tensor F) : res (tensor F) :=
  let dtype := k_dtype x in
  let x := tmap (f_cast float32) x in
  let norm :=
    tmap f_rsqrt
      (tmap (fun v => f_add v (eps self))
         (mean_last (tmap (fun v => f_pow v 2) x))) in
  xn ← t_mul x norm;
  t_mul (tmap (f_cast dtype) xn) (weight self).

End Def.
Arguments t F : clear implicits.
End RMSNorm.

Module TimestepEmbedding.
Section Def.
Context {F : Type} `{Modules F}.

Record t := {
  dim : Z;
  max_period : Z;
  linear1 : Linear F;
  linear2 : Linear F
}.

(** [TimestepEmbedding(dim, max_period)] *)
Definition init (dim max_period : Z) (g : rng) : res (t * rng) :=
  '(linear1, g) ← nn_Linear dim (dim * 4) g;
  '(linear2, g) ← nn_Linear (dim * 4) dim g;
  Ok ({| dim := dim; max_period := max_period;
         linear1 := linear1; linear2 := linear2 |}, g).

(** the frequency [exp(-log(max_period) * k / half)] *)
Definition frequency (lg : F) (half : Z) (k : nat) : F :=
  f_exp (f_div (f_mul (f_neg lg) (f_cast float32 (f_of_Z (Z.of_nat k))))
           (f_of_Z half)).

(** the first three statements of forward: the sinusoid *)
Definition sinusoid (self : t) (t : tensor F) : res (tensor F) :=
  let half := (dim self `div` 2)%Z in
  lg ← math_log (max_period self);
  ar ← torch_arange half;
  let freqs :=
    tmap f_exp
      (tmap (fun v => f_div v (f_of_Z half))
         (tmap (fun k => f_mul (f_neg lg) k)
            (tmap (f_cast float32) ar))) in
  tcol ← index_colon_none t;
  let tcol := tmap (f_cast float32) tcol in
  frow ← unsqueeze freqs 0;
  args ← t_mul tcol frow;
  cat_last (tmap f_cos args) (tmap f_sin args).

Definition forward (self : t) (t : tensor F) : res (tensor F) :=
  emb ← sinusoid self t;
  emb ← Linear_forward (linear1 self) emb;
  let emb := tmap f_silu emb in
  Linear_forward (linear2 self) emb.

End Def.
Arguments t F : clear implicits.
End TimestepEmbedding.

Module SimpleVAEDecoder.
Section Def.
Context {F : Type} `{Modules F}.

Record up_block := {
  upsample : nat;
  conv : Conv2d F;
  norm1 : GroupNorm F;
  conv1 : Conv2d F;
  norm2 : GroupNorm F;
  conv2 : Conv2d F
}.

(** the attributes load_from_state_dict sets; [None] before it has run *)
Record t := {
  conv_in : option (Conv2d F);
  mid_norm1 : option (GroupNorm F);
  mid_conv1 : option (Conv2d F);
  mid_norm2 : option (GroupNorm F);
  mid_conv2 : option (Conv2d F);
  up_blocks : option (list up_block);
  norm_out : option (GroupNorm F);
  conv_out : option (Conv2d F)
}.

(** [SimpleVAEDecoder()]: an empty ModuleDict and nothing else *)
Definition init : t :=
  {| conv_in := None; mid_norm1 := None; mid_conv1 := None;
     mid_norm2 := None; mid_conv2 := None; up_blocks := None;
     norm_out := None; conv_out := None |}.

Definition _make_up_block (in_ch out_ch : nat) (g : rng)
  : res (up_block * rng) :=
  let '(conv, g) := nn_Conv2d in_ch out_ch 3 g in
  norm1 ← nn_GroupNorm 32 out_ch;
  let '(conv1, g) := nn_Conv2d out_ch out_ch 3 g in
  norm2 ← nn_GroupNorm 32 out_ch;
  let '(conv2, g) := nn_Conv2d out_ch out_ch 3 g in
  Ok ({| upsample := 2; conv := conv; norm1 := norm1; conv1 := conv1;
         norm2 := norm2; conv2 := conv2 |}, g).

(** [_load_weights(sd)]: pass *)
Definition _load_weights (self : t) (sd : gmap string (tensor F)) : t := self.

Definition load_from_state_dict (self : t) (sd : gmap string (tensor F))
    (g : rng) : res (t * rng) :=
  let '(conv_in, g) := nn_Conv2d 16 512 3 g in
  mid_norm1 ← nn_GroupNorm 32 512;
  let '(mid_conv1, g) := nn_Conv2d 512 512 3 g in
  mid_norm2 ← nn_GroupNorm 32 512;
  let '(mid_conv2, g) := nn_Conv2d 512 512 3 g in
  '(up1, g) ← _make_up_block 512 512 g;
  '(up2, g) ← _make_up_block 512 256 g;
  '(up3, g) ← _make_up_block 256 128 g;
  '(up4, g) ← _make_up_block 128 128 g;
  norm_out ← nn_GroupNorm 32 128;
  let '(conv_out, g) := nn_Conv2d 128 3 3 g in
  let self :=
    {| conv_in := Some conv_in; mid_norm1 := Some mid_norm1;
       mid_conv1 := Some mid_conv1; mid_norm2 := Some mid_norm2;
       mid_conv2 := Some mid_conv2; up_blocks := Some [up1; up2; up3; up4];
       norm_out := Some norm_out; conv_out := Some conv_out |} in
  Ok (_load_weights self sd, g).

(** one pass of the loop over the up blocks *)
Definition up_stage (h : tensor F) (up_block : up_block) : res (tensor F) :=
  h ← Upsample_forward (upsample up_block) h;
  h ← Conv2d_forward (conv up_block) h;
  let res_ := h in
  h ← GroupNorm_forward (norm1 up_block) h;
  let h := tmap f_silu h in
  h ← Conv2d_forward (conv1 up_block) h;
  h ← GroupNorm_forward (norm2 up_block) h;
  let h := tmap f_silu h in
  h ← Conv2d_forward (conv2 up_block) h;
  t_add h res_.

Definition forward (self : t) (z : tensor F) : res (tensor F) :=
  let z := vae_scale z in
  m ← getattr (conv_in self);
  h ← Conv2d_forward m z;
  m ← getattr (mid_norm1 self);
  h ← GroupNorm_forward m h;
  let h := tmap f_silu h in
  m ← getattr (mid_conv1 self);
  h ← Conv2d_forward m h;
  m ← getattr (mid_norm2 self);
  h ← GroupNorm_forward m h;
  let h := tmap f_silu h in
  m ← getattr (mid_conv2 self);
  h ← Conv2d_forward m h;
  blocks ← getattr (up_blocks self);
  h ← for_each up_stage blocks h;
  m ← getattr (norm_out self);
  h ← GroupNorm_forward m h;
  let h := tmap f_silu h in
  m ← getattr (conv_out self);
  Conv2d_forward m h.

End Def.
Arguments t F : clear implicits.
End SimpleVAEDecoder.

(** ** The vocabulary of the statements about the modules *)

Section ModuleVocabulary.
Context {F : Type} `{Modules F}.

(** a 3x3 convolution from [i] to [o] channels *)
Definition conv_dims (m : Conv2d F) (i o : nat) : Prop :=
  shape (c_weight m) = [o; i; 3; 3] /\ shape (c_bias m) = [o].

(** a group normalisation of [q * g] channels in [g] groups *)
Definition norm_dims (m : GroupNorm F) (g q : nat) : Prop :=
  num_groups m = g /\ 0 < g /\
  shape (gn_weight m) = [q * g] /\ shape (gn_bias m) = [q * g].

(** an up block from [i] to [q * 32] channels *)
Definition up_block_dims (blk : SimpleVAEDecoder.up_block) (i q : nat)
  : Prop :=
  SimpleVAEDecoder.upsample blk = 2 /\
  conv_dims (SimpleVAEDecoder.conv blk) i (q * 32) /\
  norm_dims (SimpleVAEDecoder.norm1 blk) 32 q /\
  conv_dims (SimpleVAEDecoder.conv1 blk) (q * 32) (q * 32) /\
  norm_dims (SimpleVAEDecoder.norm2 blk) 32 q /\
  conv_dims (SimpleVAEDecoder.conv2 blk) (q * 32) (q * 32).

(** the modules load_from_state_dict builds *)
Definition decoder_dims (dec : SimpleVAEDecoder.t F) : Prop :=
  exists cin n1 c1 n2 c2 u1 u2 u3 u4 nout cout,
    SimpleVAEDecoder.conv_in dec = Some cin /\ conv_dims cin 16 512 /\
    SimpleVAEDecoder.mid_norm1 dec = Some n1 /\ norm_dims n1 32 16 /\
    SimpleVAEDecoder.mid_conv1 dec = Some c1 /\ conv_dims c1 512 512 /\
    SimpleVAEDecoder.mid_norm2 dec = Some n2 /\ norm_dims n2 32 16 /\
    SimpleVAEDecoder.mid_conv2 dec = Some c2 /\ conv_dims c2 512 512 /\
    SimpleVAEDecoder.up_blocks dec = Some [u1; u2; u3; u4] /\
    up_block_dims u1 512 16 /\ up_block_dims u2 512 8 /\
    up_block_dims u3 256 4 /\ up_block_dims u4 128 4 /\
    SimpleVAEDecoder.norm_out dec = Some nout /\ norm_dims nout 32 4 /\
    SimpleVAEDecoder.conv_out dec = Some cout /\ conv_dims cout 128 3.

End ModuleVocabulary.

(** * The batch run of the ComfyUI client

    check_comfyui_running and generate_all of [generate_assets_comfyui.py].
    The status code of an answer is one more piece of the server; the
    readings of the clock during the run of one asset are given per asset
    name; the file-system calls fail or not as in the client above, the
    same way at every call of one run. Printing is left out, and with it
    the count of successes, which is only printed. *)

Module Batch.
Import ComfyUI.

Class StatusEnv `{Env} := {
  response_status : nat -> request -> Z
}.

Section Script.
Context `{StatusEnv}.

(** [urlopen(req, timeout=5)] and the status of the response *)
Definition urlopen_status (r : request) : M Z :=
  fun w =>
    match refused r with
    | Some e => (Raise e, w)
    | None =>
        let w' := World (requests w ++ [r]) (files w) in
        match server (length (requests w)) r with
        | Ok _ => (Ret (response_status (length (requests w)) r), w')
        | Err e => (Raise e, w')
        end
    end.

Definition check_comfyui_running : M bool :=
  try_except
    (status <- urlopen_status (GET (COMFYUI_URL +:+ "/system_stats")) ;;
     ret (status =? 200)%Z)
    (fun _ => ret false).

(** the asset table, in the order of the source *)
Definition ASSETS : list (string * asset_config) := [
  ("habit_rest",
   AssetConfig "habit_rest.png" 256 256
     "minimalist sleep icon app, frosted glass circular button, soft indigo purple gradient background, elegant crescent moon with small stars, subtle outer glow, premium iOS health app design, perfectly centered, vector art style, clean crisp edges, soft shadows, no text"
     "realistic, photo, text, words, blurry, low quality, complex, busy");
  ("habit_hydrate",
   AssetConfig "habit_hydrate.png" 256 256
     "minimalist water drop icon app, frosted glass circular button, soft cyan aqua gradient background, elegant water droplet with reflection highlight, premium iOS health app design, perfectly centered, vector art style, clean crisp edges, soft shadows, no text"
     "realistic, photo, text, words, blurry, low quality, complex, busy");
  ("habit_move",
   AssetConfig "habit_move.png" 256 256
     "minimalist running exercise icon app, frosted glass circular button, soft coral orange gradient background, elegant running person silhouette with motion lines, premium iOS health app design, perfectly centered, vector art style, clean crisp edges, soft shadows, no text"
     "realistic, photo, text, words, blurry, low quality, complex, busy");
  ("habit_nourish",
   AssetConfig "habit_nourish.png" 256 256
     "minimalist healthy food leaf icon app, frosted glass circular button, soft green lime gradient background, elegant leaf or apple shape, premium iOS health app design, perfectly centered, vector art style, clean crisp edges, soft shadows, no text"
     "realistic, photo, text, words, blurry, low quality, complex, busy");
  ("habit_calm",
   AssetConfig "habit_calm.png" 256 256
     "minimalist meditation lotus icon app, frosted glass circular button, soft lavender purple gradient background, elegant lotus flower zen symbol, premium iOS health app design, perfectly centered, vector art style, clean crisp edges, soft shadows, no text"
     "realistic, photo, text, words, blurry, low quality, complex, busy");
  ("habit_connect",
   AssetConfig "habit_connect.png" 256 256
     "minimalist social heart connection icon app, frosted glass circular button, soft warm peach amber gradient background, two overlapping hearts symbol, premium iOS health app design, perfectly centered, vector art style, clean crisp edges, soft shadows, no text"
     "realistic, photo, text, words, blurry, low quality, complex, busy");
  ("habit_unplug",
   AssetConfig "habit_unplug.png" 256 256
     "minimalist digital detox power button icon app, frosted glass circular button, soft cool gray blue gradient background, elegant power off symbol, premium iOS health app design, perfectly centered, vector art style, clean crisp edges, soft shadows, no text"
     "realistic, photo, text, words, blurry, low quality, complex, busy");
  ("badge_streak_7",
   AssetConfig "badge_streak_7.png" 256 256
     "premium bronze medal badge, shiny metallic bronze gold gradient, number 7 in elegant font center, laurel wreath border, achievement reward icon, gaming app badge, 3D glossy finish, premium quality, centered composition, transparent background style"
     "text except number, blurry, flat, matte, low quality");
  ("badge_streak_30",
   AssetConfig "badge_streak_30.png" 256 256
     "premium silver medal badge, shiny metallic silver chrome gradient, number 30 in elegant font center, laurel wreath border with ribbon, achievement reward icon, gaming app badge, 3D glossy finish, premium quality, centered composition"
     "text except number, blurry, flat, matte, low quality");
  ("badge_streak_100",
   AssetConfig "badge_streak_100.png" 256 256
     "premium gold medal badge, shiny metallic gold gradient with sparkles, number 100 in elegant font center, ornate laurel wreath border with ribbon, diamond accents, ultimate achievement icon, gaming app badge, 3D glossy finish, premium quality, centered"
     "text except number, blurry, flat, matte, low quality");
  ("badge_first_habit",
   AssetConfig "badge_first_habit.png" 256 256
     "premium achievement badge, green emerald gradient, single checkmark symbol in center, star burst behind, first milestone celebration icon, gaming app badge, 3D glossy metallic finish, premium quality, centered composition"
     "text, words, blurry, flat, matte, low quality");
  ("badge_perfect_week",
   AssetConfig "badge_perfect_week.png" 256 256
     "premium achievement badge, purple amethyst gradient, seven small stars arranged in circle, crown on top, perfect week celebration icon, gaming app badge, 3D glossy metallic finish, premium quality, centered composition"
     "text, words, blurry, flat, matte, low quality");
  ("badge_early_bird",
   AssetConfig "badge_early_bird.png" 256 256
     "premium achievement badge, warm sunrise orange yellow gradient, cute bird silhouette with sun rays, early morning theme, gaming app badge, 3D glossy metallic finish, premium quality, centered composition"
     "text, words, blurry, flat, matte, low quality, realistic bird");
  ("badge_night_owl",
   AssetConfig "badge_night_owl.png" 256 256
     "premium achievement badge, deep midnight blue purple gradient, cute owl silhouette with crescent moon and stars, nighttime theme, gaming app badge, 3D glossy metallic finish, premium quality, centered composition"
     "text, words, blurry, flat, matte, low quality, realistic owl");
  ("badge_comeback",
   AssetConfig "badge_comeback.png" 256 256
     "premium achievement badge, phoenix rising gradient orange red gold, phoenix bird rising from flames symbol, comeback triumph theme, gaming app badge, 3D glossy metallic finish, premium quality, centered composition"
     "text, words, blurry, flat, matte, low quality");
  ("coach_sam",
   AssetConfig "coach_sam.png" 512 512
     "professional friendly health coach portrait, warm smile, approachable expression, neutral background, soft studio lighting, diverse representation, modern casual professional attire, headshot composition, high quality portrait photography style, clean background"
     "cartoon, anime, distorted, ugly, blurry, low quality");
  ("coach_alex",
   AssetConfig "coach_alex.png" 512 512
     "professional energetic fitness coach portrait, confident smile, motivating expression, neutral background, bright studio lighting, athletic build, modern sporty attire, headshot composition, high quality portrait photography style, clean background"
     "cartoon, anime, distorted, ugly, blurry, low quality");
  ("coach_dana",
   AssetConfig "coach_dana.png" 512 512
     "professional calm mindfulness coach portrait, serene peaceful smile, zen expression, neutral background, soft natural lighting, calming presence, comfortable modern attire, headshot composition, high quality portrait photography style, clean background"
     "cartoon, anime, distorted, ugly, blurry, low quality");
  ("coach_grace",
   AssetConfig "coach_grace.png" 512 512
     "professional nurturing wellness coach portrait, gentle warm smile, caring expression, neutral background, soft golden lighting, welcoming presence, elegant casual attire, headshot composition, high quality portrait photography style, clean background"
     "cartoon, anime, distorted, ugly, blurry, low quality");
  ("bg_dashboard",
   AssetConfig "bg_dashboard.png" 1080 1920
     "abstract premium app background, soft gradient from deep teal to mint green, subtle glassmorphic blur layers, gentle light rays from top, minimalist atmospheric, premium health wellness app aesthetic, no objects just gradient atmosphere, mobile wallpaper"
     "objects, people, text, busy, complex, sharp edges");
  ("bg_insights",
   AssetConfig "bg_insights.png" 1080 1920
     "abstract premium app background, soft gradient from deep purple to soft lavender, subtle aurora borealis effect, gentle light particles, minimalist atmospheric, premium analytics insights aesthetic, no objects just gradient atmosphere, mobile wallpaper"
     "objects, people, text, busy, complex, sharp edges");
  ("bg_settings",
   AssetConfig "bg_settings.png" 1080 1920
     "abstract premium app background, soft gradient from slate gray to soft silver blue, subtle geometric patterns very faint, minimalist atmospheric, premium settings configuration aesthetic, no objects just gradient atmosphere, mobile wallpaper"
     "objects, people, text, busy, complex, sharp edges, colorful");
  ("bg_profile",
   AssetConfig "bg_profile.png" 1080 1920
     "abstract premium app background, soft gradient from warm peach to soft coral pink, subtle organic flowing shapes, gentle warmth, minimalist atmospheric, premium personal profile aesthetic, no objects just gradient atmosphere, mobile wallpaper"
     "objects, people, text, busy, complex, sharp edges")
].

(** the [for asset_name, asset_config in ASSETS.items()] loop *)
Fixpoint generate_each (clocks : string -> list Q)
    (assets : list (string * asset_config)) (success_count : Z) : M Z :=
  match assets with
  | [] => ret success_count
  | (asset_name, asset_config) :: assets' =>
      ok <- generate_asset_comfyui (clocks asset_name) asset_name
              (config_dict asset_config) None ;;
      generate_each clocks assets'
        (if ok : bool then success_count + 1 else success_count)%Z
  end.

Definition generate_all (clocks : string -> list Q) : M unit :=
  running <- check_comfyui_running ;;
  if negb running then ret tt
  else
    _ <- mkdir OUTPUT_DIR ;;
    _ <- generate_each clocks ASSETS 0 ;;
    ret tt.

End Script.

Section BatchVocabulary.
Context `{StatusEnv}.

Definition stats_request : request := GET (COMFYUI_URL +:+ "/system_stats").

(** [p] is the output file of no asset *)
Definition foreign (assets : list (string * asset_config)) (p : string)
  : Prop :=
  forall name cfg, (name, cfg) ∈ assets -> p <> output_path cfg.

(** the clock of every asset reaches the deadline of 300 seconds *)
Definition deadlines_met (clocks : string -> list Q)
    (assets : list (string * asset_config)) : Prop :=
  forall name cfg, (name, cfg) ∈ assets ->
    exists start readings,
      clocks name = start :: readings /\
      Exists (fun now => Qlt_bool (now - start) 300 = false) readings.

End BatchVocabulary.

End Batch.

(** * The key survey of test_local_qwen2.py

    The script ends by collecting the top-level prefixes of the keys of the
    state dict it loaded: for every key that has a dot, the part before the
    first dot. *)

Module LocalQwen2.

(** [s.split(sep)] for a separator of one character *)
Fixpoint split (sep : Ascii.ascii) (s : string) : list string :=
  match s with
  | EmptyString => [EmptyString]
  | String a s' =>
      if Ascii.eqb a sep then EmptyString :: split sep s'
      else match split sep s' with
           | part :: parts => String a part :: parts
           | [] => [String a EmptyString]
           end
  end.

(** [sep.join(parts)] *)
Fixpoint join (sep : Ascii.ascii) (parts : list string) : string :=
  match parts with
  | [] => EmptyString
  | [part] => part
  | part :: parts' => part +:+ String sep (join sep parts')
  end.

(** the loop [for key in state_dict.keys()] over the keys in their order *)
Definition prefixes (keys : list string) : gset string :=
  foldl (fun prefixes key =>
           let parts := split "."%char key in
           if 1 <? length parts then
             match parts with
             | part :: _ => prefixes ∪ {[ part ]}
             | [] => prefixes
             end
           else prefixes)
    ∅ keys.

(** the character occurs in the string *)
Fixpoint occurs (a : Ascii.ascii) (s : string) : Prop :=
  match s with
  | EmptyString => False
  | String b s' => a = b \/ occurs a s'
  end.

End LocalQwen2.

(** ** More inputs for the examples *)

Module Fixtures.
Import IntBackend ComfyUI Batch Inputs.

(** the module kernels on the integer backend *)
#[global] Instance int_modules : Modules Z := {|
  f_pow z n := (z ^ n)%Z;
  f_rsqrt z := z;
  k_mean_last _ i := Z.of_nat i;
  k_group_norm _ _ _ _ i := Z.of_nat i;
  k_upsample_nearest _ _ i := Z.of_nat i;
  k_init_weight g _ i := (g + Z.of_nat i)%Z;
  k_init_bias g _ _ i := (g + Z.of_nat i)%Z;
  k_init_next g n := (g + Z.of_nat n)%Z
|}.

(** a conv_out that reads 128 channels, as the decoder of SimpleVAEDecoder
    has it, one that reads 4, and a weight without its bias *)
Definition conv_sd : gmap string (tensor Z) :=
  <[ "decoder.conv_out.weight" := iota [3; 128; 3; 3] ]>
    (<[ "decoder.conv_out.bias" := iota [3] ]> ∅).

Definition rgb_sd : gmap string (tensor Z) :=
  <[ "decoder.conv_out.weight" := iota [3; 4; 3; 3] ]>
    (<[ "decoder.conv_out.bias" := iota [3] ]> ∅).

Definition weight_only_sd : gmap string (tensor Z) :=
  {[ "decoder.conv_out.weight" := iota [3; 4; 3; 3] ]}.

(** block 0 with its modulation and the first weight of its MLP *)
Definition half_mlp_sd : gmap string (tensor Z) :=
  <[ "model.diffusion_model.transformer_blocks.0.img_mod.1.weight"
     := iota [48; 256] ]>
    (<[ "model.diffusion_model.transformer_blocks.0.img_mlp.net.0.proj.weight"
        := iota [4; 8] ]> ∅).

Definition embedding_4 : TimestepEmbedding.t Z :=
  {| TimestepEmbedding.dim := 4;
     TimestepEmbedding.max_period := 10000;
     TimestepEmbedding.linear1 :=
       {| l_weight := iota [16; 4]; l_bias := iota [16] |};
     TimestepEmbedding.linear2 :=
       {| l_weight := iota [4; 16]; l_bias := iota [4] |} |}.

(** a server that answers every request, with the given status *)
Definition status_env (status : Z) : @StatusEnv (scripted_env None) :=
  {| response_status _ _ := status |}.

(** a clock that is past the deadline at its second reading *)
Definition late_clock (asset_name : string) : list Q := [0; 301]%Q.

Definition node_outputs : list (string * pyval) :=
  [("7", PDict [("latents", PList [])]);
   ("8", PDict [("images", PList [PStr "a.png"])]);
   ("9", PDict [("images", PList [PStr "b.png"])])].

End Fixtures.

(** * Properties *)

(** ** Arithmetic of shapes *)

Lemma pad_amount_even (n : nat) : (n + pad_amount n) mod 2 = 0.
Proof.
  unfold pad_amount.
  pose proof (Nat.mod_upper_bound n 2 ltac:(lia)) as Hn.
  pose proof (Nat.div_mod_eq n 2) as En.
  assert (n mod 2 = 0 \/ n mod 2 = 1) as [E | E] by lia; rewrite E;
    change ((2 - 0) mod 2) with 0; change ((2 - 1) mod 2) with 1.
  - rewrite Nat.add_0_r. exact E.
  - pose proof (Nat.mod_upper_bound (n + 1) 2 ltac:(lia)).
    pose proof (Nat.div_mod_eq (n + 1) 2). lia.
Qed.

Lemma pad_amount_zero (n : nat) : n mod 2 = 0 -> pad_amount n = 0.
Proof. unfold pad_amount. intros ->. reflexivity. Qed.

Lemma even_halves (n : nat) : n mod 2 = 0 -> n = 2 * (n / 2).
Proof. intros E. pose proof (Nat.div_mod_eq n 2). lia. Qed.

Lemma numel_app (s1 s2 : list nat) : numel (s1 ++ s2) = numel s1 * numel s2.
Proof.
  induction s1 as [| d s1 IH]; simpl.
  - lia.
  - fold (numel (s1 ++ s2)). fold (numel s1). rewrite IH. lia.
Qed.

Lemma numel_patches (b c h w : nat) :
  h mod 2 = 0 -> w mod 2 = 0 ->
  numel [b; c; h; w] = numel [b; c; h / 2; 2; w / 2; 2] /\
  numel [b; c; h / 2; 2; w / 2; 2] = numel [b; h / 2 * (w / 2); c * 4] /\
  numel [b; h / 2 * (w / 2); c * 4] = numel [b; h / 2; w / 2; c; 2; 2] /\
  numel [b; h / 2; w / 2; c; 2; 2] = numel [b; c; h; w].
Proof.
  intros Eh Ew. apply even_halves in Eh, Ew.
  set (h2 := h / 2) in *. set (w2 := w / 2) in *.
  rewrite Eh, Ew. unfold numel; simpl. repeat split; lia.
Qed.

Lemma chunk_sizes_even (d k : nat) :
  0 < k -> chunk_sizes (k * d) k = replicate k d.
Proof.
  intros Hk. unfold chunk_sizes.
  destruct (Nat.eqb_spec (k * d) 0) as [E | E].
  - assert (d = 0) as -> by nia. reflexivity.
  - assert (0 < d) as Hd by nia.
    assert ((k * d + k - 1) / k = d) as ->.
    { symmetry. apply (Nat.div_unique _ _ _ (k - 1)); nia. }
    assert ((k * d + d - 1) / d = k) as ->.
    { symmetry. apply (Nat.div_unique _ _ _ (d - 1)); nia. }
    replace (k * d - d * (k - 1)) with d by nia.
    destruct k as [| k]; [lia |].
    replace (S k - 1) with k by lia.
    clear. induction k as [| k IH]; simpl; [reflexivity |].
    f_equal. exact IH.
Qed.

Section Properties.
Context {F : Type} `{Backend F}.

Local Abbreviation state_dict := (gmap string (tensor F)).

(** ** The transformer block and the block count *)

(** C1: apply_transformer_block computes no attention and never reads its
    context argument: two calls that differ only in the context tensor
    return the same result.  What it reads of the state dict are the
    modulation and MLP weights of its block, no attention weight: two state
    dicts that agree on those six entries give the same result. *)
Theorem apply_transformer_block_ignores_context
    (x context context' timestep_emb : tensor F) (block_idx : nat)
    (transformer_sd : state_dict) (dev : device) (dt : dtype) :
  apply_transformer_block x context timestep_emb block_idx transformer_sd dev dt
  = apply_transformer_block x context' timestep_emb block_idx transformer_sd dev dt
  /\
  forall transformer_sd' : state_dict,
    (forall name, name ∈ block_weight_names ->
       transformer_sd' !! (block_prefix block_idx +:+ name)
       = transformer_sd !! (block_prefix block_idx +:+ name)) ->
    apply_transformer_block x context timestep_emb block_idx transformer_sd' dev dt
    = apply_transformer_block x context' timestep_emb block_idx transformer_sd dev dt.
Proof.
  split; [reflexivity |].
  intros sd' Hsd. unfold apply_transformer_block, get_weight.
  rewrite !Hsd by (unfold block_weight_names; set_solver).
  reflexivity.
Qed.

Lemma run_transformer_ignores_context
    (latent timestep context context' : tensor F)
    (transformer_sd : state_dict) (num_blocks : Z) :
  run_transformer latent timestep context transformer_sd num_blocks
  = run_transformer latent timestep context' transformer_sd num_blocks.
Proof. reflexivity. Qed.

Lemma blocks_to_run_bound (num_blocks : Z) :
  length (py_range (blocks_to_run num_blocks)) <= 10.
Proof.
  unfold py_range, blocks_to_run. rewrite length_seq. lia.
Qed.

Lemma blocks_to_run_min (num_blocks : Z) :
  blocks_to_run (Z.min num_blocks 10) = blocks_to_run num_blocks.
Proof. unfold blocks_to_run. lia. Qed.

(** C10: run_transformer runs min(num_blocks, 10) blocks, so never more than
    ten, and the value 60 that generate_with_ai passes gives the result of
    the value 10. *)
Theorem run_transformer_at_most_ten_blocks :
  (forall num_blocks : Z,
     length (py_range (blocks_to_run num_blocks)) <= 10) /\
  (forall (latent timestep context : tensor F) (transformer_sd : state_dict)
          (num_blocks : Z),
     run_transformer latent timestep context transformer_sd num_blocks
     = run_transformer latent timestep context transformer_sd
         (Z.min num_blocks 10)) /\
  (forall (latent timestep context : tensor F) (transformer_sd : state_dict),
     run_transformer latent timestep context transformer_sd 60
     = run_transformer latent timestep context transformer_sd 10).
Proof.
  split; [exact blocks_to_run_bound |].
  assert (forall (latent timestep context : tensor F)
                 (transformer_sd : state_dict) (n m : Z),
             blocks_to_run n = blocks_to_run m ->
             run_transformer latent timestep context transformer_sd n
             = run_transformer latent timestep context transformer_sd m) as Hrun.
  { intros latent timestep context transformer_sd n m E.
    unfold run_transformer, run_blocks. rewrite E. reflexivity. }
  split; intros; apply Hrun.
  - symmetry. apply blocks_to_run_min.
  - reflexivity.
Qed.

(** ** Shapes through the operators *)

Lemma yields_ok (t : tensor F) (s : list nat) : shape t = s -> yields (Ok t) s.
Proof. intros E. exists t. split; [reflexivity | exact E]. Qed.

Lemma yields_bind (m : res (tensor F)) (k : tensor F -> res (tensor F))
    (s s' : list nat) :
  yields m s -> (forall t, shape t = s -> yields (k t) s') ->
  yields (m ≫= k) s'.
Proof. intros (t & -> & Hs) Hk. exact (Hk t Hs). Qed.

Lemma bdim_same (a : nat) : bdim a a = Some a.
Proof. unfold bdim. rewrite Nat.eqb_refl. reflexivity. Qed.

Lemma bdim_one_r (a : nat) : bdim a 1 = Some a.
Proof.
  unfold bdim. destruct (Nat.eqb_spec a 1) as [-> | _]; reflexivity.
Qed.

Lemma bdim_one_l (a : nat) : bdim 1 a = Some a.
Proof.
  unfold bdim. destruct (Nat.eqb_spec 1 a) as [<- | _]; reflexivity.
Qed.

Lemma bdim_batch (b n : nat) : n = 1 \/ n = b -> bdim b n = Some b /\ bdim n b = Some b.
Proof.
  intros [-> | ->].
  - split; [apply bdim_one_r | apply bdim_one_l].
  - split; apply bdim_same.
Qed.

Lemma bshape_rev_same (r : list nat) : bshape_rev r r = Some r.
Proof.
  induction r as [| a r IH]; [reflexivity |].
  simpl. rewrite bdim_same. simpl. rewrite IH. reflexivity.
Qed.

Lemma broadcast_same (s : list nat) : broadcast_shapes s s = Some s.
Proof.
  unfold broadcast_shapes. rewrite bshape_rev_same. simpl.
  rewrite reverse_involutive. reflexivity.
Qed.

Lemma binop_same (f : F -> F -> F) (a b : tensor F) (s : list nat) :
  shape a = s -> shape b = s -> yields (binop f a b) s.
Proof.
  intros Ha Hb. unfold binop. rewrite Ha, Hb, broadcast_same.
  eexists. split; reflexivity.
Qed.

Lemma broadcast_rows (b n r d : nat) :
  n = 1 \/ n = b ->
  broadcast_shapes [b; r; d] [n; 1; d] = Some [b; r; d] /\
  broadcast_shapes [n; 1; d] [b; r; d] = Some [b; r; d].
Proof.
  intros Hn. destruct (bdim_batch b n Hn) as [E1 E2].
  unfold broadcast_shapes.
  change (reverse [b; r; d]) with [d; r; b].
  change (reverse [n; 1; d]) with [d; 1; n].
  simpl. rewrite bdim_same, bdim_one_r, bdim_one_l, E1, E2. simpl.
  split; reflexivity.
Qed.

Lemma binop_rows (f : F -> F -> F) (x m : tensor F) (b n r d : nat) :
  n = 1 \/ n = b -> shape x = [b; r; d] -> shape m = [n; 1; d] ->
  yields (binop f x m) [b; r; d] /\ yields (binop f m x) [b; r; d].
Proof.
  intros Hn Hx Hm. destruct (broadcast_rows b n r d Hn) as [E1 E2].
  unfold binop. rewrite Hx, Hm, E1, E2.
  split; eexists; split; reflexivity.
Qed.

Lemma reshape_yields (t : tensor F) (s : list nat) :
  numel (shape t) = numel s -> yields (reshape t s) s.
Proof.
  intros E. unfold reshape. rewrite E, Nat.eqb_refl.
  eexists. split; reflexivity.
Qed.

Lemma F_pad_yields (t : tensor F) (b c h w pw ph : nat) :
  shape t = [b; c; h; w] -> yields (F_pad t 0 pw 0 ph) [b; c; h + ph; w + pw].
Proof.
  intros E. unfold F_pad. rewrite E.
  change (reverse [b; c; h; w]) with [w; h; c; b]. cbv beta iota zeta.
  eexists. split; reflexivity.
Qed.

Lemma patchify_yields (t : tensor F) (b c h w : nat) :
  shape t = [b; c; h; w] -> h mod 2 = 0 -> w mod 2 = 0 ->
  yields (patchify t b c h w) [b; h / 2 * (w / 2); c * 4].
Proof.
  intros E Eh Ew. destruct (numel_patches b c h w Eh Ew) as (N1 & N2 & _).
  unfold patchify.
  eapply yields_bind; [apply reshape_yields; rewrite E; exact N1 |].
  intros x Hx.
  eapply (yields_bind _ _ [b; h / 2; w / 2; c; 2; 2]).
  { unfold permute. rewrite Hx. eexists. split; reflexivity. }
  intros y Hy. apply reshape_yields. rewrite Hy.
  rewrite <- N2. unfold numel; simpl. lia.
Qed.

Lemma unpatchify_yields (t : tensor F) (b c h w : nat) :
  shape t = [b; h / 2 * (w / 2); c * 4] -> h mod 2 = 0 -> w mod 2 = 0 ->
  yields (unpatchify t b c h w) [b; c; h; w].
Proof.
  intros E Eh Ew. destruct (numel_patches b c h w Eh Ew) as (_ & _ & N3 & N4).
  unfold unpatchify.
  eapply yields_bind; [apply reshape_yields; rewrite E; exact N3 |].
  intros x Hx.
  eapply (yields_bind _ _ [b; c; h / 2; 2; w / 2; 2]).
  { unfold permute. rewrite Hx. eexists. split; reflexivity. }
  intros y Hy. apply reshape_yields. rewrite Hy.
  rewrite <- N4. unfold numel; simpl. lia.
Qed.

Lemma crop_yields (t : tensor F) (b c h w ph pw : nat) :
  shape t = [b; c; h + ph; w + pw] ->
  yields (slice_to t [None; None; Some h; Some w]) [b; c; h; w].
Proof.
  intros E. unfold slice_to. rewrite E. simpl.
  eexists. split; [reflexivity |]. simpl.
  rewrite !Nat.min_l by lia. reflexivity.
Qed.

Lemma linear_shape_ok (lead : list nat) (i o : nat) (sb : option (list nat)) :
  sb = None \/ sb = Some [o] ->
  linear_shape (lead ++ [i]) [o; i] sb = Some (lead ++ [o]).
Proof.
  intros Hb. unfold linear_shape. rewrite reverse_snoc, Nat.eqb_refl.
  rewrite bool_decide_eq_true_2 by exact Hb. simpl.
  rewrite reverse_involutive. reflexivity.
Qed.

Lemma F_linear_yields (x w : tensor F) (b : option (tensor F))
    (lead : list nat) (i o : nat) :
  shape x = lead ++ [i] -> shape w = [o; i] ->
  (forall t, b = Some t -> shape t = [o]) ->
  yields (F_linear x (Some w) b) (lead ++ [o]).
Proof.
  intros Hx Hw Hb. unfold F_linear. rewrite Hx, Hw, linear_shape_ok.
  - eexists. split; reflexivity.
  - destruct b as [t |]; [right | left; reflexivity].
    simpl. rewrite (Hb t eq_refl). reflexivity.
Qed.

Lemma F_layer_norm_yields (x : tensor F) (d : nat) (s : list nat) :
  shape x = d :: s -> yields (F_layer_norm x) (d :: s).
Proof.
  intros E. unfold F_layer_norm. rewrite E. eexists. split; reflexivity.
Qed.

Lemma unsqueeze_1_yields (t : tensor F) (n d : nat) :
  shape t = [n; d] -> yields (unsqueeze t 1) [n; 1; d].
Proof.
  intros E. unfold unsqueeze. rewrite E. eexists. split; reflexivity.
Qed.

Lemma modulate_yields (h scale shift : tensor F) (b n r d : nat) :
  n = 1 \/ n = b ->
  shape h = [b; r; d] -> shape scale = [n; d] -> shape shift = [n; d] ->
  yields (modulate h scale shift) [b; r; d].
Proof.
  intros Hn Hh Hsc Hsh. unfold modulate.
  destruct (unsqueeze_1_yields scale n d Hsc) as (su & -> & Hsu).
  destruct (unsqueeze_1_yields shift n d Hsh) as (sh & Esh & Hsh').
  simpl.
  eapply yields_bind.
  { apply (binop_rows f_mul h (one_plus su) b n r d Hn Hh). exact Hsu. }
  intros h' Hh'. rewrite Esh. simpl.
  apply (binop_rows f_add h' sh b n r d Hn Hh' Hsh').
Qed.

Lemma gated_yields (x gate h : tensor F) (b n r d : nat) :
  n = 1 \/ n = b ->
  shape x = [b; r; d] -> shape gate = [n; d] -> shape h = [b; r; d] ->
  yields (gated x gate h) [b; r; d].
Proof.
  intros Hn Hx Hg Hh. unfold gated.
  destruct (unsqueeze_1_yields gate n d Hg) as (gu & -> & Hgu).
  simpl.
  eapply yields_bind.
  { apply (binop_rows f_mul h gu b n r d Hn Hh Hgu). }
  intros gh Hgh. apply binop_same; assumption.
Qed.

Lemma chunk_2 (t : tensor F) (n d : nat) :
  shape t = [n; 2 * d] ->
  exists a b, chunk t 2 = Ok [a; b] /\ shape a = [n; d] /\ shape b = [n; d].
Proof.
  intros E. unfold chunk. rewrite E.
  change (reverse [n; 2 * d]) with [2 * d; n]. cbv beta iota.
  change (2 =? 0) with false. cbv iota.
  rewrite (chunk_sizes_even d 2) by lia.
  do 2 eexists. split; [reflexivity |]. split; reflexivity.
Qed.

Lemma chunk_6 (t : tensor F) (n d : nat) :
  shape t = [n; 6 * d] ->
  exists a b c e f g,
    chunk t 6 = Ok [a; b; c; e; f; g] /\
    shape a = [n; d] /\ shape b = [n; d] /\ shape c = [n; d] /\
    shape e = [n; d] /\ shape f = [n; d] /\ shape g = [n; d].
Proof.
  intros E. unfold chunk. rewrite E.
  change (reverse [n; 6 * d]) with [6 * d; n]. cbv beta iota.
  change (6 =? 0) with false. cbv iota.
  rewrite (chunk_sizes_even d 6) by lia.
  do 6 eexists. split; [reflexivity |]. repeat split; reflexivity.
Qed.

(** ** Weights whose dimensions fit the patch sequence *)

Lemma bind_Ok {A B} (a : A) (k : A -> res B) : (Ok a ≫= k) = k a.
Proof. reflexivity. Qed.

Lemma shape_if_present_to (o : option (tensor F)) (s : list nat)
    (dev : device) (dt : dtype) :
  shape_if_present o s = true ->
  forall t, to_ dev dt <$> o = Some t -> shape t = s.
Proof.
  destruct o as [t0 |]; simpl; [| discriminate].
  intros E t [= <-]. apply bool_decide_eq_true_1 in E. exact E.
Qed.

Lemma shape_is_to (o : option (tensor F)) (s : list nat)
    (dev : device) (dt : dtype) :
  shape_is o s = true ->
  exists t, o = Some t /\ shape (to_ dev dt t) = s.
Proof.
  destruct o as [t0 |]; simpl; [| discriminate].
  intros E. apply bool_decide_eq_true_1 in E. exists t0. split; [reflexivity | exact E].
Qed.

Ltac split_andb :=
  repeat match goal with
         | H : _ && _ = true |- _ => apply andb_prop in H; destruct H
         | H : bool_decide _ = true |- _ => apply bool_decide_eq_true_1 in H
         | H : (_ =? _) = true |- _ => apply Nat.eqb_eq in H
         end.

Lemma mlp_yields (sd : state_dict) (h : tensor F) (i b r d : nat)
    (dev : device) (dt : dtype) :
  shape h = [b; r; d] -> mlp_consistent sd i d = true ->
  yields
    (match get_weight sd (block_prefix i) dev dt "img_mlp.net.0.proj.weight" with
     | Some _ =>
         h ← F_linear h
               (get_weight sd (block_prefix i) dev dt "img_mlp.net.0.proj.weight")
               (get_weight sd (block_prefix i) dev dt "img_mlp.net.0.proj.bias");
         let h := tmap f_gelu_tanh h in
         F_linear h
           (get_weight sd (block_prefix i) dev dt "img_mlp.net.2.weight")
           (get_weight sd (block_prefix i) dev dt "img_mlp.net.2.bias")
     | None => Ok h
     end) [b; r; d].
Proof.
  intros Hh Hc. unfold mlp_consistent in Hc. unfold get_weight.
  cbv beta.
  destruct (sd !! (block_prefix i +:+ "img_mlp.net.0.proj.weight"))
    as [w1 |] eqn:E1;
    [change (to_ dev dt <$> Some w1) with (Some (to_ dev dt w1))
    | change (to_ dev dt <$> @None (tensor F)) with (@None (tensor F))];
    cbv beta iota; [| apply yields_ok; exact Hh].
  destruct (shape w1) as [| m [| d' [| ? ?]]] eqn:S1; try discriminate.
  split_andb. subst d'.
  match goal with
  | Hw2 : shape_is _ _ = true |- _ =>
      destruct (shape_is_to _ _ dev dt Hw2) as (w2 & -> & S2)
  end.
  change (to_ dev dt <$> Some w2) with (Some (to_ dev dt w2)).
  eapply (yields_bind _ _ ([b; r] ++ [m])).
  { apply (F_linear_yields h (to_ dev dt w1) _ [b; r] d m Hh S1).
    apply shape_if_present_to. assumption. }
  intros h1 Hh1. cbv zeta.
  apply (F_linear_yields (tmap f_gelu_tanh h1) (to_ dev dt w2) _ [b; r] m d Hh1 S2).
  apply shape_if_present_to. assumption.
Qed.

Lemma block_yields (sd : state_dict) (x context temb : tensor F)
    (i b n r d e : nat) (dev : device) (dt : dtype) :
  n = 1 \/ n = b ->
  shape x = [b; r; d] -> shape temb = [n; e] ->
  block_consistent sd d e i = true ->
  yields (apply_transformer_block x context temb i sd dev dt) [b; r; d].
Proof.
  intros Hn Hx Ht Hc. unfold block_consistent in Hc.
  pose proof (mlp_yields sd) as Hmlp.
  unfold apply_transformer_block. unfold get_weight in *. cbv beta in *.
  destruct (sd !! (block_prefix i +:+ "img_mod.1.weight")) as [w |] eqn:Ew;
    [change (to_ dev dt <$> Some w) with (Some (to_ dev dt w))
    | change (to_ dev dt <$> @None (tensor F)) with (@None (tensor F))];
    cbv beta iota zeta; [| apply yields_ok; exact Hx].
  split_andb.
  match goal with
  | Hw : shape w = _, Hb : shape_if_present _ _ = true |- _ =>
      destruct (F_linear_yields (tmap f_silu temb) (to_ dev dt w)
                  (to_ dev dt <$> sd !! (block_prefix i +:+ "img_mod.1.bias"))
                  [n] e (6 * d) Ht Hw (shape_if_present_to _ _ dev dt Hb))
        as (m & Em & Hm)
  end.
  rewrite Em, bind_Ok.
  destruct (chunk_6 m n d Hm)
    as (shift & scale & gate & shift2 & scale2 & gate2 & Ec &
        S1 & S2 & S3 & S4 & S5 & S6).
  rewrite Ec, bind_Ok. unfold unpack6. rewrite bind_Ok. cbv beta iota.
  eapply yields_bind; [apply (F_layer_norm_yields x b [r; d] Hx) |].
  intros h Hh.
  eapply yields_bind; [apply (modulate_yields h scale shift b n r d); assumption |].
  intros h1 Hh1.
  eapply yields_bind; [apply (gated_yields x gate h1 b n r d); assumption |].
  intros x1 Hx1.
  eapply yields_bind; [apply (F_layer_norm_yields x1 b [r; d] Hx1) |].
  intros h2 Hh2.
  eapply yields_bind; [apply (modulate_yields h2 scale2 shift2 b n r d); assumption |].
  intros h3 Hh3.
  eapply yields_bind; [apply (Hmlp h3 i b r d dev dt Hh3); assumption |].
  intros h4 Hh4.
  apply (gated_yields x1 gate2 h4 b n r d); assumption.
Qed.

Lemma bind_raises (m : res (tensor F)) (k : tensor F -> res (tensor F))
    (s : list nat) (e : pyerr) :
  yields m s -> (forall t, shape t = s -> k t = Err e) -> m ≫= k = Err e.
Proof. intros (t & -> & Hs) Hk. exact (Hk t Hs). Qed.

(** apply_transformer_block guards its MLP on the first weight alone: a
    block that has img_mlp.net.0.proj.weight and no img_mlp.net.2.weight
    ends in F.linear(h, None, None), a TypeError. *)
Lemma apply_transformer_block_missing_mlp_2_raises (sd : state_dict)
    (x context temb w w1 : tensor F) (i b n r d e m : nat)
    (dev : device) (dt : dtype) :
  n = 1 \/ n = b ->
  shape x = [b; r; d] -> shape temb = [n; e] ->
  sd !! (block_prefix i +:+ "img_mod.1.weight") = Some w ->
  shape w = [6 * d; e] ->
  shape_if_present (sd !! (block_prefix i +:+ "img_mod.1.bias")) [6 * d] = true ->
  sd !! (block_prefix i +:+ "img_mlp.net.0.proj.weight") = Some w1 ->
  shape w1 = [m; d] ->
  shape_if_present (sd !! (block_prefix i +:+ "img_mlp.net.0.proj.bias")) [m]
    = true ->
  sd !! (block_prefix i +:+ "img_mlp.net.2.weight") = None ->
  apply_transformer_block x context temb i sd dev dt = Err TypeError.
Proof.
  intros Hn Hx Ht Ew Sw Hb E1 S1 Hb1 E2.
  unfold apply_transformer_block, get_weight. rewrite Ew, E1, E2.
  change (to_ dev dt <$> Some w) with (Some (to_ dev dt w)).
  change (to_ dev dt <$> Some w1) with (Some (to_ dev dt w1)).
  change (to_ dev dt <$> @None (tensor F)) with (@None (tensor F)).
  cbv beta iota zeta.
  destruct (F_linear_yields (tmap f_silu temb) (to_ dev dt w)
              (to_ dev dt <$> sd !! (block_prefix i +:+ "img_mod.1.bias"))
              [n] e (6 * d) Ht Sw (shape_if_present_to _ _ dev dt Hb))
    as (md & Em & Hm).
  rewrite Em, bind_Ok.
  destruct (chunk_6 md n d Hm)
    as (shift & scale & gate & shift2 & scale2 & gate2 & Ec &
        S1' & S2 & S3 & S4 & S5 & S6).
  rewrite Ec, bind_Ok. unfold unpack6. rewrite bind_Ok. cbv beta iota.
  eapply bind_raises; [apply (F_layer_norm_yields x b [r; d] Hx) |].
  intros h Hh.
  eapply bind_raises; [apply (modulate_yields h scale shift b n r d); assumption |].
  intros h1 Hh1.
  eapply bind_raises; [apply (gated_yields x gate h1 b n r d); assumption |].
  intros x1 Hx1.
  eapply bind_raises; [apply (F_layer_norm_yields x1 b [r; d] Hx1) |].
  intros h2 Hh2.
  eapply bind_raises; [apply (modulate_yields h2 scale2 shift2 b n r d); assumption |].
  intros h3 Hh3.
  destruct (F_linear_yields h3 (to_ dev dt w1)
              (to_ dev dt <$> sd !! (block_prefix i +:+ "img_mlp.net.0.proj.bias"))
              [b; r] d m Hh3 S1 (shape_if_present_to _ _ dev dt Hb1))
    as (h4 & E4 & _).
  rewrite E4, bind_Ok. reflexivity.
Qed.

Lemma index_colon_none_yields (t : tensor F) (n : nat) :
  shape t = [n] -> yields (index_colon_none t) [n; 1].
Proof.
  intros E. unfold index_colon_none, unsqueeze. rewrite E.
  eexists. split; reflexivity.
Qed.

Lemma index_none_colon_yields (t : tensor F) (n : nat) :
  shape t = [n] -> yields (index_none_colon t) [1; n].
Proof.
  intros E. unfold index_none_colon, unsqueeze. rewrite E.
  eexists. split; reflexivity.
Qed.

Lemma binop_outer (f : F -> F -> F) (a b : tensor F) (n m : nat) :
  shape a = [n; 1] -> shape b = [1; m] -> yields (binop f a b) [n; m].
Proof.
  intros Ha Hb. unfold binop, broadcast_shapes. rewrite Ha, Hb.
  change (reverse [n; 1]) with [1; n]. change (reverse [1; m]) with [m; 1].
  simpl bshape_rev. rewrite bdim_one_l, bdim_one_r.
  eexists. split; reflexivity.
Qed.

Lemma cat_last_yields (a b : tensor F) (n m : nat) :
  shape a = [n; m] -> shape b = [n; m] -> yields (cat_last a b) [n; m + m].
Proof.
  intros Ha Hb. unfold cat_last. rewrite Ha, Hb.
  change (reverse [n; m]) with [m; n]. cbv beta iota.
  rewrite bool_decide_eq_true_2 by reflexivity.
  eexists. split; reflexivity.
Qed.

Lemma sinusoidal_yields (timestep : tensor F) (dt : dtype) (n : nat) :
  shape timestep = [n] -> yields (sinusoidal timestep dt) [n; 2 * half_dim].
Proof.
  intros E. unfold sinusoidal. cbv zeta.
  eapply yields_bind; [apply (index_colon_none_yields _ n E) |].
  intros tcol Htcol.
  eapply yields_bind; [apply (index_none_colon_yields _ half_dim); reflexivity |].
  intros erow Herow.
  eapply yields_bind; [apply (binop_outer f_mul tcol erow n half_dim Htcol Herow) |].
  intros emb Hemb.
  eapply yields_bind.
  { apply (cat_last_yields (tmap f_sin emb) (tmap f_cos emb) n half_dim);
      exact Hemb. }
  intros emb' Hemb'. apply yields_ok. exact Hemb'.
Qed.

Lemma input_projection_yields (sd : state_dict) (x : tensor F)
    (b r c d : nat) (dev : device) (dt : dtype) :
  shape x = [b; r; c * 4] ->
  match sd !! (prefix +:+ "img_in.weight") with
  | None => d =? c * 4
  | Some w => bool_decide (shape w = [d; c * 4])
  end = true ->
  shape_if_present (sd !! (prefix +:+ "img_in.bias")) [d] = true ->
  yields (input_projection sd x dev dt) [b; r; d].
Proof.
  intros Hx Hw Hb. unfold input_projection. cbv zeta.
  destruct (sd !! (prefix +:+ "img_in.weight")) as [w |]; split_andb.
  - unfold py_to. rewrite bind_Ok.
    apply (F_linear_yields x (to_ dev dt w) _ [b; r] (c * 4) d Hx Hw).
    apply shape_if_present_to. exact Hb.
  - subst d. apply yields_ok. exact Hx.
Qed.

Lemma timestep_embedding_yields (sd : state_dict) (timestep : tensor F)
    (n e : nat) (dev : device) (dt : dtype) :
  shape timestep = [n] -> embedder_consistent sd e = true ->
  yields (timestep_embedding sd timestep dev dt) [n; e].
Proof.
  intros Ht Hc. unfold timestep_embedding, embedder_consistent in *.
  cbv zeta beta in *.
  eapply yields_bind; [apply (sinusoidal_yields timestep dt n Ht) |].
  intros emb Hemb.
  destruct (sd !! (prefix +:+ "time_text_embed.timestep_embedder." +:+
                   "linear_1.weight")) as [w1 |] eqn:E1.
  - change (prefix +:+ "time_text_embed.timestep_embedder." +:+ "linear_1.weight")
      with (prefix +:+ "time_text_embed.timestep_embedder.linear_1.weight") in E1.
    rewrite E1.
    destruct (shape w1) as [| m [| i [| ? ?]]] eqn:S1; try discriminate.
    split_andb. subst i.
    match goal with
    | Hw2 : shape_is _ _ = true |- _ =>
        destruct (shape_is_to _ _ dev dt Hw2) as (w2 & E2 & S2)
    end.
    change (prefix +:+ "time_text_embed.timestep_embedder." +:+ "linear_2.weight")
      with (prefix +:+ "time_text_embed.timestep_embedder.linear_2.weight") in E2.
    rewrite E2. unfold py_to. rewrite !bind_Ok.
    eapply (yields_bind _ _ ([n] ++ [m])).
    { apply (F_linear_yields emb (to_ dev dt w1) _ [n] (2 * half_dim) m Hemb S1).
      apply shape_if_present_to. assumption. }
    intros temb Htemb. cbv zeta.
    apply (F_linear_yields (tmap f_silu temb) (to_ dev dt w2) _ [n] m e Htemb S2).
    apply shape_if_present_to. assumption.
  - change (prefix +:+ "time_text_embed.timestep_embedder." +:+ "linear_1.weight")
      with (prefix +:+ "time_text_embed.timestep_embedder.linear_1.weight") in E1.
    rewrite E1. split_andb. subst e. apply yields_ok. exact Hemb.
Qed.

Lemma for_each_yields {I} (body : tensor F -> I -> res (tensor F))
    (l : list I) (x : tensor F) (s : list nat) :
  shape x = s ->
  (forall y i, i ∈ l -> shape y = s -> yields (body y i) s) ->
  yields (for_each body l x) s.
Proof.
  revert x. induction l as [| i l IH]; intros x Hx Hbody; simpl.
  - apply yields_ok. exact Hx.
  - eapply yields_bind; [apply Hbody; [left | exact Hx] |].
    intros y Hy. apply IH; [exact Hy |].
    intros z j Hj. apply Hbody. right. exact Hj.
Qed.

Lemma run_blocks_yields (sd : state_dict) (x context temb : tensor F)
    (num_blocks : Z) (b n r d e : nat) (dev : device) (dt : dtype) :
  n = 1 \/ n = b ->
  shape x = [b; r; d] -> shape temb = [n; e] ->
  forallb (block_consistent sd d e) (seq 0 10) = true ->
  yields (run_blocks sd x context temb num_blocks dev dt) [b; r; d].
Proof.
  intros Hn Hx Ht Hc. unfold run_blocks.
  apply for_each_yields; [exact Hx |].
  intros y i Hi Hy.
  apply (block_yields sd y context temb i b n r d e dev dt Hn Hy Ht).
  rewrite forallb_forall in Hc. apply Hc.
  apply list_elem_of_In in Hi. apply in_seq in Hi. apply in_seq.
  pose proof (blocks_to_run_bound num_blocks) as Hb.
  unfold py_range in Hb. rewrite length_seq in Hb. lia.
Qed.

Lemma output_modulation_yields (sd : state_dict) (x temb : tensor F)
    (b n r d e : nat) (dev : device) (dt : dtype) :
  n = 1 \/ n = b ->
  shape x = [b; r; d] -> shape temb = [n; e] ->
  shape_if_present (sd !! (prefix +:+ "norm_out.linear.weight")) [2 * d; e] = true ->
  shape_if_present (sd !! (prefix +:+ "norm_out.linear.bias")) [2 * d] = true ->
  yields (output_modulation sd x temb dev dt) [b; r; d].
Proof.
  intros Hn Hx Ht Hw Hb. unfold output_modulation. cbv zeta.
  destruct (sd !! (prefix +:+ "norm_out.linear.weight")) as [w |];
    [| apply yields_ok; exact Hx].
  simpl in Hw. split_andb. unfold py_to. rewrite bind_Ok.
  destruct (F_linear_yields (tmap f_silu temb) (to_ dev dt w)
              (to_if_present (sd !! (prefix +:+ "norm_out.linear.bias")) dev dt)
              [n] e (2 * d) Ht Hw (shape_if_present_to _ _ dev dt Hb))
    as (m & Em & Hm).
  rewrite Em, bind_Ok.
  destruct (chunk_2 m n d Hm) as (scale & shift & Ec & S1 & S2).
  rewrite Ec, bind_Ok. unfold unpack2. rewrite bind_Ok. cbv beta iota.
  eapply yields_bind; [apply (F_layer_norm_yields x b [r; d] Hx) |].
  intros h Hh. apply (modulate_yields h scale shift b n r d); assumption.
Qed.

Lemma output_projection_yields (sd : state_dict) (x : tensor F)
    (b r c d : nat) (dev : device) (dt : dtype) :
  shape x = [b; r; d] ->
  match sd !! (prefix +:+ "proj_out.weight") with
  | None => d =? c * 4
  | Some w => bool_decide (shape w = [c * 4; d])
  end = true ->
  shape_if_present (sd !! (prefix +:+ "proj_out.bias")) [c * 4] = true ->
  yields (output_projection sd x dev dt) [b; r; c * 4].
Proof.
  intros Hx Hw Hb. unfold output_projection. cbv zeta.
  destruct (sd !! (prefix +:+ "proj_out.weight")) as [w |]; split_andb.
  - unfold py_to. rewrite bind_Ok.
    apply (F_linear_yields x (to_ dev dt w) _ [b; r] d (c * 4) Hx Hw).
    apply shape_if_present_to. exact Hb.
  - subst d. apply yields_ok. exact Hx.
Qed.

Lemma pad_amount_cases (n : nat) :
  (pad_amount n = 0 /\ n mod 2 = 0) \/ pad_amount n = 1.
Proof.
  pose proof (pad_amount_even n) as E. unfold pad_amount in *.
  pose proof (Nat.mod_upper_bound (2 - n mod 2) 2 ltac:(lia)) as Hp.
  destruct ((2 - n mod 2) mod 2) as [| [| p]]; [left | right | lia].
  - rewrite Nat.add_0_r in E. split; [reflexivity | exact E].
  - reflexivity.
Qed.

(** the part of run_transformer between the padding and the crop *)
Lemma transformer_body_yields (sd : state_dict)
    (latent timestep context : tensor F) (num_blocks : Z)
    (b c h w n d e : nat) (k : tensor F -> res (tensor F)) (s : list nat) :
  shape latent = [b; c; h; w] -> h mod 2 = 0 -> w mod 2 = 0 ->
  shape timestep = [n] -> n = 1 \/ n = b ->
  dims_consistent sd c d e = true ->
  (forall x, shape x = [b; c; h; w] -> yields (k x) s) ->
  yields
    (x ← patchify latent b c h w;
     x ← input_projection sd x cuda bfloat16;
     temb ← timestep_embedding sd timestep cuda bfloat16;
     x ← run_blocks sd x context temb num_blocks cuda bfloat16;
     x ← output_modulation sd x temb cuda bfloat16;
     x ← output_projection sd x cuda bfloat16;
     x ← unpatchify x b c h w;
     k x) s.
Proof.
  intros Hl Eh Ew Ht Hn Hc Hk. unfold dims_consistent in Hc. split_andb.
  eapply yields_bind; [apply (patchify_yields latent b c h w Hl Eh Ew) |].
  intros x0 Hx0.
  eapply yields_bind.
  { apply (input_projection_yields sd x0 b (h / 2 * (w / 2)) c d); assumption. }
  intros x1 Hx1.
  eapply yields_bind.
  { apply (timestep_embedding_yields sd timestep n e); assumption. }
  intros temb Htemb.
  eapply yields_bind.
  { apply (run_blocks_yields sd x1 context temb num_blocks b n (h / 2 * (w / 2)) d e);
      assumption. }
  intros x2 Hx2.
  eapply yields_bind.
  { apply (output_modulation_yields sd x2 temb b n (h / 2 * (w / 2)) d e); assumption. }
  intros x3 Hx3.
  eapply yields_bind.
  { apply (output_projection_yields sd x3 b (h / 2 * (w / 2)) c d); assumption. }
  intros x4 Hx4.
  eapply yields_bind; [apply (unpatchify_yields x4 b c h w Hx4 Eh Ew) |].
  exact Hk.
Qed.

(** run_transformer on a 4-D latent: the padded latent, the body, then the
    crop [fin] *)
Lemma run_transformer_padded (sd : state_dict)
    (latent timestep context : tensor F) (num_blocks : Z) (b c h w : nat) :
  shape latent = [b; c; h; w] ->
  exists (latent' : tensor F) (h' w' : nat) (fin : tensor F -> res (tensor F)),
    shape latent' = [b; c; h'; w'] /\ h' mod 2 = 0 /\ w' mod 2 = 0 /\
    (forall x, shape x = [b; c; h'; w'] -> yields (fin x) [b; c; h; w]) /\
    run_transformer latent timestep context sd num_blocks
    = (x ← patchify latent' b c h' w';
       x ← input_projection sd x cuda bfloat16;
       temb ← timestep_embedding sd timestep cuda bfloat16;
       x ← run_blocks sd x context temb num_blocks cuda bfloat16;
       x ← output_modulation sd x temb cuda bfloat16;
       x ← output_projection sd x cuda bfloat16;
       x ← unpatchify x b c h' w';
       fin x).
Proof.
  intros Hl.
  assert (forall a1 a2 a3 a4 : nat,
             unpack4 [a1; a2; a3; a4] = Ok (a1, a2, a3, a4)) as U4
    by reflexivity.
  unfold run_transformer. rewrite Hl, U4, bind_Ok. cbv beta iota zeta.
  pose proof (pad_amount_even h) as Eh. pose proof (pad_amount_even w) as Ew.
  destruct (pad_amount_cases h) as [[Ph _] | Ph];
    destruct (pad_amount_cases w) as [[Pw _] | Pw];
    rewrite Ph, Pw in *; cbn [Nat.ltb Nat.leb orb].
  - rewrite Nat.add_0_r in Eh, Ew.
    exists latent, h, w, (fun x => Ok x).
    rewrite bind_Ok, Hl, U4, bind_Ok.
    repeat split; try assumption. intros x Hx. apply yields_ok. exact Hx.
  - destruct (F_pad_yields latent b c h w 1 0 Hl) as (l1 & -> & Hl1).
    exists l1, (h + 0), (w + 1),
      (fun x => slice_to x [None; None; Some h; Some w]).
    rewrite bind_Ok, Hl1, U4, bind_Ok.
    repeat split; try assumption. intros x Hx. apply (crop_yields x b c h w 0 1 Hx).
  - destruct (F_pad_yields latent b c h w 0 1 Hl) as (l1 & -> & Hl1).
    exists l1, (h + 1), (w + 0),
      (fun x => slice_to x [None; None; Some h; Some w]).
    rewrite bind_Ok, Hl1, U4, bind_Ok.
    repeat split; try assumption. intros x Hx. apply (crop_yields x b c h w 1 0 Hx).
  - destruct (F_pad_yields latent b c h w 1 1 Hl) as (l1 & -> & Hl1).
    exists l1, (h + 1), (w + 1),
      (fun x => slice_to x [None; None; Some h; Some w]).
    rewrite bind_Ok, Hl1, U4, bind_Ok.
    repeat split; try assumption. intros x Hx. apply (crop_yields x b c h w 1 1 Hx).
Qed.

(** for a latent of shape [B, C, H, W], a timestep tensor holding one
    timestep or one per batch element, and a state dict whose weights have
    dimensions that fit the patch sequence (img_in from C*4, proj_out back
    to C*4), the second weight of every stage it enters among them,
    run_transformer returns a tensor of shape [B, C, H, W]; the latent is
    of the element type the weights are converted to, bfloat16, or the
    call is made under autocast, as [F_linear] takes for granted *)
Lemma run_transformer_preserves_shape (sd : state_dict)
    (latent timestep context : tensor F) (num_blocks : Z)
    (b c h w n d e : nat) :
  shape latent = [b; c; h; w] ->
  shape timestep = [n] -> n = 1 \/ n = b ->
  dims_consistent sd c d e = true ->
  exists out,
    run_transformer latent timestep context sd num_blocks = Ok out /\
    shape out = [b; c; h; w].
Proof.
  intros Hl Ht Hn Hc.
  destruct (run_transformer_padded sd latent timestep context num_blocks
              b c h w Hl) as (l1 & h' & w' & fin & Hl1 & Eh & Ew & Hfin & ->).
  apply (transformer_body_yields sd l1 timestep context num_blocks
           b c h' w' n d e); assumption.
Qed.

(** ** Missing weights *)

Lemma apply_transformer_block_skips (x context temb : tensor F)
    (i : nat) (sd : state_dict) (dev : device) (dt : dtype) :
  sd !! (block_prefix i +:+ "img_mod.1.weight") = None ->
  apply_transformer_block x context temb i sd dev dt = Ok x.
Proof.
  intros E. unfold apply_transformer_block, get_weight. rewrite E. reflexivity.
Qed.

Lemma run_transformer_empty_state_dict
    (latent timestep context : tensor F) (num_blocks : Z) (b c h w n : nat) :
  shape latent = [b; c; h; w] -> shape timestep = [n] ->
  exists out,
    run_transformer latent timestep context ∅ num_blocks = Ok out /\
    shape out = [b; c; h; w].
Proof.
  intros Hl Ht.
  destruct (run_transformer_padded ∅ latent timestep context num_blocks
              b c h w Hl) as (l1 & h' & w' & fin & Hl1 & Eh & Ew & Hfin & ->).
  destruct (patchify_yields l1 b c h' w' Hl1 Eh Ew) as (x0 & -> & Hx0).
  rewrite bind_Ok.
  unfold input_projection, timestep_embedding, output_modulation,
    output_projection. rewrite !lookup_empty, bind_Ok.
  destruct (sinusoidal_yields timestep bfloat16 n Ht) as (emb & -> & _).
  rewrite !bind_Ok.
  assert (run_blocks ∅ x0 context emb num_blocks cuda bfloat16 = Ok x0) as ->.
  { unfold run_blocks. generalize (py_range (blocks_to_run num_blocks)).
    intros l. induction l as [| i l IH]; [reflexivity |].
    simpl. rewrite apply_transformer_block_skips by apply lookup_empty.
    exact IH. }
  rewrite !bind_Ok.
  eapply yields_bind; [apply (unpatchify_yields x0 b c h' w' Hx0 Eh Ew) |].
  exact Hfin.
Qed.

Lemma timestep_embedding_missing_linear_2 (sd : state_dict)
    (timestep w1 : tensor F) (n : nat) (dev : device) (dt : dtype) :
  shape timestep = [n] ->
  sd !! (prefix +:+ "time_text_embed.timestep_embedder.linear_1.weight")
    = Some w1 ->
  sd !! (prefix +:+ "time_text_embed.timestep_embedder.linear_2.weight")
    = None ->
  timestep_embedding sd timestep dev dt = Err AttributeError.
Proof.
  intros Ht E1 E2. unfold timestep_embedding. cbv zeta.
  destruct (sinusoidal_yields timestep dt n Ht) as (emb & -> & _).
  rewrite bind_Ok, E1, E2. reflexivity.
Qed.

(** C9 (where the code departs from it): a state dict that holds the
    timestep embedder's linear_1 weight and not its linear_2 weight makes
    run_transformer raise AttributeError, the [.to] call on the missing
    weight being unguarded. *)
Theorem run_transformer_missing_linear_2_raises (sd : state_dict)
    (latent timestep context w1 : tensor F) (num_blocks : Z)
    (b c h w n : nat) :
  shape latent = [b; c; h; w] -> shape timestep = [n] ->
  sd !! (prefix +:+ "img_in.weight") = None ->
  sd !! (prefix +:+ "time_text_embed.timestep_embedder.linear_1.weight")
    = Some w1 ->
  sd !! (prefix +:+ "time_text_embed.timestep_embedder.linear_2.weight")
    = None ->
  run_transformer latent timestep context sd num_blocks = Err AttributeError.
Proof.
  intros Hl Ht Ein E1 E2.
  destruct (run_transformer_padded sd latent timestep context num_blocks
              b c h w Hl) as (l1 & h' & w' & fin & Hl1 & Eh & Ew & _ & ->).
  destruct (patchify_yields l1 b c h' w' Hl1 Eh Ew) as (x0 & -> & _).
  rewrite bind_Ok. unfold input_projection. rewrite Ein, bind_Ok.
  rewrite (timestep_embedding_missing_linear_2 sd timestep w1 n _ _ Ht E1 E2).
  reflexivity.
Qed.

Lemma shape_is_if_present (o : option (tensor F)) (s : list nat) :
  shape_is o s = true -> shape_if_present o s = true.
Proof. destruct o as [t |]; [intros E; exact E | reflexivity]. Qed.

Lemma dims_consistent_fit (sd : state_dict) (c d e : nat) :
  dims_consistent sd c d e = true -> weights_fit sd c d e = true.
Proof.
  assert (forall i, mlp_consistent sd i d = true -> mlp_fits sd i d = true)
    as Hmlp.
  { intros i. unfold mlp_consistent, mlp_fits. cbv zeta.
    destruct (sd !! _) as [w1 |]; [| reflexivity].
    destruct (shape w1) as [| m [| d' [| ? ?]]]; try discriminate.
    rewrite !andb_true_iff. intros (((A & B) & C) & D).
    repeat split; try assumption. apply shape_is_if_present. exact C. }
  assert (forall i, block_consistent sd d e i = true ->
                    block_fits sd d e i = true) as Hblock.
  { intros i. unfold block_consistent, block_fits. cbv zeta.
    destruct (sd !! _) as [w |]; [| reflexivity].
    rewrite !andb_true_iff. intros ((A & B) & C).
    repeat split; try assumption. apply Hmlp. exact C. }
  unfold dims_consistent, weights_fit. rewrite !andb_true_iff.
  intros (((((((A & B) & C) & D) & E) & G) & I) & J).
  repeat split; try assumption.
  - clear - C. unfold embedder_consistent, embedder_fits in *.
    cbv zeta in *. destruct (sd !! _) as [w1 |]; [| exact C].
    destruct (shape w1) as [| m [| i [| ? ?]]]; try discriminate.
    revert C. rewrite !andb_true_iff. intros (((A & B) & C) & D).
    repeat split; try assumption. apply shape_is_if_present. exact C.
  - apply forallb_forall. intros i Hi. apply Hblock.
    apply (proj1 (forallb_forall _ _) D i Hi).
Qed.

(** C8 (where the code departs from it): a state dict whose one entry is
    the timestep embedder's linear_1 weight, of the shape [m, 256] that
    fits the sinusoidal embedding, meets the assumption of the claim, every
    weight that is present having dimensions that fit; on it
    run_transformer raises AttributeError where the claim has it return a
    tensor of the latent's shape. *)
Theorem run_transformer_fitting_weights_raise
    (latent timestep context w1 : tensor F) (num_blocks : Z)
    (b c h w n m : nat) :
  shape latent = [b; c; h; w] -> shape timestep = [n] ->
  shape w1 = [m; 2 * half_dim] ->
  let sd : state_dict :=
    {[ prefix +:+ "time_text_embed.timestep_embedder.linear_1.weight"
       := w1 ]} in
  (forall e, weights_fit sd c (c * 4) e = true) /\
  run_transformer latent timestep context sd num_blocks = Err AttributeError.
Proof.
  intros Hl Ht S1 sd.
  assert (forall key,
            key <> prefix +:+
                   "time_text_embed.timestep_embedder.linear_1.weight" ->
            sd !! key = None) as Hne.
  { intros key Hk. apply lookup_singleton_ne. congruence. }
  assert (sd !! (prefix +:+
                 "time_text_embed.timestep_embedder.linear_1.weight")
          = Some w1) as E1 by apply lookup_singleton_eq.
  assert (forall i name,
            sd !! (block_prefix i +:+ name) = None) as Hblock.
  { intros i name. apply Hne. unfold block_prefix, prefix. intros E.
    apply (f_equal (fun s => String.get 23 s)) in E.
    cbv in E. discriminate E. }
  split.
  - intros e. unfold weights_fit, embedder_fits. cbv zeta.
    change (prefix +:+ "time_text_embed.timestep_embedder." +:+
            "linear_1.weight")
      with (prefix +:+ "time_text_embed.timestep_embedder.linear_1.weight").
    rewrite E1, S1, Nat.eqb_refl.
    rewrite !Hne by (intros E; vm_compute in E; discriminate E).
    cbn [shape_if_present andb]. rewrite Nat.eqb_refl. cbn [andb].
    rewrite !andb_true_r. apply forallb_forall. intros i _.
    unfold block_fits. cbv zeta. rewrite Hblock. reflexivity.
  - destruct (run_transformer_padded sd latent timestep context num_blocks
                b c h w Hl) as (l1 & h' & w' & fin & Hl1 & Eh & Ew & _ & ->).
    destruct (patchify_yields l1 b c h' w' Hl1 Eh Ew) as (x0 & -> & _).
    rewrite bind_Ok. unfold input_projection.
    rewrite (Hne (prefix +:+ "img_in.weight"))
      by (intros E; vm_compute in E; discriminate E).
    rewrite bind_Ok.
    rewrite (timestep_embedding_missing_linear_2 sd timestep w1 n _ _ Ht E1)
      by (apply Hne; intros E; vm_compute in E; discriminate E).
    reflexivity.
Qed.

(** ** The timestep embedding *)

Lemma numel_1 (m : nat) : numel [m] = m.
Proof. unfold numel. simpl. lia. Qed.

Lemma numel_2 (n m : nat) : numel [n; m] = n * m.
Proof. unfold numel. simpl. lia. Qed.

Lemma bcast_pick (d q : nat) : q < d -> (if d =? 1 then 0 else q) = q.
Proof. intros Hq. destruct (Nat.eqb_spec d 1) as [-> | _]; lia. Qed.

Lemma expand_index_col (n m i : nat) :
  i < n * m -> expand_index [n; 1] [n; m] i = i / m.
Proof.
  intros Hi. unfold expand_index.
  change (length [n; m] - length [n; 1]) with 0.
  cbn [unravel drop zip_with ravel].
  rewrite !numel_1. change (numel []) with 1. change (1 =? 1) with true.
  cbv iota. rewrite bcast_pick; [lia |].
  apply Nat.Div0.div_lt_upper_bound. lia.
Qed.

Lemma expand_index_row (n m i : nat) :
  i < n * m -> expand_index [1; m] [n; m] i = i mod m.
Proof.
  intros Hi. unfold expand_index.
  change (length [n; m] - length [1; m]) with 0.
  cbn [unravel drop zip_with ravel].
  rewrite !numel_1. change (numel []) with 1. change (1 =? 1) with true.
  cbv iota. rewrite Nat.div_1_r.
  assert (0 < m) by nia.
  rewrite bcast_pick; [lia |]. apply Nat.mod_upper_bound. lia.
Qed.

Lemma omap_seq_lookup {A} (f : nat -> option A) (g : nat -> A) (a m : nat) :
  (forall i, a <= i < a + m -> f i = Some (g i)) ->
  omap f (seq a m) = g <$> seq a m.
Proof.
  revert a. induction m as [| m IH]; intros a Hf; [reflexivity |].
  simpl. rewrite Hf by lia. simpl. f_equal. apply IH. intros i Hi. apply Hf. lia.
Qed.

(** the elements of [a[:, None] * b[None, :]] *)
Lemma binop_outer_data (f : F -> F -> F) (a b : tensor F) (n m : nat) :
  shape a = [n; 1] -> length (data a) = n ->
  shape b = [1; m] -> length (data b) = m ->
  exists t,
    binop f a b = Ok t /\ shape t = [n; m] /\ length (data t) = n * m /\
    forall r k x y,
      data a !! r = Some x -> data b !! k = Some y ->
      data t !! (r * m + k) = Some (f x y).
Proof.
  intros Sa La Sb Lb. unfold binop, broadcast_shapes. rewrite Sa, Sb.
  change (reverse [n; 1]) with [1; n]. change (reverse [1; m]) with [m; 1].
  simpl bshape_rev. 
  assert (bdim 1 m = Some m) as -> by (unfold bdim; destruct (Nat.eqb_spec 1 m) as [<- | _]; reflexivity).
  assert (bdim n 1 = Some n) as -> by (unfold bdim; destruct (Nat.eqb_spec n 1) as [-> | _]; reflexivity).
  cbn [mbind option_bind fmap option_fmap option_map].
  change (reverse [m; n]) with [n; m].
  eexists. split; [reflexivity |]. cbn [shape data].
  unfold expand. rewrite numel_2.
  set (xa i := default zero (data a !! (i / m))).
  set (xb i := default zero (data b !! (i mod m))).
  rewrite (omap_seq_lookup _ xa), (omap_seq_lookup _ xb).
  - split; [reflexivity |]. split.
    + rewrite length_zip_with, !length_fmap, !length_seq. lia.
    + intros r k x y Hx Hy.
      assert (r < n) by (rewrite <- La; eapply lookup_lt_Some; eauto).
      assert (k < m) by (rewrite <- Lb; eapply lookup_lt_Some; eauto).
      rewrite lookup_zip_with, !list_lookup_fmap.
      rewrite lookup_seq_lt by nia. simpl.
      unfold xa, xb.
      replace ((r * m + k) / m) with r by (apply (Nat.div_unique _ _ _ k); lia).
      replace ((r * m + k) mod m) with k by (apply (Nat.mod_unique _ _ r); lia).
      rewrite Hx, Hy. reflexivity.
  - intros i Hi. rewrite expand_index_row by lia. unfold xb.
    destruct (data b !! (i mod m)) eqn:E; [reflexivity |].
    apply lookup_ge_None in E. assert (0 < m) by nia.
    pose proof (Nat.mod_upper_bound i m). lia.
  - intros i Hi. rewrite expand_index_col by lia. unfold xa.
    destruct (data a !! (i / m)) eqn:E; [reflexivity |].
    apply lookup_ge_None in E.
    assert (i / m < n) by (apply Nat.Div0.div_lt_upper_bound; lia). lia.
Qed.

Lemma lookup_flat_map_rows {A} (f : nat -> list A) (L rows r j : nat) :
  (forall r', r' < rows -> length (f r') = L) ->
  r < rows -> j < L ->
  flat_map f (seq 0 rows) !! (r * L + j) = f r !! j.
Proof.
  intros Hlen.
  assert (forall a n r0,
             (forall r', a <= r' < a + n -> length (f r') = L) ->
             r0 < n -> j < L ->
             flat_map f (seq a n) !! (r0 * L + j) = f (a + r0) !! j) as G.
  { intros a n. revert a. induction n as [| n IH]; intros a r0 Hl Hr Hj; [lia |].
    simpl. destruct r0 as [| r0].
    - rewrite lookup_app_l by (rewrite Hl; lia). simpl.
      rewrite Nat.add_0_r. reflexivity.
    - rewrite lookup_app_r by (rewrite Hl; lia). rewrite Hl by lia.
      replace (S r0 * L + j - L) with (r0 * L + j) by nia.
      rewrite IH; [| intros; apply Hl; lia | lia | lia].
      replace (S a + r0) with (a + S r0) by lia. reflexivity. }
  intros Hr Hj. rewrite G; auto. intros; apply Hlen; lia.
Qed.

(** the elements of [torch.cat([a, b], dim=-1)] for two matrices *)
Lemma cat_last_data (a b : tensor F) (n m : nat) :
  shape a = [n; m] -> shape b = [n; m] ->
  length (data a) = n * m -> length (data b) = n * m ->
  exists t,
    cat_last a b = Ok t /\ shape t = [n; m + m] /\
    forall r k, r < n -> k < m ->
      data t !! (r * (m + m) + k) = data a !! (r * m + k) /\
      data t !! (r * (m + m) + (m + k)) = data b !! (r * m + k).
Proof.
  intros Sa Sb La Lb. unfold cat_last. rewrite Sa, Sb.
  change (reverse [n; m]) with [m; n]. cbv beta iota.
  rewrite bool_decide_eq_true_2 by reflexivity.
  eexists. split; [reflexivity |]. split; [reflexivity |].
  intros r k Hr Hk. cbn [data]. rewrite numel_1.
  assert (forall r', r' < n ->
            length (take m (drop (r' * m) (data a))) = m /\
            length (take m (drop (r' * m) (data b))) = m) as Hrow.
  { intros r' Hr'. rewrite !length_take, !length_drop, La, Lb. nia. }
  rewrite !lookup_flat_map_rows; try lia.
  2, 3: intros r' Hr'; rewrite length_app; destruct (Hrow r' Hr') as [-> ->];
    reflexivity.
  destruct (Hrow r Hr) as [E1 E2].
  rewrite lookup_app_l by lia. rewrite lookup_app_r by lia. rewrite E1.
  replace (m + k - m) with k by lia.
  rewrite !lookup_take_lt by lia. rewrite !lookup_drop. split; reflexivity.
Qed.



(** ** The approximate VAE decode *)




(** ** The prompt and the sampling loop *)

Lemma manual_seed_hash (z : Z) :
  manual_seed (z `mod` 2 ^ 32)%Z = Ok (k_manual_seed (z `mod` 2 ^ 32)%Z).
Proof.
  unfold manual_seed.
  pose proof (Z.mod_pos_bound z (2 ^ 32) ltac:(lia)) as Hb.
  destruct (Z.leb_spec (- 2 ^ 63) (z `mod` 2 ^ 32)) as [_ | Hlt]; [| lia].
  destruct (Z.ltb_spec (z `mod` 2 ^ 32) (2 ^ 64)) as [_ | Hge]; [| lia].
  reflexivity.
Qed.

Lemma encode_prompt_value (prompt : string) (dt : dtype) :
  encode_prompt prompt dt
  = Ok (tmap (fun v => f_mul v (f_lit (1 # 10)))
          (randn_like (to_ cuda dt (zeros [1; 77; 3584]))
             (k_manual_seed (py_hash prompt `mod` 2 ^ 32)%Z)).1,
        (randn_like (to_ cuda dt (zeros [1; 77; 3584]))
           (k_manual_seed (py_hash prompt `mod` 2 ^ 32)%Z)).2).
Proof.
  unfold encode_prompt. cbv zeta. rewrite manual_seed_hash, bind_Ok.
  reflexivity.
Qed.

Lemma tmap_of_kernel (f : F -> F) (s : list nat) (k : nat -> F) :
  tmap f (of_kernel s k) = of_kernel s (fun i => f (k i)).
Proof.
  unfold tmap, of_kernel. cbn [shape data]. f_equal.
  rewrite <- list_fmap_compose. reflexivity.
Qed.

(** what the body of generate_with_ai hands to the function it calls for
    the velocity, whatever that function is *)
Lemma generate_with_context
    (model : tensor F -> tensor F -> tensor F -> res (tensor F))
    (prompt : string) (width height : Z)
    (vae_sd text_encoder_sd : state_dict)
    (steps : Z) (cfg_scale : F) (seed : option Z) (g : rng) :
  let seeded := k_manual_seed (py_hash prompt `mod` 2 ^ 32)%Z in
  let n := numel [1; 77; 3584] in
  let noise :=
    k_randn seeded (k_dtype (to_ cuda bfloat16 (zeros [1; 77; 3584]))) n in
  generate_with model prompt width height vae_sd text_encoder_sd
    steps cfg_scale seed g
  = generate_from_context model
      (of_kernel [1; 77; 3584] (fun i => f_mul (noise i) (f_lit (1 # 10))))
      (k_randn_next seeded n) width height vae_sd steps seed g.
Proof.
  cbv zeta. unfold generate_with, generate_from_context.
  rewrite encode_prompt_value. unfold randn_like. cbn [fst snd].
  change (shape (to_ cuda bfloat16 (zeros [1; 77; 3584])))
    with [1; 77; 3584].
  rewrite tmap_of_kernel.
  destruct (reseed seed g) as [g1 |]; [| reflexivity]. rewrite !bind_Ok.
  cbv zeta.
  destruct (randn [1%Z; LATENT_CHANNELS; (height `div` VAE_SCALE_FACTOR)%Z;
                   (width `div` VAE_SCALE_FACTOR)%Z] bfloat16 g1)
    as [[latent g2] |]; [| reflexivity].
  rewrite !bind_Ok.
  destruct (linspace (f_lit 1) (f_lit 0) (steps + 1)) as [sigmas |];
    [| reflexivity].
  rewrite !bind_Ok. reflexivity.
Qed.

(** C2: the context generate_with_ai hands to the transformer at every pass
    is a tensor of shape [1, 77, 3584] whose element i is element i of the
    noise drawn right after seeding the generator with
    hash(prompt) mod 2^32, times 0.1, and the generator is left where that
    draw leaves it (or reseeded, with a seed); this holds whatever the
    function called for the velocity is, and for run_transformer; the
    state dict of the text encoder takes no part, so prompts of one hash
    give one result whatever state dict of the text encoder comes with
    them. *)
Theorem generate_with_ai_prompt_only_through_hash
    (model : tensor F -> tensor F -> tensor F -> res (tensor F))
    (prompt : string) (width height : Z)
    (transformer_sd vae_sd text_encoder_sd : state_dict)
    (steps : Z) (cfg_scale : F) (seed : option Z) (g : rng) :
  let seeded := k_manual_seed (py_hash prompt `mod` 2 ^ 32)%Z in
  let n := numel [1; 77; 3584] in
  let noise :=
    k_randn seeded (k_dtype (to_ cuda bfloat16 (zeros [1; 77; 3584]))) n in
  let context :=
    of_kernel [1; 77; 3584] (fun i => f_mul (noise i) (f_lit (1 # 10))) in
  generate_with model prompt width height vae_sd text_encoder_sd
    steps cfg_scale seed g
  = generate_from_context model context (k_randn_next seeded n)
      width height vae_sd steps seed g /\
  generate_with_ai prompt width height transformer_sd vae_sd text_encoder_sd
    steps cfg_scale seed g
  = generate_from_context
      (fun latent t context =>
         run_transformer latent t context transformer_sd 60)
      context (k_randn_next seeded n) width height vae_sd steps seed g /\
  (forall (prompt' : string) (text_encoder_sd' : state_dict),
     py_hash prompt = py_hash prompt' ->
     generate_with_ai prompt width height transformer_sd vae_sd
       text_encoder_sd steps cfg_scale seed g
     = generate_with_ai prompt' width height transformer_sd vae_sd
         text_encoder_sd' steps cfg_scale seed g).
Proof.
  intros seeded n noise context. split; [| split].
  - apply generate_with_context.
  - unfold generate_with_ai. apply generate_with_context.
  - intros prompt' text_encoder_sd' Eh. unfold generate_with_ai.
    rewrite !generate_with_context. cbv zeta. rewrite Eh. reflexivity.
Qed.

Lemma for_each_ext {A I} (f g : A -> I -> res A) (l : list I) (x : A) :
  (forall y i, i ∈ l -> f y i = g y i) -> for_each f l x = for_each g l x.
Proof.
  revert x. induction l as [| i l IH]; intros x Hfg; [reflexivity |].
  simpl. rewrite (Hfg x i) by left.
  destruct (g x i) as [y |]; [| reflexivity].
  rewrite !bind_Ok. apply IH. intros z j Hj. apply Hfg. right. exact Hj.
Qed.

(** with a seed, the prompt does not reach the image at all: the context
    is dropped by run_transformer and the generator is seeded again *)
Lemma generate_with_ai_ignores_prompt
    (prompt prompt' : string) (width height : Z)
    (transformer_sd vae_sd text_encoder_sd : state_dict)
    (steps : Z) (cfg_scale : F) (seed : option Z) (g : rng) (s : Z) :
  seed = Some s ->
  generate_with_ai prompt width height transformer_sd vae_sd text_encoder_sd
    steps cfg_scale seed g
  = generate_with_ai prompt' width height transformer_sd vae_sd text_encoder_sd
      steps cfg_scale seed g.
Proof.
  intros ->. unfold generate_with_ai, generate_with. rewrite !encode_prompt_value.
  generalize (randn_like (to_ cuda bfloat16 (zeros [1; 77; 3584]))
                (k_manual_seed (py_hash prompt `mod` 2 ^ 32)%Z)).
  generalize (randn_like (to_ cuda bfloat16 (zeros [1; 77; 3584]))
                (k_manual_seed (py_hash prompt' `mod` 2 ^ 32)%Z)).
  intros p' p. cbn [reseed].
  destruct (manual_seed s) as [g1 |]; [| reflexivity]. rewrite !bind_Ok.
  cbv zeta.
  destruct (randn [1%Z; LATENT_CHANNELS; (height `div` VAE_SCALE_FACTOR)%Z;
                   (width `div` VAE_SCALE_FACTOR)%Z] bfloat16 g1)
    as [[latent g2] |]; [| reflexivity].
  rewrite !bind_Ok.
  destruct (linspace (f_lit 1) (f_lit 0) (steps + 1)) as [sigmas |];
    [| reflexivity].
  rewrite !bind_Ok. reflexivity.
Qed.

Lemma t_index_of_kernel (k : nat -> F) (n i : nat) :
  i < n -> t_index (of_kernel [n] k) i = Ok (scalar (k i)).
Proof.
  intros Hi. unfold t_index, of_kernel. cbn [shape data].
  destruct (Nat.ltb_spec i n); [| lia].
  rewrite numel_1. change (numel []) with 1. rewrite Nat.mul_1_r.
  assert ((k <$> seq 0 n) !! i = Some (k i)) as E.
  { rewrite list_lookup_fmap, lookup_seq_lt by lia. reflexivity. }
  rewrite (drop_S _ _ _ E). reflexivity.
Qed.

Lemma euler_step_of_kernel (model : tensor F -> tensor F -> res (tensor F))
    (k : nat -> F) (n i : nat) (latent : tensor F) :
  i + 1 < n ->
  euler_step model (of_kernel [n] k) latent i
  = (v ← model latent (Tensor [1] [f_mul (k i) (f_of_Z 1000)]);
     vdt ← t_mul v (scalar (f_sub (k i) (k (i + 1))));
     t_sub latent vdt).
Proof.
  intros Hi. unfold euler_step.
  rewrite !t_index_of_kernel by lia. rewrite !bind_Ok. cbv zeta.
  assert (print_sigma i (scalar (k i)) = Ok tt) as ->
    by (unfold print_sigma; destruct (_ =? _); reflexivity).
  transitivity
    (v ← model latent (Tensor [1] [f_mul (k i) (f_of_Z 1000)]);
     vdt ← t_mul v (scalar (f_sub (k i) (k (i + 1))));
     latent ← t_sub latent vdt;
     Ok latent); [reflexivity |].
  destruct (model latent (Tensor [1] [f_mul (k i) (f_of_Z 1000)])) as [v |];
    [| reflexivity].
  rewrite !bind_Ok.
  destruct (t_mul v (scalar (f_sub (k i) (k (i + 1))))) as [vdt |];
    [| reflexivity].
  rewrite !bind_Ok. destruct (t_sub latent vdt); reflexivity.
Qed.

Lemma sampling_loop_linspace (model : tensor F -> tensor F -> res (tensor F))
    (steps : Z) (latent : tensor F) :
  (0 <= steps + 1)%Z ->
  sampling_loop model
    (of_kernel [Z.to_nat (steps + 1)]
       (k_linspace (f_lit 1) (f_lit 0) (Z.to_nat (steps + 1)))) latent
  = spec_sampler model steps latent.
Proof.
  intros Hs. unfold sampling_loop, spec_sampler, t_len.
  cbn [shape of_kernel]. rewrite bind_Ok, Z2Nat.id by exact Hs.
  replace (steps + 1 - 1)%Z with steps by lia.
  apply for_each_ext. intros y i Hi.
  apply list_elem_of_In in Hi. unfold py_range in Hi. apply in_seq in Hi.
  apply euler_step_of_kernel. lia.
Qed.

(** C4: generate_with_ai samples by Euler flow matching: the schedule is
    the steps + 1 values of linspace(1.0, 0.0, steps + 1), pass i for
    i = 0 .. steps - 1 replaces the latent by
    latent - v * (sigma_i - sigma_(i+1)) with
    v = run_transformer(latent, sigma_i * 1000, context), and the final
    latent is decoded by latent_to_image. *)
Theorem generate_with_ai_is_euler_flow_matching
    (prompt : string) (width height : Z)
    (transformer_sd vae_sd text_encoder_sd : state_dict)
    (steps : Z) (cfg_scale : F) (seed : option Z) (g : rng) :
  generate_with_ai prompt width height transformer_sd vae_sd text_encoder_sd
    steps cfg_scale seed g
  = generate_with_ai_spec prompt width height transformer_sd vae_sd
      steps seed g.
Proof.
  unfold generate_with_ai, generate_with, generate_with_ai_spec. cbv zeta.
  destruct (reseed seed g) as [g1 |]; [| reflexivity]. rewrite !bind_Ok.
  destruct (randn [1%Z; LATENT_CHANNELS; (height `div` VAE_SCALE_FACTOR)%Z;
                   (width `div` VAE_SCALE_FACTOR)%Z] bfloat16 g1)
    as [[latent g2] |]; [| reflexivity].
  rewrite !bind_Ok. unfold linspace.
  destruct (Z.ltb_spec (steps + 1) 0) as [Hneg | Hpos]; [reflexivity |].
  rewrite !bind_Ok.
  destruct (encode_prompt prompt bfloat16) as [[context g3] |];
    [| reflexivity].
  rewrite !bind_Ok.
  destruct (reseed seed g3) as [g4 |]; [| reflexivity]. rewrite !bind_Ok.
  rewrite sampling_loop_linspace by exact Hpos. reflexivity.
Qed.

(** ** euler_sample against the inline loop *)

Lemma expand_fmap (sf st : list nat) (g : F -> F) (d : list F) :
  expand sf st (g <$> d) = g <$> expand sf st d.
Proof.
  unfold expand. generalize (seq 0 (numel st)). intros l.
  induction l as [| i l IH]; [reflexivity |].
  cbn [omap list_omap]. fold (@omap list _ F F). rewrite list_lookup_fmap, IH.
  destruct (d !! expand_index sf st i); reflexivity.
Qed.

Lemma zip_with_fmap_left (f : F -> F -> F) (g : F -> F) (l1 l2 : list F) :
  zip_with f (g <$> l1) l2 = zip_with (fun x y => f (g x) y) l1 l2.
Proof.
  revert l2. induction l1 as [| x l1 IH]; intros [| y l2]; try reflexivity.
  simpl. rewrite IH. reflexivity.
Qed.

Lemma zip_with_fmap_right (f : F -> F -> F) (g : F -> F) (l1 l2 : list F) :
  zip_with f l1 (g <$> l2) = zip_with (fun x y => f x (g y)) l1 l2.
Proof.
  revert l2. induction l1 as [| x l1 IH]; intros [| y l2]; try reflexivity.
  simpl. rewrite IH. reflexivity.
Qed.

Lemma fmap_zip_with_out (f : F -> F -> F) (g : F -> F) (l1 l2 : list F) :
  g <$> zip_with f l1 l2 = zip_with (fun x y => g (f x y)) l1 l2.
Proof.
  revert l2. induction l1 as [| x l1 IH]; intros [| y l2]; try reflexivity.
  simpl. rewrite IH. reflexivity.
Qed.

Lemma zip_with_pointwise (f g : F -> F -> F) (l1 l2 : list F) :
  (forall x y, f x y = g x y) -> zip_with f l1 l2 = zip_with g l1 l2.
Proof.
  intros E. revert l2. induction l1 as [| x l1 IH]; intros [| y l2];
    try reflexivity.
  simpl. rewrite E, IH. reflexivity.
Qed.

Lemma zip_with_swap (f : F -> F -> F) (l1 l2 : list F) :
  zip_with f l1 l2 = zip_with (fun x y => f y x) l2 l1.
Proof.
  revert l2. induction l1 as [| x l1 IH]; intros [| y l2]; try reflexivity.
  simpl. rewrite IH. reflexivity.
Qed.

Lemma sub_swapped (a b : tensor F) :
  sign_laws -> shape a = shape b ->
  exists d, t_sub b a = Ok d /\ t_sub a b = Ok (tmap f_neg d).
Proof.
  intros (L1 & _ & _) Es. unfold t_sub, binop.
  rewrite Es, broadcast_same. eexists. split; [reflexivity |].
  unfold tmap. cbn [shape data]. do 2 f_equal.
  rewrite fmap_zip_with_out, (zip_with_swap f_sub).
  apply zip_with_pointwise. intros x y. symmetry. apply L1.
Qed.

Lemma mul_negated (v d : tensor F) :
  sign_laws ->
  t_mul (tmap f_neg v) d
  = match t_mul v d with
    | Ok p => Ok (tmap f_neg p)
    | Err e => Err e
    end.
Proof.
  intros (_ & L2 & _). unfold t_mul, binop, tmap. cbn [shape data].
  destruct (broadcast_shapes (shape v) (shape d)) as [s |]; [| reflexivity].
  cbn [shape data]. do 2 f_equal. rewrite expand_fmap, zip_with_fmap_left, fmap_zip_with_out.
  apply zip_with_pointwise. exact L2.
Qed.

Lemma add_negated (x p : tensor F) :
  sign_laws -> t_add x (tmap f_neg p) = t_sub x p.
Proof.
  intros (_ & _ & L3). unfold t_add, t_sub, binop, tmap. cbn [shape data].
  destruct (broadcast_shapes (shape x) (shape p)) as [s |]; [| reflexivity].
  do 2 f_equal. rewrite expand_fmap, zip_with_fmap_right.
  apply zip_with_pointwise. exact L3.
Qed.

Lemma t_index_shape (t r : tensor F) (i : nat) :
  t_index t i = Ok r -> shape r = tail (shape t).
Proof.
  unfold t_index. destruct (shape t) as [| d s']; [discriminate |].
  destruct (i <? d); [| discriminate]. intros [= <-]. reflexivity.
Qed.

Lemma unsqueeze_0 (t : tensor F) :
  unsqueeze t 0 = Ok (Tensor (1 :: shape t) (data t)).
Proof. unfold unsqueeze. simpl. rewrite drop_0. reflexivity. Qed.

(** C5 as amended: euler_sample adds v * (sigma_i - sigma_(i+1)) where the
    inline loop of generate_with_ai subtracts it, so the two loops agree
    when the model function of one is the negation of the other's: for
    every model, latent and schedule, euler_sample run on the negated model
    returns what the inline loop returns on the model. *)
Theorem euler_sample_is_inline_loop_on_negated_model
    (model : tensor F -> tensor F -> res (tensor F))
    (x sigmas context : tensor F) (attention_mask : option (tensor F))
    (cfg_scale : F) (steps : Z) :
  sign_laws ->
  euler_sample (as_model_fn (negated model)) x sigmas context attention_mask
    cfg_scale steps
  = sampling_loop model sigmas x.
Proof.
  intros L. unfold euler_sample, sampling_loop.
  destruct (t_len sigmas) as [n |]; [| reflexivity]. rewrite !bind_Ok.
  apply for_each_ext. intros y i _. unfold euler_step.
  destruct (t_index sigmas i) as [sigma |] eqn:E1; [| reflexivity].
  destruct (t_index sigmas (i + 1)) as [sigma_next |] eqn:E2; [| reflexivity].
  rewrite !bind_Ok.
  destruct (sub_swapped sigma sigma_next L) as (d & Ed & Ed').
  { rewrite (t_index_shape _ _ _ E1), (t_index_shape _ _ _ E2). reflexivity. }
  rewrite Ed, bind_Ok. unfold as_model_fn, negated.
  rewrite unsqueeze_0, !bind_Ok.
  destruct (model y _) as [v |]; [| reflexivity]. rewrite !bind_Ok.
  rewrite Ed', bind_Ok, (mul_negated v (tmap f_neg d) L).
  destruct (t_mul v (tmap f_neg d)) as [p |]; [| reflexivity].
  rewrite !bind_Ok, (add_negated y p L). reflexivity.
Qed.

End Properties.

(** * Properties of the client *)

Section ClientProperties.
Import ComfyUI.
Context `{Env}.

Lemma stable_ret {A} (a : A) : stable (ret a).
Proof. intros w. split; [reflexivity |]. exists []. symmetry. apply app_nil_r. Qed.

Lemma stable_lift {A} (r : res A) : stable (lift r).
Proof.
  intros w. unfold lift. destruct r; (split; [reflexivity |]); exists [];
    symmetry; apply app_nil_r.
Qed.

Lemma stable_urlopen (r : request) : stable (urlopen r).
Proof.
  intros w. unfold urlopen. destruct (refused r).
  - split; [reflexivity |]. exists []. symmetry. apply app_nil_r.
  - destruct (server (length (requests w)) r); (split; [reflexivity |]);
      exists [r]; reflexivity.
Qed.

Lemma stable_fault (f : option pyerr) : stable (fault f).
Proof.
  intros w. unfold fault. destruct f; (split; [reflexivity |]); exists [];
    symmetry; apply app_nil_r.
Qed.

Lemma stable_bind {A B} (m : M A) (k : A -> M B) :
  stable m -> (forall a, stable (k a)) -> stable (bind m k).
Proof.
  intros Hm Hk w. unfold bind. destruct (Hm w) as (Ef & rest & Er).
  destruct (m w) as [[a | e |] w1]; simpl in *.
  - destruct (Hk a w1) as (Ef' & rest' & Er'). split; [congruence |].
    exists (rest ++ rest'). rewrite Er', Er. symmetry. apply app_assoc.
  - split; [exact Ef | exists rest; exact Er].
  - split; [exact Ef | exists rest; exact Er].
Qed.

Lemma never_stuck_ret {A} (a : A) : never_stuck (ret a).
Proof. intros w. discriminate. Qed.

Lemma never_stuck_lift {A} (r : res A) : never_stuck (lift r).
Proof. intros w. unfold lift. destruct r; discriminate. Qed.

Lemma never_stuck_urlopen (r : request) : never_stuck (urlopen r).
Proof.
  intros w. unfold urlopen. destruct (refused r); [discriminate |].
  destruct (server _ r); discriminate.
Qed.

Lemma never_stuck_bind {A B} (m : M A) (k : A -> M B) :
  never_stuck m -> (forall a, never_stuck (k a)) -> never_stuck (bind m k).
Proof.
  intros Hm Hk w. unfold bind. specialize (Hm w).
  destruct (m w) as [[a | e |] w1]; simpl in *.
  - apply Hk.
  - discriminate.
  - congruence.
Qed.

Create HintDb client.
#[local] Hint Resolve stable_ret stable_lift stable_urlopen stable_fault
  never_stuck_ret never_stuck_lift never_stuck_urlopen : client.

Lemma stable_get_history (pid : pyval) : stable (get_history pid).
Proof. unfold get_history. apply stable_bind; auto with client. Qed.

Lemma never_stuck_get_history (pid : pyval) : never_stuck (get_history pid).
Proof. unfold get_history. apply never_stuck_bind; auto with client. Qed.

Lemma stable_queue_prompt (wf : pyval) : stable (queue_prompt wf).
Proof.
  unfold queue_prompt. apply stable_bind; [auto with client |].
  intros r. apply stable_bind; auto with client.
Qed.

Lemma never_stuck_queue_prompt (wf : pyval) : never_stuck (queue_prompt wf).
Proof.
  unfold queue_prompt. apply never_stuck_bind; [auto with client |].
  intros r. apply never_stuck_bind; auto with client.
Qed.

Lemma stable_poll (pid : pyval) : stable (poll pid).
Proof.
  unfold poll. apply stable_bind; [apply stable_get_history |]. intros h.
  apply stable_bind; [auto with client |]. intros [|]; [| auto with client].
  apply stable_bind; [auto with client |]. intros e.
  apply stable_bind; [auto with client |]. intros o.
  destruct (py_truthy o); [| auto with client].
  apply stable_bind; auto with client.
Qed.

Lemma never_stuck_poll (pid : pyval) : never_stuck (poll pid).
Proof.
  unfold poll. apply never_stuck_bind; [apply never_stuck_get_history |].
  intros h.
  apply never_stuck_bind; [auto with client |]. intros [|]; [| auto with client].
  apply never_stuck_bind; [auto with client |]. intros e.
  apply never_stuck_bind; [auto with client |]. intros o.
  destruct (py_truthy o); [| auto with client].
  apply never_stuck_bind; auto with client.
Qed.

Lemma wait_loop_cons (now : Q) (clock : list Q) (start timeout : Q)
    (pid : pyval) :
  wait_loop (now :: clock) start timeout pid
  = if Qlt_bool (now - start) timeout then
      found <- poll pid ;;
      match found with
      | Some images => ret images
      | None => wait_loop clock start timeout pid
      end
    else ret PNone.
Proof. reflexivity. Qed.

Lemma stable_wait_loop (clock : list Q) (start timeout : Q) (pid : pyval) :
  stable (wait_loop clock start timeout pid).
Proof.
  induction clock as [| now clock IH].
  - intros w. split; [reflexivity |]. exists []. symmetry. apply app_nil_r.
  - rewrite wait_loop_cons. destruct (Qlt_bool _ _); [| auto with client].
    apply stable_bind; [apply stable_poll |].
    intros [images |]; [auto with client | exact IH].
Qed.

Lemma never_stuck_wait_loop (clock : list Q) (start timeout : Q) (pid : pyval) :
  Exists (fun r => Qlt_bool (r - start) timeout = false) clock ->
  never_stuck (wait_loop clock start timeout pid).
Proof.
  induction clock as [| now clock IH]; intros Hd.
  - inversion Hd.
  - rewrite wait_loop_cons.
    destruct (Qlt_bool (now - start) timeout) eqn:E; [| auto with client].
    apply never_stuck_bind; [apply never_stuck_poll |].
    intros [images |]; [auto with client |].
    apply IH. inversion Hd as [? ? Hnow | ? ? Hrest]; subst; [congruence | exact Hrest].
Qed.

(** ** The run of one asset *)

Lemma submission_not_refused (workflow : pyval) :
  refused (submission workflow) = None.
Proof. apply refused_plain. reflexivity. Qed.

Lemma urlopen_after (r : request) (w : world) :
  (urlopen r w).2 = after_request r w.
Proof.
  unfold urlopen, after_request. destruct (refused r); [reflexivity |].
  destruct (server (length (requests w)) r); reflexivity.
Qed.

Lemma urlopen_refused (r : request) (e : pyerr) (w : world) :
  refused r = Some e -> urlopen r w = (Raise e, w).
Proof. intros E. unfold urlopen. rewrite E. reflexivity. Qed.

Lemma stable_wait_for_completion (clock : list Q) (pid : pyval) (timeout : Q) :
  stable (wait_for_completion clock pid timeout).
Proof.
  destruct clock as [| start clock]; [| apply stable_wait_loop].
  intros w. split; [reflexivity |]. exists []. symmetry. apply app_nil_r.
Qed.

Lemma stable_get_image (fname subfolder folder_type : pyval) :
  stable (get_image fname subfolder folder_type).
Proof. apply stable_urlopen. Qed.

Lemma stable_fetch_image (clock : list Q) (workflow : pyval) :
  stable (fetch_image clock workflow).
Proof.
  unfold fetch_image.
  apply stable_bind; [apply stable_queue_prompt |]. intros prompt_id.
  apply stable_bind; [apply stable_wait_for_completion |]. intros images.
  destruct (py_truthy images); [| auto with client].
  do 4 (apply stable_bind; [auto with client |]; intros ?).
  apply stable_bind; [apply stable_get_image |]. intros img_data.
  auto with client.
Qed.

Lemma queue_prompt_world (workflow : pyval) (w : world) :
  (queue_prompt workflow w).2
  = World (requests w ++ [submission workflow]) (files w).
Proof.
  unfold queue_prompt. cbv zeta. fold (submission workflow).
  unfold bind, lift. pose proof (urlopen_after (submission workflow) w) as E.
  unfold after_request in E. rewrite submission_not_refused in E.
  destruct (urlopen (submission workflow) w) as [[response | e |] w1];
    cbn [snd] in E; subst w1; [| reflexivity ..].
  destruct (json_loads response) as [result |]; [| reflexivity].
  destruct (py_get result "prompt_id" PNone); reflexivity.
Qed.



Lemma never_stuck_fetch_image (start : Q) (readings : list Q)
    (workflow : pyval) :
  Exists (fun now => Qlt_bool (now - start) 300 = false) readings ->
  never_stuck (fetch_image (start :: readings) workflow).
Proof.
  intros Hd. unfold fetch_image.
  apply never_stuck_bind; [apply never_stuck_queue_prompt |]. intros prompt_id.
  apply never_stuck_bind; [apply never_stuck_wait_loop; exact Hd |].
  intros images. destruct (py_truthy images); [| auto with client].
  do 4 (apply never_stuck_bind; [auto with client |]; intros ?).
  apply never_stuck_bind; [apply never_stuck_urlopen |]. intros img_data.
  auto with client.
Qed.

Lemma fetch_and_save_split (clock : list Q) (asset_config workflow : pyval)
    (w : world) :
  fetch_and_save clock asset_config workflow w
  = bind (fetch_image clock workflow)
      (fun o => match o with
                | Some img_data => save_image asset_config img_data
                | None => ret false
                end) w.
Proof.
  unfold fetch_and_save, fetch_image, save_image, bind, lift, ret.
  destruct (queue_prompt workflow w) as [[prompt_id | e |] w1];
    [| reflexivity ..].
  destruct (wait_for_completion clock prompt_id 300 w1) as [[images | e |] w2];
    [| reflexivity ..].
  destruct (py_truthy images); [| reflexivity].
  destruct (py_getitem images (PInt 0)) as [img_info |]; [| reflexivity].
  destruct (py_getitem img_info (PStr "filename")) as [fname |];
    [| reflexivity].
  destruct (py_get img_info "subfolder" (PStr EmptyString)) as [subfolder |];
    [| reflexivity].
  destruct (py_getitem img_info (PStr "type")) as [folder_type |];
    [| reflexivity].
  destruct (get_image fname subfolder folder_type w2) as [[img_data | e |] w3];
    reflexivity.
Qed.



(** what the second half does to the world *)
Lemma save_image_cases (asset_config : pyval) (data : string) (w : world) :
  let r := save_image asset_config data w in
  (exists name,
     py_getitem asset_config (PStr "filename") = Ok (PStr name) /\
     mkdir_fault = None /\ open_fault = None /\ write_fault = None /\
     r = (Ret true,
          World (requests w) (<[path_join OUTPUT_DIR name := data]> (files w))))
  \/
  (exists e name,
     py_getitem asset_config (PStr "filename") = Ok (PStr name) /\
     write_fault = Some e /\
     r = (Raise e,
          World (requests w)
            (<[path_join OUTPUT_DIR name
               := String.substring 0 write_reach data]> (files w))))
  \/
  (exists e,
     r = (Raise e, w) /\
     ~ (exists name,
          py_getitem asset_config (PStr "filename") = Ok (PStr name) /\
          mkdir_fault = None /\ open_fault = None)).
Proof.
  cbv zeta.
  unfold save_image, bind, lift, mkdir, fault, open_wb, write_all, ret.
  destruct (py_getitem asset_config (PStr "filename")) as [name | e] eqn:En.
  2: { right. right. exists e. split; [reflexivity |].
       intros (name & [=] & _). }
  destruct name as [| | | | name | |];
    try (right; right; exists TypeError; split; [reflexivity |];
         intros (name' & [=] & _)).
  cbn [path_div].
  destruct mkdir_fault as [e |] eqn:Em.
  { right. right. exists e. split; [reflexivity |].
    intros (name' & _ & [=] & _). }
  destruct open_fault as [e |] eqn:Eo.
  { right. right. exists e. split; [reflexivity |].
    intros (name' & _ & _ & [=]). }
  cbn [requests files].
  destruct write_fault as [e |] eqn:Ew.
  - right. left. exists e, name. rewrite insert_insert_eq.
    repeat split; reflexivity.
  - left. exists name. rewrite insert_insert_eq.
    repeat split; reflexivity.
Qed.

(** the function down to the [try]: the subscripts succeed and the
    workflow is the filled template *)
Lemma generate_asset_comfyui_unfold (clock : list Q) (asset_name : string)
    (asset_config width height text : pyval) (seed : option Z) (w : world) :
  py_getitem asset_config (PStr "width") = Ok width ->
  py_getitem asset_config (PStr "height") = Ok height ->
  py_getitem asset_config (PStr "prompt") = Ok text ->
  generate_asset_comfyui clock asset_name asset_config seed w
  = try_except
      (fetch_and_save clock asset_config
         (filled_workflow width height text
            match seed with
            | None => (str_hash asset_name `mod` 2 ^ 32)%Z
            | Some s => s
            end))
      (fun e => ret false) w.
Proof.
  intros Ew Eh Et. unfold generate_asset_comfyui, bind at 1 2 3 4 5 6 7 8 9.
  rewrite Ew, Eh, Et. reflexivity.
Qed.

Lemma asset_workflow_filled (cfg : asset_config) (seed : Z) :
  asset_workflow cfg seed
  = filled_workflow (PInt (width cfg)) (PInt (height cfg))
      (PStr (prompt cfg)) seed.
Proof. reflexivity. Qed.

(** the run of generate_asset_comfyui, from the two halves *)
Lemma generate_asset_comfyui_run (clock : list Q) (asset_name : string)
    (asset_config width height text : pyval) (seed : option Z) (w : world) :
  py_getitem asset_config (PStr "width") = Ok width ->
  py_getitem asset_config (PStr "height") = Ok height ->
  py_getitem asset_config (PStr "prompt") = Ok text ->
  let workflow :=
    filled_workflow width height text
      match seed with
      | None => (str_hash asset_name `mod` 2 ^ 32)%Z
      | Some s => s
      end in
  generate_asset_comfyui clock asset_name asset_config seed w
  = match fetch_image clock workflow w with
    | (Ret (Some data), w') =>
        match save_image asset_config data w' with
        | (Raise e, w'') => (Ret false, w'')
        | r => r
        end
    | (Ret None, w') => (Ret false, w')
    | (Raise e, w') => (Ret false, w')
    | (Stuck, w') => (Stuck, w')
    end.
Proof.
  intros Ew Eh Et workflow.
  rewrite (generate_asset_comfyui_unfold clock asset_name asset_config
             width height text seed w Ew Eh Et).
  fold workflow. unfold try_except. rewrite fetch_and_save_split.
  unfold bind.
  destruct (fetch_image clock workflow w) as [[[data |] | e |] w'];
    reflexivity.
Qed.


End ClientProperties.

(** * Further properties of the inference path *)

(** ** Row-major indices *)

Lemma unravel_lt (s : list nat) (i : nat) :
  i < numel s -> Forall2 lt (unravel s i) s.
Proof.
  revert i. induction s as [| d s IH]; intros i Hi; [constructor |].
  change (numel (d :: s)) with (d * numel s) in Hi.
  assert (0 < numel s) as Hn by nia.
  cbn [unravel]. constructor.
  - apply Nat.Div0.div_lt_upper_bound. lia.
  - apply IH. apply Nat.mod_upper_bound. lia.
Qed.

Lemma ravel_lt (s idx : list nat) :
  Forall2 lt idx s -> ravel s idx < numel s.
Proof.
  induction 1 as [| k d idx s Hk _ IH].
  - unfold numel. simpl. lia.
  - change (numel (d :: s)) with (d * numel s). cbn [ravel]. nia.
Qed.

Lemma ravel_unravel (s : list nat) (i : nat) :
  i < numel s -> ravel s (unravel s i) = i.
Proof.
  revert i. induction s as [| d s IH]; intros i Hi.
  - unfold numel in Hi. simpl in *. lia.
  - change (numel (d :: s)) with (d * numel s) in Hi.
    assert (0 < numel s) as Hn by nia.
    cbn [unravel ravel]. rewrite IH by (apply Nat.mod_upper_bound; lia).
    pose proof (Nat.div_mod_eq i (numel s)). lia.
Qed.

Lemma unravel_ravel (s idx : list nat) :
  Forall2 lt idx s -> unravel s (ravel s idx) = idx.
Proof.
  induction 1 as [| k d idx s Hk Hrest IH]; [reflexivity |].
  pose proof (ravel_lt s idx Hrest) as Hr.
  cbn [ravel unravel]. f_equal.
  - symmetry. apply (Nat.div_unique _ _ _ (ravel s idx)); lia.
  - replace ((k * numel s + ravel s idx) mod numel s) with (ravel s idx);
      [exact IH |].
    apply (Nat.mod_unique _ _ k); lia.
Qed.

Section InferenceProperties.
Context {F : Type} `{Backend F}.

Local Abbreviation state_dict := (gmap string (tensor F)).

(** ** Round trips of the index-moving operators *)

Lemma gather_total (s : list nat) (g : list nat -> option nat) (d : list F) :
  (forall i j, i < numel s -> g (unravel s i) = Some j -> j < length d) ->
  length (gather s g d) = numel s /\
  forall i, i < numel s ->
    gather s g d !! i
    = match g (unravel s i) with Some j => d !! j | None => Some zero end.
Proof.
  intros Hg. unfold gather.
  set (f i := match g (unravel s i) with
              | Some j => default zero (d !! j)
              | None => zero
              end).
  rewrite (omap_seq_lookup _ f).
  - split; [rewrite length_fmap, length_seq; reflexivity |].
    intros i Hi. rewrite list_lookup_fmap, lookup_seq_lt by exact Hi.
    simpl. unfold f. specialize (Hg i).
    destruct (g (unravel s i)) as [j |]; [| reflexivity].
    destruct (lookup_lt_is_Some_2 d j (Hg j Hi eq_refl)) as [x ->]. reflexivity.
  - intros i Hi. unfold f. specialize (Hg i).
    destruct (g (unravel s i)) as [j |]; [| reflexivity].
    destruct (lookup_lt_is_Some_2 d j (Hg j ltac:(lia) eq_refl)) as [x ->].
    reflexivity.
Qed.

Lemma Forall2_lt_six (idx : list nat) (n0 n1 n2 n3 n4 n5 : nat) :
  Forall2 lt idx [n0; n1; n2; n3; n4; n5] ->
  exists j0 j1 j2 j3 j4 j5,
    idx = [j0; j1; j2; j3; j4; j5] /\
    j0 < n0 /\ j1 < n1 /\ j2 < n2 /\ j3 < n3 /\ j4 < n4 /\ j5 < n5.
Proof.
  intros Hi.
  apply Forall2_cons_inv_r in Hi as (j0 & l0 & B0 & Hi & ->).
  apply Forall2_cons_inv_r in Hi as (j1 & l1 & B1 & Hi & ->).
  apply Forall2_cons_inv_r in Hi as (j2 & l2 & B2 & Hi & ->).
  apply Forall2_cons_inv_r in Hi as (j3 & l3 & B3 & Hi & ->).
  apply Forall2_cons_inv_r in Hi as (j4 & l4 & B4 & Hi & ->).
  apply Forall2_cons_inv_r in Hi as (j5 & l5 & B5 & Hi & ->).
  apply Forall2_nil_inv_r in Hi as ->.
  exists j0, j1, j2, j3, j4, j5. repeat split; assumption.
Qed.

Lemma Forall2_lt_six_intro (j0 j1 j2 j3 j4 j5 n0 n1 n2 n3 n4 n5 : nat) :
  j0 < n0 -> j1 < n1 -> j2 < n2 -> j3 < n3 -> j4 < n4 -> j5 < n5 ->
  Forall2 lt [j0; j1; j2; j3; j4; j5] [n0; n1; n2; n3; n4; n5].
Proof. intros. repeat constructor; assumption. Qed.

(** a permutation of six dimensions followed by the permutation that undoes
    it gives back the elements *)
Lemma permute_six_round_trip (d : list F) (a0 a1 a2 a3 a4 a5 : nat) :
  length d = numel [a0; a1; a2; a3; a4; a5] ->
  exists x,
    permute (Tensor [a0; a1; a2; a3; a4; a5] d) [0; 2; 4; 1; 3; 5] = Ok x /\
    shape x = [a0; a2; a4; a1; a3; a5] /\
    length (data x) = numel [a0; a1; a2; a3; a4; a5] /\
    permute (Tensor [a0; a2; a4; a1; a3; a5] (data x)) [0; 3; 1; 4; 2; 5]
    = Ok (Tensor [a0; a1; a2; a3; a4; a5] d).
Proof.
  intros Ld.
  assert (numel [a0; a2; a4; a1; a3; a5] = numel [a0; a1; a2; a3; a4; a5]) as EN
    by (unfold numel; simpl; lia).
  set (g1 := fun idx : list nat =>
               Some (ravel [a0; a1; a2; a3; a4; a5]
                       ((fun k => nth (index_of k [0; 2; 4; 1; 3; 5]) idx 0)
                          <$> seq 0 6))).
  set (g2 := fun idx : list nat =>
               Some (ravel [a0; a2; a4; a1; a3; a5]
                       ((fun k => nth (index_of k [0; 3; 1; 4; 2; 5]) idx 0)
                          <$> seq 0 6))).
  set (d1 := gather [a0; a2; a4; a1; a3; a5] g1 d).
  assert (permute (Tensor [a0; a1; a2; a3; a4; a5] d) [0; 2; 4; 1; 3; 5]
          = Ok (Tensor [a0; a2; a4; a1; a3; a5] d1)) as E1 by reflexivity.
  assert (permute (Tensor [a0; a2; a4; a1; a3; a5] d1) [0; 3; 1; 4; 2; 5]
          = Ok (Tensor [a0; a1; a2; a3; a4; a5]
                  (gather [a0; a1; a2; a3; a4; a5] g2 d1))) as E2 by reflexivity.
  assert (forall i j, i < numel [a0; a2; a4; a1; a3; a5] ->
            g1 (unravel [a0; a2; a4; a1; a3; a5] i) = Some j -> j < length d)
    as B1.
  { intros i j Hi Hj. apply unravel_lt in Hi.
    apply Forall2_lt_six in Hi as (j0 & j1 & j2 & j3 & j4 & j5 & E & Hb).
    assert (ravel [a0; a1; a2; a3; a4; a5] [j0; j3; j1; j4; j2; j5]
            < numel [a0; a1; a2; a3; a4; a5]) as Hr
      by (apply ravel_lt, Forall2_lt_six_intro; tauto).
    rewrite E in Hj. unfold g1 in Hj. injection Hj as <-. rewrite Ld.
    exact Hr. }
  destruct (gather_total _ g1 d B1) as [L1 K1]. fold d1 in L1, K1.
  exists (Tensor [a0; a2; a4; a1; a3; a5] d1).
  split; [exact E1 |]. split; [reflexivity |].
  split; [cbn [data]; rewrite L1; exact EN |].
  cbn [data]. rewrite E2. do 2 f_equal.
  assert (forall i, i < numel [a0; a1; a2; a3; a4; a5] ->
            exists j, g2 (unravel [a0; a1; a2; a3; a4; a5] i) = Some j /\
                      j < numel [a0; a2; a4; a1; a3; a5] /\
                      g1 (unravel [a0; a2; a4; a1; a3; a5] j) = Some i) as B2.
  { intros i Hi. pose proof (ravel_unravel _ i Hi) as Ei.
    apply unravel_lt in Hi.
    apply Forall2_lt_six in Hi as (j0 & j1 & j2 & j3 & j4 & j5 & E & Hb).
    rewrite E in Ei |- *.
    assert (Forall2 lt [j0; j2; j4; j1; j3; j5] [a0; a2; a4; a1; a3; a5]) as Hb2
      by (apply Forall2_lt_six_intro; tauto).
    exists (ravel [a0; a2; a4; a1; a3; a5] [j0; j2; j4; j1; j3; j5]).
    split; [reflexivity |].
    split; [apply ravel_lt; exact Hb2 |].
    rewrite (unravel_ravel _ _ Hb2). rewrite <- Ei. reflexivity. }
  assert (forall i j, i < numel [a0; a1; a2; a3; a4; a5] ->
            g2 (unravel [a0; a1; a2; a3; a4; a5] i) = Some j -> j < length d1)
    as B2'.
  { intros i j Hi Hj. destruct (B2 i Hi) as (j' & Ej & Hlt & _).
    rewrite L1. congruence. }
  destruct (gather_total _ g2 d1 B2') as [L2 K2].
  apply list_eq. intros i.
  destruct (Nat.lt_ge_cases i (numel [a0; a1; a2; a3; a4; a5])) as [Hi | Hi].
  - rewrite (K2 i Hi). destruct (B2 i Hi) as (j & -> & Hj & Eg).
    rewrite (K1 j Hj), Eg. reflexivity.
  - rewrite !lookup_ge_None_2 by lia. reflexivity.
Qed.

Lemma Forall2_lt_four (idx : list nat) (n0 n1 n2 n3 : nat) :
  Forall2 lt idx [n0; n1; n2; n3] ->
  exists j0 j1 j2 j3,
    idx = [j0; j1; j2; j3] /\ j0 < n0 /\ j1 < n1 /\ j2 < n2 /\ j3 < n3.
Proof.
  intros Hi.
  apply Forall2_cons_inv_r in Hi as (j0 & l0 & B0 & Hi & ->).
  apply Forall2_cons_inv_r in Hi as (j1 & l1 & B1 & Hi & ->).
  apply Forall2_cons_inv_r in Hi as (j2 & l2 & B2 & Hi & ->).
  apply Forall2_cons_inv_r in Hi as (j3 & l3 & B3 & Hi & ->).
  apply Forall2_nil_inv_r in Hi as ->.
  exists j0, j1, j2, j3. repeat split; assumption.
Qed.

Lemma patchify_then_unpatchify (t : tensor F) (b c h w : nat) :
  shape t = [b; c; h; w] -> length (data t) = numel [b; c; h; w] ->
  h mod 2 = 0 -> w mod 2 = 0 ->
  exists x,
    patchify t b c h w = Ok x /\
    shape x = [b; h / 2 * (w / 2); c * 4] /\
    unpatchify x b c h w = Ok t.
Proof.
  destruct t as [s d]. cbn [shape data]. intros -> Ld Eh Ew.
  destruct (numel_patches b c h w Eh Ew) as (N1 & N2 & N3 & N4).
  rewrite N1 in Ld.
  destruct (permute_six_round_trip d b c (h / 2) 2 (w / 2) 2 Ld)
    as (x & E1 & Sx & Lx & E2).
  exists (Tensor [b; h / 2 * (w / 2); c * 4] (data x)).
  split; [| split; [reflexivity |]].
  - unfold patchify, reshape. cbn [shape]. rewrite N1, Nat.eqb_refl, bind_Ok. cbn [data].
    rewrite E1, bind_Ok, Sx.
    assert (numel [b; h / 2; w / 2; c; 2; 2] = numel [b; h / 2 * (w / 2); c * 4])
      as -> by (unfold numel; simpl; lia).
    rewrite Nat.eqb_refl. reflexivity.
  - unfold unpatchify, reshape. cbn [shape data].
    rewrite N3, Nat.eqb_refl, bind_Ok, E2, bind_Ok. cbn [shape data].
    rewrite <- N1, Nat.eqb_refl. reflexivity.
Qed.

(** Patchify then unpatchify is the identity on a latent with even sides:
    the two reshapes and permutations of run_transformer lose and move
    nothing. *)
Theorem unpatchify_inverts_patchify (t : tensor F) (b c h w : nat) :
  shape t = [b; c; h; w] -> length (data t) = numel [b; c; h; w] ->
  h mod 2 = 0 -> w mod 2 = 0 ->
  (x ← patchify t b c h w; unpatchify x b c h w) = Ok t.
Proof.
  intros Hs Hl Eh Ew.
  destruct (patchify_then_unpatchify t b c h w Hs Hl Eh Ew) as (x & -> & _ & E).
  rewrite bind_Ok. exact E.
Qed.

Lemma pad_then_crop (t : tensor F) (b c h w ph pw : nat) :
  shape t = [b; c; h; w] -> length (data t) = numel [b; c; h; w] ->
  exists x,
    F_pad t 0 pw 0 ph = Ok x /\
    shape x = [b; c; h + ph; w + pw] /\
    length (data x) = numel [b; c; h + ph; w + pw] /\
    slice_to x [None; None; Some h; Some w] = Ok t.
Proof.
  destruct t as [s d]. cbn [shape data]. intros -> Ld.
  set (gp := fun idx : list nat =>
               match reverse idx with
               | x :: y :: li =>
                   if (0 <=? x) && (x <? 0 + w) && (0 <=? y) && (y <? 0 + h)
                   then Some (ravel [b; c; h; w] (reverse li ++ [y - 0; x - 0]))
                   else None
               | _ => None
               end).
  set (dp := gather [b; c; h + ph; w + pw] gp d).
  assert (F_pad (Tensor [b; c; h; w] d) 0 pw 0 ph
          = Ok (Tensor [b; c; h + ph; w + pw] dp)) as E1 by reflexivity.
  assert (forall j0 j1 j2 j3,
            gp [j0; j1; j2; j3]
            = if (0 <=? j3) && (j3 <? 0 + w) && (0 <=? j2) && (j2 <? 0 + h)
              then Some (ravel [b; c; h; w] [j0; j1; j2 - 0; j3 - 0])
              else None) as Egp by reflexivity.
  assert (forall i j, i < numel [b; c; h + ph; w + pw] ->
            gp (unravel [b; c; h + ph; w + pw] i) = Some j -> j < length d)
    as B1.
  { intros i j Hi Hj. apply unravel_lt in Hi.
    apply Forall2_lt_four in Hi as (j0 & j1 & j2 & j3 & E & Hb).
    rewrite E, Egp in Hj.
    destruct (Nat.ltb_spec j3 (0 + w)) as [H3 |];
      [| rewrite andb_false_r in Hj; discriminate].
    destruct (Nat.ltb_spec j2 (0 + h)) as [H2 |];
      [| rewrite andb_false_r in Hj; discriminate].
    assert (ravel [b; c; h; w] [j0; j1; j2 - 0; j3 - 0] < numel [b; c; h; w])
      as Hr by (apply ravel_lt; repeat constructor; lia).
    cbn [Nat.leb andb] in Hj. injection Hj as <-. rewrite Ld. exact Hr. }
  destruct (gather_total _ gp d B1) as [L1 K1]. fold dp in L1, K1.
  exists (Tensor [b; c; h + ph; w + pw] dp).
  split; [exact E1 |]. split; [reflexivity |]. split; [exact L1 |].
  set (gc := fun idx : list nat => Some (ravel [b; c; h + ph; w + pw] idx)).
  assert (slice_to (Tensor [b; c; h + ph; w + pw] dp)
            [None; None; Some h; Some w]
          = Ok (Tensor [b; c; Nat.min h (h + ph); Nat.min w (w + pw)]
                  (gather [b; c; Nat.min h (h + ph); Nat.min w (w + pw)] gc dp)))
    as E2 by reflexivity.
  rewrite E2, !Nat.min_l by lia. do 2 f_equal.
  assert (forall i, i < numel [b; c; h; w] ->
            exists j, gc (unravel [b; c; h; w] i) = Some j /\
                      j < numel [b; c; h + ph; w + pw] /\
                      gp (unravel [b; c; h + ph; w + pw] j) = Some i) as B2.
  { intros i Hi. pose proof (ravel_unravel _ i Hi) as Ei.
    apply unravel_lt in Hi.
    apply Forall2_lt_four in Hi as (j0 & j1 & j2 & j3 & E & Hb).
    rewrite E in Ei |- *.
    assert (Forall2 lt [j0; j1; j2; j3] [b; c; h + ph; w + pw]) as Hb2
      by (repeat constructor; lia).
    exists (ravel [b; c; h + ph; w + pw] [j0; j1; j2; j3]).
    split; [reflexivity |]. split; [apply ravel_lt; exact Hb2 |].
    rewrite (unravel_ravel _ _ Hb2), Egp.
    destruct (Nat.ltb_spec j3 (0 + w)) as [_ |]; [| lia].
    destruct (Nat.ltb_spec j2 (0 + h)) as [_ |]; [| lia].
    cbn [Nat.leb andb]. rewrite !Nat.sub_0_r, Ei. reflexivity. }
  assert (forall i j, i < numel [b; c; h; w] ->
            gc (unravel [b; c; h; w] i) = Some j -> j < length dp) as B2'.
  { intros i j Hi Hj. destruct (B2 i Hi) as (j' & Ej & Hlt & _).
    rewrite L1. congruence. }
  destruct (gather_total _ gc dp B2') as [L2 K2].
  apply list_eq. intros i.
  destruct (Nat.lt_ge_cases i (numel [b; c; h; w])) as [Hi | Hi].
  - rewrite (K2 i Hi). destruct (B2 i Hi) as (j & -> & Hj & Eg).
    rewrite (K1 j Hj), Eg. reflexivity.
  - rewrite !lookup_ge_None_2 by lia. reflexivity.
Qed.

(** Padding on the right and at the bottom, then cropping to the original
    height and width, gives back the tensor. *)
Theorem crop_inverts_pad (t : tensor F) (b c h w ph pw : nat) :
  shape t = [b; c; h; w] -> length (data t) = numel [b; c; h; w] ->
  (x ← F_pad t 0 pw 0 ph; slice_to x [None; None; Some h; Some w]) = Ok t.
Proof.
  intros Hs Hl.
  destruct (pad_then_crop t b c h w ph pw Hs Hl) as (x & -> & _ & _ & E).
  rewrite bind_Ok. exact E.
Qed.

Lemma run_blocks_skips (sd : state_dict) (x context temb : tensor F)
    (num_blocks : Z) (dev : device) (dt : dtype) :
  (forall i, i < 10 -> sd !! (block_prefix i +:+ "img_mod.1.weight") = None) ->
  run_blocks sd x context temb num_blocks dev dt = Ok x.
Proof.
  intros Hsd. unfold run_blocks, py_range.
  assert (forall l : list nat, Forall (fun i => i < 10) l ->
            for_each (fun x i => apply_transformer_block x context temb i sd dev dt)
              l x = Ok x) as G.
  { intros l Hl. induction Hl as [| i l Hi _ IH]; [reflexivity |].
    cbn [for_each]. rewrite apply_transformer_block_skips by (apply Hsd, Hi).
    rewrite bind_Ok. exact IH. }
  apply G. apply Forall_forall. intros i Hi.
  apply list_elem_of_In, in_seq in Hi. unfold blocks_to_run in Hi. lia.
Qed.

Lemma transformer_body_without_weights (sd : state_dict)
    (latent timestep context : tensor F) (num_blocks : Z) (b c h w n : nat)
    (k : tensor F -> res (tensor F)) :
  shape latent = [b; c; h; w] -> length (data latent) = numel [b; c; h; w] ->
  h mod 2 = 0 -> w mod 2 = 0 -> shape timestep = [n] ->
  sd !! (prefix +:+ "img_in.weight") = None ->
  sd !! (prefix +:+ "time_text_embed.timestep_embedder.linear_1.weight") = None ->
  (forall i, i < 10 -> sd !! (block_prefix i +:+ "img_mod.1.weight") = None) ->
  sd !! (prefix +:+ "norm_out.linear.weight") = None ->
  sd !! (prefix +:+ "proj_out.weight") = None ->
  (x ← patchify latent b c h w;
   x ← input_projection sd x cuda bfloat16;
   temb ← timestep_embedding sd timestep cuda bfloat16;
   x ← run_blocks sd x context temb num_blocks cuda bfloat16;
   x ← output_modulation sd x temb cuda bfloat16;
   x ← output_projection sd x cuda bfloat16;
   x ← unpatchify x b c h w;
   k x) = k latent.
Proof.
  intros Hl Ll Eh Ew Ht Ein Eemb Eblocks Enorm Eproj.
  destruct (patchify_then_unpatchify latent b c h w Hl Ll Eh Ew)
    as (x & -> & _ & Eun).
  rewrite bind_Ok. unfold input_projection. rewrite Ein, bind_Ok.
  unfold timestep_embedding. cbv zeta.
  destruct (sinusoidal_yields timestep bfloat16 n Ht) as (emb & -> & _).
  rewrite bind_Ok, Eemb, bind_Ok.
  rewrite run_blocks_skips by exact Eblocks. rewrite bind_Ok.
  unfold output_modulation. rewrite Enorm, bind_Ok.
  unfold output_projection. rewrite Eproj, bind_Ok.
  rewrite Eun, bind_Ok. reflexivity.
Qed.

(** When the state dict holds none of the weights that open a stage (the
    input projection, the timestep embedder, the modulation of the first
    ten blocks, the output modulation, the output projection),
    run_transformer returns the latent it was given, element for element,
    padded and cropped back when a side is odd. *)
Theorem run_transformer_without_weights_returns_latent (sd : state_dict)
    (latent timestep context : tensor F) (num_blocks : Z) (b c h w n : nat) :
  shape latent = [b; c; h; w] -> length (data latent) = numel [b; c; h; w] ->
  shape timestep = [n] ->
  sd !! (prefix +:+ "img_in.weight") = None ->
  sd !! (prefix +:+ "time_text_embed.timestep_embedder.linear_1.weight") = None ->
  (forall i, i < 10 -> sd !! (block_prefix i +:+ "img_mod.1.weight") = None) ->
  sd !! (prefix +:+ "norm_out.linear.weight") = None ->
  sd !! (prefix +:+ "proj_out.weight") = None ->
  run_transformer latent timestep context sd num_blocks = Ok latent.
Proof.
  intros Hl Ll Ht Ein Eemb Eblocks Enorm Eproj.
  assert (forall a1 a2 a3 a4 : nat,
             unpack4 [a1; a2; a3; a4] = Ok (a1, a2, a3, a4)) as U4
    by reflexivity.
  unfold run_transformer. rewrite Hl, U4, bind_Ok. cbv beta iota zeta.
  pose proof (pad_amount_even h) as Eh. pose proof (pad_amount_even w) as Ew.
  assert (forall ph pw, (h + ph) mod 2 = 0 -> (w + pw) mod 2 = 0 ->
            (latent' ← F_pad latent 0 pw 0 ph;
             '(_, _, h', w') ← unpack4 (shape latent');
             x ← patchify latent' b c h' w';
             x ← input_projection sd x cuda bfloat16;
             temb ← timestep_embedding sd timestep cuda bfloat16;
             x ← run_blocks sd x context temb num_blocks cuda bfloat16;
             x ← output_modulation sd x temb cuda bfloat16;
             x ← output_projection sd x cuda bfloat16;
             x ← unpatchify x b c h' w';
             slice_to x [None; None; Some h; Some w]) = Ok latent) as Padded.
  { intros ph pw Eh' Ew'.
    destruct (pad_then_crop latent b c h w ph pw Hl Ll)
      as (l1 & -> & Hl1 & Ll1 & Ecrop).
    rewrite bind_Ok, Hl1, U4, bind_Ok.
    rewrite (transformer_body_without_weights sd l1 timestep context num_blocks
               b c (h + ph) (w + pw) n); try assumption. }
  destruct (pad_amount_cases h) as [[Ph _] | Ph];
    destruct (pad_amount_cases w) as [[Pw _] | Pw];
    rewrite Ph, Pw in *; cbn [Nat.ltb Nat.leb orb].
  - rewrite Nat.add_0_r in Eh, Ew. rewrite bind_Ok, Hl, U4, bind_Ok.
    apply (transformer_body_without_weights sd latent timestep context
             num_blocks b c h w n); assumption.
  - apply Padded; assumption.
  - apply Padded; assumption.
  - apply Padded; assumption.
Qed.

(** Whatever the state dict holds, a tensor that run_transformer returns has
    the shape of the latent: the last reshape fixes it. *)
Lemma run_transformer_shape_of_result (sd : state_dict)
    (latent timestep context out : tensor F) (num_blocks : Z) :
  run_transformer latent timestep context sd num_blocks = Ok out ->
  shape out = shape latent.
Proof.
  unfold run_transformer. intros E.
  destruct (shape latent) as [| b [| c [| h [| w [| ? ?]]]]] eqn:Hl;
    try discriminate E.
  cbn [unpack4] in E. rewrite bind_Ok in E. cbv beta iota zeta in E.
  assert (forall (l1 : tensor F) (h1 w1 : nat)
                 (fin : tensor F -> res (tensor F)),
            ('(_, _, h', w') ← unpack4 (shape l1);
             x ← patchify l1 b c h' w';
             x ← input_projection sd x cuda bfloat16;
             temb ← timestep_embedding sd timestep cuda bfloat16;
             x ← run_blocks sd x context temb num_blocks cuda bfloat16;
             x ← output_modulation sd x temb cuda bfloat16;
             x ← output_projection sd x cuda bfloat16;
             x ← unpatchify x b c h' w';
             fin x) = Ok out ->
            shape l1 = [b; c; h1; w1] ->
            exists x, shape x = [b; c; h1; w1] /\ fin x = Ok out) as Body.
  { intros l1 h1 w1 fin E1 Hl1. rewrite Hl1 in E1. cbn [unpack4] in E1.
    rewrite bind_Ok in E1.
    destruct (patchify l1 b c h1 w1) as [x0 |]; [| discriminate E1].
    rewrite bind_Ok in E1.
    destruct (input_projection sd x0 cuda bfloat16) as [x1 |]; [| discriminate E1].
    rewrite bind_Ok in E1.
    destruct (timestep_embedding sd timestep cuda bfloat16) as [temb |];
      [| discriminate E1].
    rewrite bind_Ok in E1.
    destruct (run_blocks sd x1 context temb num_blocks cuda bfloat16) as [x2 |];
      [| discriminate E1].
    rewrite bind_Ok in E1.
    destruct (output_modulation sd x2 temb cuda bfloat16) as [x3 |];
      [| discriminate E1].
    rewrite bind_Ok in E1.
    destruct (output_projection sd x3 cuda bfloat16) as [x4 |];
      [| discriminate E1].
    rewrite bind_Ok in E1.
    destruct (unpatchify x4 b c h1 w1) as [x5 |] eqn:E5; [| discriminate E1].
    rewrite bind_Ok in E1. exists x5. split; [| exact E1].
    unfold unpatchify in E5.
    destruct (reshape x4 _) as [y0 |]; [| discriminate E5].
    rewrite bind_Ok in E5.
    destruct (permute y0 _) as [y1 |]; [| discriminate E5].
    rewrite bind_Ok in E5. unfold reshape in E5.
    destruct (_ =? _); [| discriminate E5]. injection E5 as <-. reflexivity. }
  destruct ((0 <? pad_amount h) || (0 <? pad_amount w)) eqn:Epad.
  - destruct (F_pad latent 0 (pad_amount w) 0 (pad_amount h)) as [l1 |] eqn:Ep;
      [| discriminate E].
    rewrite bind_Ok in E.
    destruct (F_pad_yields latent b c h w (pad_amount w) (pad_amount h) Hl)
      as (l1' & Ep' & Hl1).
    rewrite Ep in Ep'. injection Ep' as <-.
    destruct (Body l1 _ _ _ E Hl1) as (x & Hx & Ex).
    destruct (crop_yields x b c h w _ _ Hx) as (out' & Eo & So).
    rewrite Ex in Eo. injection Eo as <-. exact So.
  - rewrite bind_Ok in E.
    destruct (Body latent h w _ E Hl) as (x & Hx & Ex).
    injection Ex as <-. exact Hx.
Qed.

(** Whatever the state dict holds, a tensor that run_transformer returns has
    the shape of the latent: the last reshape and the crop fix it. *)
Theorem run_transformer_result_has_latent_shape (sd : state_dict)
    (latent timestep context out : tensor F) (num_blocks : Z) :
  run_transformer latent timestep context sd num_blocks = Ok out ->
  shape out = shape latent.
Proof. apply run_transformer_shape_of_result. Qed.

(** ** The sampling loop and the image *)

Lemma yields_inv (r : res (tensor F)) (s : list nat) (out : tensor F) :
  yields r s -> r = Ok out -> shape out = s.
Proof. intros (t & -> & Hs) [= <-]. exact Hs. Qed.

Lemma broadcast_scalar_r (s : list nat) : broadcast_shapes s [] = Some s.
Proof.
  unfold broadcast_shapes. change (reverse []) with (@nil nat).
  assert (bshape_rev (reverse s) [] = Some (reverse s)) as ->
    by (destruct (reverse s); reflexivity).
  simpl. rewrite reverse_involutive. reflexivity.
Qed.

Lemma binop_scalar_r (f : F -> F -> F) (a b : tensor F) :
  shape b = [] -> yields (binop f a b) (shape a).
Proof.
  intros Hb. unfold binop. rewrite Hb, broadcast_scalar_r.
  eexists. split; reflexivity.
Qed.

Lemma for_each_invariant {A I} (P : A -> Prop) (body : A -> I -> res A)
    (l : list I) (x out : A) :
  P x ->
  (forall y i z, i ∈ l -> P y -> body y i = Ok z -> P z) ->
  for_each body l x = Ok out -> P out.
Proof.
  revert x. induction l as [| i l IH]; intros x Hx Hbody E; simpl in E.
  - injection E as <-. exact Hx.
  - destruct (body x i) as [y |] eqn:Ey; [| discriminate E].
    rewrite bind_Ok in E. apply (IH y); [| | exact E].
    + apply (Hbody x i y); [left | exact Hx | exact Ey].
    + intros y' j z Hj. apply Hbody. right. exact Hj.
Qed.

(** one pass of the sampling loop keeps the shape of the latent when the
    model does *)
Lemma euler_step_shape (model : tensor F -> tensor F -> res (tensor F))
    (k : nat -> F) (n i : nat) (latent out : tensor F) :
  (forall x t y, model x t = Ok y -> shape y = shape x) ->
  i + 1 < n ->
  euler_step model (of_kernel [n] k) latent i = Ok out ->
  shape out = shape latent.
Proof.
  intros Hm Hi. rewrite euler_step_of_kernel by exact Hi. intros E.
  destruct (model latent _) as [v |] eqn:Ev; [| discriminate E].
  rewrite bind_Ok in E. apply Hm in Ev.
  destruct (binop_scalar_r f_mul v (scalar (f_sub (k i) (k (i + 1)))) eq_refl)
    as (vdt & Evdt & Svdt).
  unfold t_mul in E. rewrite Evdt, bind_Ok in E.
  apply (yields_inv (t_sub latent vdt)); [| exact E].
  apply binop_same; [reflexivity | congruence].
Qed.

Lemma sampling_loop_shape (model : tensor F -> tensor F -> res (tensor F))
    (k : nat -> F) (n : nat) (latent out : tensor F) :
  (forall x t y, model x t = Ok y -> shape y = shape x) ->
  sampling_loop model (of_kernel [n] k) latent = Ok out ->
  shape out = shape latent.
Proof.
  intros Hm. unfold sampling_loop, t_len. cbn [shape of_kernel].
  rewrite bind_Ok. intros E.
  apply (for_each_invariant (fun y => shape y = shape latent) _ _ _ _ eq_refl)
    in E; [exact E |].
  intros y i z Hi Hy Ez. rewrite <- Hy.
  apply (euler_step_shape model k n i y z Hm); [| exact Ez].
  apply list_elem_of_In, in_seq in Hi. lia.
Qed.

Lemma sampling_loop_yields (model : tensor F -> tensor F -> res (tensor F))
    (k : nat -> F) (n : nat) (latent : tensor F) (s : list nat) :
  (forall x t, shape x = s -> shape t = [1] -> yields (model x t) s) ->
  shape latent = s ->
  yields (sampling_loop model (of_kernel [n] k) latent) s.
Proof.
  intros Hm Hl. unfold sampling_loop, t_len. cbn [shape of_kernel].
  rewrite bind_Ok. apply for_each_yields; [exact Hl |].
  intros y i Hi Hy. apply list_elem_of_In, in_seq in Hi.
  rewrite euler_step_of_kernel by lia.
  eapply yields_bind; [apply Hm; [exact Hy | reflexivity] |].
  intros v Hv.
  eapply (yields_bind _ _ s).
  { rewrite <- Hv. apply binop_scalar_r. reflexivity. }
  intros vdt Hvdt. apply binop_same; assumption.
Qed.

(** what latent_to_image hands to PIL in the fallback decode *)
Lemma latent_to_image_array (latent : tensor F) (vae_sd : state_dict)
    (b c h w : nat) :
  shape latent = [b; c; h; w] -> 0 < c -> 0 < h -> 0 < w ->
  vae_sd !! conv_out_key = None ->
  (b = 0 -> latent_to_image latent vae_sd = Err IndexError) /\
  (0 < b ->
   exists arr,
     latent_to_image latent vae_sd = Image_fromarray arr /\
     a_shape arr = [8 * h; 8 * w; Nat.min 3 c]).
Proof.
  intros Hl Hc Hh Hw Econv.
  unfold latent_to_image, decode_vae_simple. cbv zeta.
  assert (shape (vae_scale latent) = [b; c; h; w]) as Hz by exact Hl.
  rewrite Hz. cbn [unpack4]. rewrite bind_Ok. cbv beta iota.
  unfold F_interpolate. rewrite Hz.
  destruct (Nat.ltb_spec 0 c); [| lia]. destruct (Nat.ltb_spec 0 h); [| lia].
  destruct (Nat.ltb_spec 0 w); [| lia]. cbn [andb Nat.ltb Nat.leb].
  rewrite bind_Ok, Econv.
  set (up := of_kernel [b; c; 8 * h; 8 * w] (k_interpolate 8 (vae_scale latent))).
  assert (exists img, slice_to up [None; Some 3] = Ok img /\
                      shape img = [b; Nat.min 3 c; 8 * h; 8 * w])
    as (img & -> & Simg) by (eexists; split; reflexivity).
  rewrite !bind_Ok. unfold t_index.
  assert (shape (normalize01 img) = [b; Nat.min 3 c; 8 * h; 8 * w]) as ->
    by exact Simg.
  split.
  - intros ->. reflexivity.
  - intros Hb. destruct (Nat.ltb_spec 0 b); [| lia]. rewrite bind_Ok.
    unfold permute. cbn [shape length].
    change (is_perm [1; 2; 0] 3) with true. cbv iota. rewrite bind_Ok.
    eexists. split; reflexivity.
Qed.

Lemma run_transformer_yields (sd : state_dict)
    (latent timestep context : tensor F) (num_blocks : Z)
    (b c h w n d e : nat) :
  shape latent = [b; c; h; w] ->
  shape timestep = [n] -> n = 1 \/ n = b ->
  dims_consistent sd c d e = true ->
  yields (run_transformer latent timestep context sd num_blocks) [b; c; h; w].
Proof.
  intros Hl Ht Hn Hc.
  destruct (run_transformer_padded sd latent timestep context num_blocks
              b c h w Hl) as (l1 & h' & w' & fin & Hl1 & Eh & Ew & Hfin & ->).
  apply (transformer_body_yields sd l1 timestep context num_blocks
           b c h' w' n d e); assumption.
Qed.

Lemma manual_seed_cases (s : Z) :
  manual_seed s = Ok (k_manual_seed s) \/ manual_seed s = Err RuntimeError.
Proof. unfold manual_seed. destruct (_ && _); [left | right]; reflexivity. Qed.

Lemma manual_seed_in_range (s : Z) :
  (- 2 ^ 63 <= s < 2 ^ 64)%Z -> manual_seed s = Ok (k_manual_seed s).
Proof.
  intros Hs. unfold manual_seed.
  destruct (Z.leb_spec (- 2 ^ 63) s); [| lia].
  destruct (Z.ltb_spec s (2 ^ 64)); [| lia]. reflexivity.
Qed.

Lemma reseed_in_range (seed : option Z) (g : rng) :
  (forall s, seed = Some s -> (- 2 ^ 63 <= s < 2 ^ 64)%Z) ->
  reseed seed g = Ok (match seed with Some s => k_manual_seed s | None => g end).
Proof.
  intros Hs. destruct seed as [s |]; [| reflexivity].
  apply manual_seed_in_range, Hs. reflexivity.
Qed.

Lemma generate_with_ai_returns (prompt : string) (width height : Z)
    (transformer_sd vae_sd text_encoder_sd : state_dict)
    (steps : Z) (cfg_scale : F) (seed : option Z) (g : rng) (d e : nat) :
  (8 <= width)%Z -> (8 <= height)%Z -> (-1 <= steps)%Z ->
  (forall s, seed = Some s -> (- 2 ^ 63 <= s < 2 ^ 64)%Z) ->
  dims_consistent transformer_sd 16 d e = true ->
  vae_sd !! conv_out_key = None ->
  exists arr,
    generate_with_ai prompt width height transformer_sd vae_sd text_encoder_sd
      steps cfg_scale seed g
    = (image ← Image_fromarray arr;
       Ok (image,
           match seed with
           | Some s => k_manual_seed s
           | None =>
               (randn_like (to_ cuda bfloat16 (zeros [1; 77; 3584]))
                  (k_manual_seed (py_hash prompt `mod` 2 ^ 32)%Z)).2
           end)) /\
    a_shape arr = [Z.to_nat (8 * (height `div` 8)); Z.to_nat (8 * (width `div` 8)); 3].
Proof.
  intros Hw Hh Hsteps Hseed Hc Econv.
  unfold generate_with_ai, generate_with.
  rewrite encode_prompt_value.
  generalize (randn_like (to_ cuda bfloat16 (zeros [1; 77; 3584]))
                (k_manual_seed (py_hash prompt `mod` 2 ^ 32)%Z)).
  intros p. rewrite (reseed_in_range seed g Hseed), bind_Ok. cbv zeta.
  unfold VAE_SCALE_FACTOR, LATENT_CHANNELS.
  pose proof (Z.div_le_lower_bound height 8 1 ltac:(lia) ltac:(lia)) as Hlh.
  pose proof (Z.div_le_lower_bound width 8 1 ltac:(lia) ltac:(lia)) as Hlw.
  set (lh := (height `div` 8)%Z) in *. set (lw := (width `div` 8)%Z) in *.
  unfold randn. cbn [forallb].
  destruct (Z.leb_spec 0 lh); [| lia]. destruct (Z.leb_spec 0 lw); [| lia].
  change (0 <=? 1)%Z with true. change (0 <=? 16)%Z with true.
  cbn [andb]. cbv iota.
  rewrite bind_Ok. cbv beta iota.
  unfold linspace. destruct (Z.ltb_spec (steps + 1) 0); [lia |].
  rewrite !bind_Ok. cbv beta iota.
  rewrite (reseed_in_range seed p.2 Hseed), bind_Ok.
  set (s := [1; 16; Z.to_nat lh; Z.to_nat lw]).
  change (Z.to_nat <$> [1%Z; 16%Z; lh; lw]) with s.
  set (g1 := match seed with Some s0 => k_manual_seed s0 | None => g end).
  fold g1.
  set (latent := of_kernel s (k_randn g1 bfloat16 (numel s))).
  destruct (sampling_loop_yields
              (fun latent t =>
                 run_transformer latent t
                   (tmap (fun v => f_mul v (f_lit (1 # 10))) p.1)
                   transformer_sd 60)
              (k_linspace (f_lit 1) (f_lit 0) (Z.to_nat (steps + 1)))
              (Z.to_nat (steps + 1)) latent s) as (out & -> & Sout).
  { intros x t Hx Ht.
    apply (run_transformer_yields transformer_sd x t _ 60
             1 16 (Z.to_nat lh) (Z.to_nat lw) 1 d e Hx Ht (or_introl eq_refl) Hc). }
  { reflexivity. }
  rewrite bind_Ok.
  destruct (latent_to_image_array out vae_sd 1 16 (Z.to_nat lh) (Z.to_nat lw)
              Sout ltac:(lia) ltac:(lia) ltac:(lia) Econv) as [_ Harr].
  destruct (Harr ltac:(lia)) as (arr & -> & Sarr).
  exists arr. split.
  - destruct seed; reflexivity.
  - rewrite Sarr. change (Nat.min 3 16) with 3.
    rewrite !Z2Nat.inj_mul by lia. reflexivity.
Qed.

(** generate_with_ai hands PIL a height x width x 3 array whose sides are the
    requested ones rounded down to multiples of 8. *)
Theorem generate_with_ai_image_size (prompt : string) (width height : Z)
    (transformer_sd vae_sd text_encoder_sd : state_dict)
    (steps : Z) (cfg_scale : F) (seed : option Z) (g : rng) (d e : nat) :
  (8 <= width)%Z -> (8 <= height)%Z -> (-1 <= steps)%Z ->
  (forall s, seed = Some s -> (- 2 ^ 63 <= s < 2 ^ 64)%Z) ->
  dims_consistent transformer_sd 16 d e = true ->
  vae_sd !! conv_out_key = None ->
  exists arr g',
    generate_with_ai prompt width height transformer_sd vae_sd text_encoder_sd
      steps cfg_scale seed g
    = (image ← Image_fromarray arr; Ok (image, g')) /\
    a_shape arr
    = [Z.to_nat (8 * (height `div` 8)); Z.to_nat (8 * (width `div` 8)); 3].
Proof.
  intros Hw Hh Hsteps Hseed Hc Econv.
  destruct (generate_with_ai_returns prompt width height transformer_sd vae_sd
              text_encoder_sd steps cfg_scale seed g d e
              Hw Hh Hsteps Hseed Hc Econv) as (arr & E & Sarr).
  eexists arr, _. split; [exact E | exact Sarr].
Qed.

(** generate_with_ai leaves the global generator in a state fixed by the
    seed, or without a seed by the hash of the prompt: whatever state the
    generator had before the call is gone. *)
Theorem generate_with_ai_generator_state (prompt : string) (width height : Z)
    (transformer_sd vae_sd text_encoder_sd : state_dict)
    (steps : Z) (cfg_scale : F) (seed : option Z) (g g_out : rng)
    (image_out : image) :
  generate_with_ai prompt width height transformer_sd vae_sd text_encoder_sd
    steps cfg_scale seed g = Ok (image_out, g_out) ->
  g_out = match seed with
          | Some s => k_manual_seed s
          | None =>
              (randn_like (to_ cuda bfloat16 (zeros [1; 77; 3584]))
                 (k_manual_seed (py_hash prompt `mod` 2 ^ 32)%Z)).2
          end.
Proof.
  unfold generate_with_ai, generate_with. rewrite encode_prompt_value.
  generalize (randn_like (to_ cuda bfloat16 (zeros [1; 77; 3584]))
                (k_manual_seed (py_hash prompt `mod` 2 ^ 32)%Z)).
  intros p E.
  destruct (reseed seed g) as [g1 |]; [| discriminate E].
  rewrite bind_Ok in E. cbv zeta in E.
  destruct (randn _ bfloat16 g1) as [[latent g2] |]; [| discriminate E].
  rewrite bind_Ok in E.
  destruct (linspace _ _ _) as [sigmas |]; [| discriminate E].
  rewrite !bind_Ok in E.
  destruct (reseed seed p.2) as [g4 |] eqn:Eg; [| discriminate E].
  rewrite bind_Ok in E.
  destruct (sampling_loop _ sigmas latent) as [out |]; [| discriminate E].
  rewrite bind_Ok in E.
  destruct (latent_to_image out vae_sd) as [im |]; [| discriminate E].
  rewrite bind_Ok in E. injection E as _ <-.
  destruct seed as [s |]; cbn [reseed] in Eg.
  - destruct (manual_seed_cases s) as [E1 | E1]; rewrite E1 in Eg;
      [injection Eg as <-; reflexivity | discriminate Eg].
  - injection Eg as <-. reflexivity.
Qed.

(** With a seed the call is reproducible: it does not depend on the state
    of the generator it starts from. *)
Theorem generate_with_ai_seeded_is_reproducible
    (prompt : string) (width height : Z)
    (transformer_sd vae_sd text_encoder_sd : state_dict)
    (steps : Z) (cfg_scale : F) (s : Z) (g g' : rng) :
  generate_with_ai prompt width height transformer_sd vae_sd text_encoder_sd
    steps cfg_scale (Some s) g
  = generate_with_ai prompt width height transformer_sd vae_sd text_encoder_sd
      steps cfg_scale (Some s) g'.
Proof. unfold generate_with_ai, generate_with. cbn [reseed]. reflexivity. Qed.

(** The image does not depend on the prompt, with or without a seed: the
    prompt only decides the context, which run_transformer drops, and the
    state the generator is left in. *)
Theorem generate_with_ai_image_ignores_prompt
    (prompt prompt' : string) (width height : Z)
    (transformer_sd vae_sd text_encoder_sd : state_dict)
    (steps : Z) (cfg_scale : F) (seed : option Z) (g : rng) :
  (r ← generate_with_ai prompt width height transformer_sd vae_sd
         text_encoder_sd steps cfg_scale seed g; Ok r.1)
  = (r ← generate_with_ai prompt' width height transformer_sd vae_sd
           text_encoder_sd steps cfg_scale seed g; Ok r.1).
Proof.
  unfold generate_with_ai, generate_with. rewrite !encode_prompt_value.
  generalize (randn_like (to_ cuda bfloat16 (zeros [1; 77; 3584]))
                (k_manual_seed (py_hash prompt `mod` 2 ^ 32)%Z)).
  generalize (randn_like (to_ cuda bfloat16 (zeros [1; 77; 3584]))
                (k_manual_seed (py_hash prompt' `mod` 2 ^ 32)%Z)).
  intros p' p.
  destruct (reseed seed g) as [g1 |]; [| reflexivity].
  rewrite !bind_Ok. cbv zeta.
  destruct (randn _ bfloat16 g1) as [[latent g2] |]; [| reflexivity].
  rewrite !bind_Ok.
  destruct (linspace _ _ _) as [sigmas |]; [| reflexivity].
  rewrite !bind_Ok.
  assert (forall q : tensor F * rng,
            (g4 ← reseed seed q.2;
             latent ← sampling_loop
                        (fun latent t =>
                           run_transformer latent t
                             (tmap (fun v => f_mul v (f_lit (1 # 10))) q.1)
                             transformer_sd 60) sigmas latent;
             image ← latent_to_image latent vae_sd;
             Ok (image, g4)) ≫= (fun r => Ok r.1)
            = (g4 ← reseed seed q.2;
               latent ← sampling_loop
                          (fun latent t =>
                             run_transformer latent t latent transformer_sd 60)
                          sigmas latent;
               image ← latent_to_image latent vae_sd;
               Ok image)) as G.
  { intros q. destruct (reseed seed q.2) as [g4 |] eqn:Eg.
    - rewrite !bind_Ok.
      change (sampling_loop _ sigmas latent)
        with (sampling_loop
                (fun latent t => run_transformer latent t latent transformer_sd 60)
                sigmas latent).
      destruct (sampling_loop _ sigmas latent) as [out |]; [| reflexivity].
      rewrite !bind_Ok.
      destruct (latent_to_image out vae_sd) as [im |]; reflexivity.
    - reflexivity. }
  rewrite (G p), (G p').
  destruct seed as [s |]; reflexivity.
Qed.

(** No image comes out for a width or a height below 8: the latent is then
    empty or of negative size, and the call raises. *)
Theorem generate_with_ai_needs_eight_pixels
    (prompt : string) (width height : Z)
    (transformer_sd vae_sd text_encoder_sd : state_dict)
    (steps : Z) (cfg_scale : F) (seed : option Z) (g : rng) :
  (width < 8)%Z \/ (height < 8)%Z ->
  is_ok (generate_with_ai prompt width height transformer_sd vae_sd
           text_encoder_sd steps cfg_scale seed g) = false.
Proof.
  intros Hsmall. unfold generate_with_ai, generate_with. rewrite encode_prompt_value.
  generalize (randn_like (to_ cuda bfloat16 (zeros [1; 77; 3584]))
                (k_manual_seed (py_hash prompt `mod` 2 ^ 32)%Z)).
  intros p.
  destruct (reseed seed g) as [g1 |]; [| reflexivity].
  rewrite bind_Ok. cbv zeta. unfold VAE_SCALE_FACTOR, LATENT_CHANNELS.
  set (lh := (height `div` 8)%Z). set (lw := (width `div` 8)%Z).
  unfold randn. cbn [forallb].
  destruct (Z.leb_spec 0 lh) as [Hlh |]; [| reflexivity].
  destruct (Z.leb_spec 0 lw) as [Hlw |];
    [| rewrite !andb_false_r; reflexivity].
  change (0 <=? 1)%Z with true. change (0 <=? 16)%Z with true.
  cbn [andb]. cbv iota. rewrite bind_Ok. cbv beta iota.
  unfold linspace. destruct (steps + 1 <? 0)%Z; [reflexivity |].
  rewrite !bind_Ok. cbv beta iota.
  destruct (reseed seed p.2) as [g4 |]; [| reflexivity].
  rewrite bind_Ok.
  set (s := [1; 16; Z.to_nat lh; Z.to_nat lw]).
  change (Z.to_nat <$> [1%Z; 16%Z; lh; lw]) with s.
  destruct (sampling_loop _ _ _) as [out |] eqn:Eloop; [| reflexivity].
  apply sampling_loop_shape in Eloop.
  2: { intros x t y. apply run_transformer_shape_of_result. }
  rewrite bind_Ok.
  assert (Z.to_nat lh = 0 \/ Z.to_nat lw = 0) as Hz.
  { destruct Hsmall as [Hs | Hs]; [right | left].
    - assert (lw < 1)%Z by (apply Z.div_lt_upper_bound; lia). lia.
    - assert (lh < 1)%Z by (apply Z.div_lt_upper_bound; lia). lia. }
  unfold latent_to_image, decode_vae_simple. cbv zeta.
  assert (shape (vae_scale out) = [1; 16; Z.to_nat lh; Z.to_nat lw]) as Hz'
    by exact Eloop.
  rewrite Hz'. cbn [unpack4]. rewrite bind_Ok. cbv beta iota.
  unfold F_interpolate. rewrite Hz'.
  destruct Hz as [-> | ->]; cbn [Nat.ltb Nat.leb andb];
    rewrite ?andb_false_r; reflexivity.
Qed.

(** The transformer runs once per step: with steps = 0 (or -1, an empty
    schedule) the result is the decoded noise and no weight is read; below
    -1 the schedule cannot be built and the call raises RuntimeError. *)
Theorem generate_with_ai_without_steps
    (prompt : string) (width height : Z)
    (transformer_sd transformer_sd' vae_sd text_encoder_sd : state_dict)
    (steps : Z) (cfg_scale : F) (seed : option Z) (g : rng) :
  ((steps = 0 \/ steps = -1)%Z ->
   generate_with_ai prompt width height transformer_sd vae_sd text_encoder_sd
     steps cfg_scale seed g
   = generate_with_ai prompt width height transformer_sd' vae_sd text_encoder_sd
       steps cfg_scale seed g) /\
  ((steps < -1)%Z ->
   generate_with_ai prompt width height transformer_sd vae_sd text_encoder_sd
     steps cfg_scale seed g = Err RuntimeError).
Proof.
  split.
  - intros Hs. unfold generate_with_ai, generate_with. rewrite !encode_prompt_value.
    generalize (randn_like (to_ cuda bfloat16 (zeros [1; 77; 3584]))
                  (k_manual_seed (py_hash prompt `mod` 2 ^ 32)%Z)).
    intros p.
    destruct (reseed seed g) as [g1 |]; [| reflexivity].
    rewrite !bind_Ok. cbv zeta.
    destruct (randn _ bfloat16 g1) as [[latent g2] |]; [| reflexivity].
    rewrite !bind_Ok.
    assert (forall sd : state_dict,
              (sigmas ← linspace (f_lit 1) (f_lit 0) (steps + 1);
               sampling_loop
                 (fun latent t =>
                    run_transformer latent t
                      (tmap (fun v => f_mul v (f_lit (1 # 10))) p.1) sd 60)
                 sigmas latent) = Ok latent) as G.
    { intros sd. unfold linspace, sampling_loop, t_len.
      destruct Hs as [-> | ->]; reflexivity. }
    destruct (linspace _ _ _) as [sigmas |] eqn:El; [| reflexivity].
    rewrite !bind_Ok.
    destruct (reseed seed p.2) as [g4 |]; [| reflexivity].
    rewrite !bind_Ok.
    pose proof (G transformer_sd) as G1. pose proof (G transformer_sd') as G2.
    rewrite bind_Ok in G1, G2. rewrite G1, G2. reflexivity.
  - intros Hs.
    assert (forall g1 : rng,
              ('(latent, g2) ← randn [1%Z; LATENT_CHANNELS;
                                      (height `div` VAE_SCALE_FACTOR)%Z;
                                      (width `div` VAE_SCALE_FACTOR)%Z]
                                bfloat16 g1;
               sigmas ← linspace (f_lit 1) (f_lit 0) (steps + 1);
               '(context, g3) ← encode_prompt prompt bfloat16;
               g4 ← reseed seed g3;
               latent ← sampling_loop
                          (fun latent t =>
                             run_transformer latent t context transformer_sd 60)
                          sigmas latent;
               image ← latent_to_image latent vae_sd;
               Ok (image, g4)) = Err RuntimeError) as G.
    { intros g1. unfold randn. destruct (forallb _ _); [| reflexivity].
      rewrite bind_Ok. unfold linspace.
      destruct (Z.ltb_spec (steps + 1) 0); [reflexivity | lia]. }
    unfold generate_with_ai, generate_with. cbv zeta.
    destruct seed as [s |]; cbn [reseed].
    + destruct (manual_seed_cases s) as [E | E]; rewrite E at 1;
        [| reflexivity].
      rewrite bind_Ok. apply G.
    + rewrite bind_Ok. apply G.
Qed.

(** ** The sampler and the decode at their edges *)

(** euler_sample takes the number of passes from the schedule alone: a
    schedule of fewer than two sigmas returns x untouched without calling
    the model, a 0-d schedule has no len(), and the steps and cfg_scale
    arguments change nothing. *)
Theorem euler_sample_schedule_decides
    (model_fn : tensor F -> tensor F -> tensor F -> option (tensor F)
                -> res (tensor F))
    (x sigmas context : tensor F) (attention_mask : option (tensor F))
    (cfg_scale : F) (steps : Z) :
  (shape sigmas = [] ->
   euler_sample model_fn x sigmas context attention_mask cfg_scale steps
   = Err TypeError) /\
  (forall n rest, shape sigmas = n :: rest -> n <= 1 ->
   euler_sample model_fn x sigmas context attention_mask cfg_scale steps
   = Ok x) /\
  (forall (cfg_scale' : F) (steps' : Z),
   euler_sample model_fn x sigmas context attention_mask cfg_scale steps
   = euler_sample model_fn x sigmas context attention_mask cfg_scale' steps').
Proof.
  split; [| split].
  - intros E. unfold euler_sample, t_len. rewrite E. reflexivity.
  - intros n rest E Hn. unfold euler_sample, t_len, py_range.
    rewrite E, bind_Ok.
    replace (Z.to_nat (Z.of_nat n - 1)) with 0 by lia. reflexivity.
  - reflexivity.
Qed.

(** The convolution branch of decode_vae_simple keeps the first
    weight.shape[1] channels of the upsampled latent; when the latent has
    fewer channels than the convolution reads, F.conv2d refuses the input
    and the decode raises RuntimeError. *)
Theorem decode_vae_simple_channel_mismatch (latent : tensor F)
    (vae_sd : state_dict) (weight bias : tensor F)
    (b c h w co cin kh kw : nat) :
  shape latent = [b; c; h; w] -> 0 < c -> 0 < h -> 0 < w ->
  vae_sd !! conv_out_key = Some weight ->
  vae_sd !! conv_out_bias_key = Some bias ->
  shape weight = [co; cin; kh; kw] -> c < cin ->
  decode_vae_simple latent vae_sd = Err RuntimeError.
Proof.
  intros Hl Hc Hh Hw Ew Eb Sw Hcin.
  unfold decode_vae_simple, sd_item. cbv zeta.
  assert (shape (vae_scale latent) = [b; c; h; w]) as Hz by exact Hl.
  rewrite Hz. cbn [unpack4]. rewrite bind_Ok. cbv beta iota.
  unfold F_interpolate. rewrite Hz.
  destruct (Nat.ltb_spec 0 c); [| lia]. destruct (Nat.ltb_spec 0 h); [| lia].
  destruct (Nat.ltb_spec 0 w); [| lia]. cbn [andb Nat.ltb Nat.leb].
  rewrite bind_Ok, Ew, Eb, !bind_Ok. unfold shape_at.
  assert (shape (tmap (f_cast (k_dtype (vae_scale latent))) weight)
          = [co; cin; kh; kw]) as Sw' by exact Sw.
  rewrite Sw'. cbn [lookup list_lookup]. rewrite bind_Ok.
  set (up := of_kernel [b; c; 8 * h; 8 * w] (k_interpolate 8 (vae_scale latent))).
  assert (exists img, slice_to up [None; Some cin] = Ok img /\
                      shape img = [b; Nat.min cin c; 8 * h; 8 * w])
    as (img & -> & Simg) by (eexists; split; reflexivity).
  rewrite bind_Ok. unfold F_conv2d. rewrite Simg, Sw'.
  rewrite Nat.min_r by lia. unfold conv2d_shape, conv2d_batch_shape.
  rewrite (proj2 (Nat.eqb_neq c cin)) by lia. rewrite andb_false_r.
  reflexivity.
Qed.

(** latent_to_image converts the first image of the batch only, laid out
    height x width x channels, eight times the latent's sides: three
    channels (or all of them when the latent has fewer) in the fallback
    decode; the output channels of the convolution when the state dict has
    a 3x3 conv_out that fits the latent, and no channel at all when that
    convolution reads no channel; an empty batch is an IndexError. *)
Theorem latent_to_image_array_shape (latent : tensor F) (vae_sd : state_dict)
    (b c h w : nat) :
  shape latent = [b; c; h; w] -> 0 < c -> 0 < h -> 0 < w ->
  (vae_sd !! conv_out_key = None ->
   (b = 0 -> latent_to_image latent vae_sd = Err IndexError) /\
   (0 < b ->
    exists arr,
      latent_to_image latent vae_sd = Image_fromarray arr /\
      a_shape arr = [8 * h; 8 * w; Nat.min 3 c])) /\
  (forall (weight bias : tensor F) (co cin : nat),
     vae_sd !! conv_out_key = Some weight ->
     vae_sd !! conv_out_bias_key = Some bias ->
     shape weight = [co; cin; 3; 3] -> shape bias = [co] ->
     0 < co -> cin <= c -> 0 < b ->
     exists arr,
       latent_to_image latent vae_sd = Image_fromarray arr /\
       a_shape arr = [8 * h; 8 * w; if cin =? 0 then 0 else co]).
Proof.
  intros Hl Hc Hh Hw. split.
  - intros Econv. apply (latent_to_image_array latent vae_sd b c h w); assumption.
  - intros weight bias co cin Ew Eb Sw Sb Hco Hcin Hb.
    unfold latent_to_image, decode_vae_simple, sd_item. cbv zeta.
    assert (shape (vae_scale latent) = [b; c; h; w]) as Hz by exact Hl.
    rewrite Hz. cbn [unpack4]. rewrite bind_Ok. cbv beta iota.
    unfold F_interpolate. rewrite Hz.
    destruct (Nat.ltb_spec 0 c); [| lia]. destruct (Nat.ltb_spec 0 h); [| lia].
    destruct (Nat.ltb_spec 0 w); [| lia]. cbn [andb Nat.ltb Nat.leb].
    rewrite bind_Ok, Ew, Eb, !bind_Ok. unfold shape_at.
    assert (shape (tmap (f_cast (k_dtype (vae_scale latent))) weight)
            = [co; cin; 3; 3]) as Sw' by exact Sw.
    assert (shape (tmap (f_cast (k_dtype (vae_scale latent))) bias)
            = [co]) as Sb' by exact Sb.
    rewrite Sw'. cbn [lookup list_lookup]. rewrite bind_Ok.
    set (up := of_kernel [b; c; 8 * h; 8 * w] (k_interpolate 8 (vae_scale latent))).
    assert (exists img, slice_to up [None; Some cin] = Ok img /\
                        shape img = [b; Nat.min cin c; 8 * h; 8 * w])
      as (img & -> & Simg) by (eexists; split; reflexivity).
    rewrite bind_Ok. unfold F_conv2d. rewrite Simg, Sw', Sb'.
    rewrite Nat.min_l by lia. unfold conv2d_shape, conv2d_batch_shape.
    rewrite Nat.eqb_refl, bool_decide_eq_true_2 by reflexivity.
    destruct (Nat.leb_spec 1 co); [| lia].
    destruct (Nat.leb_spec 3 (8 * h + 2 * 1)); [| lia].
    destruct (Nat.leb_spec 3 (8 * w + 2 * 1)); [| lia].
    destruct (Nat.ltb_spec 0 (8 * h)); [| lia].
    destruct (Nat.ltb_spec 0 (8 * w)); [| lia].
    cbn [andb Nat.leb]. rewrite !orb_true_r, !bind_Ok. unfold t_index.
    set (conv := of_kernel _ _).
    assert (shape (normalize01 conv)
            = [b; if cin =? 0 then 0 else co;
               8 * h + 2 * 1 + 1 - 3; 8 * w + 2 * 1 + 1 - 3]) as ->
      by reflexivity.
    destruct (Nat.ltb_spec 0 b); [| lia]. rewrite bind_Ok.
    unfold permute. cbn [shape length].
    change (is_perm [1; 2; 0] 3) with true. cbv iota. rewrite bind_Ok.
    eexists. split; [reflexivity |]. cbn [a_shape shape tmap fmap list_fmap nth].
    repeat (f_equal; try lia).
Qed.

(** decode_vae_simple tests for decoder.conv_out.weight only: a state dict
    that has the weight without decoder.conv_out.bias makes it raise
    KeyError. *)
Theorem decode_vae_simple_missing_bias (latent : tensor F)
    (vae_sd : state_dict) (weight : tensor F) (b c h w : nat) :
  shape latent = [b; c; h; w] -> 0 < c -> 0 < h -> 0 < w ->
  vae_sd !! conv_out_key = Some weight ->
  vae_sd !! conv_out_bias_key = None ->
  decode_vae_simple latent vae_sd = Err KeyError.
Proof.
  intros Hl Hc Hh Hw Ew Eb.
  unfold decode_vae_simple, sd_item. cbv zeta.
  assert (shape (vae_scale latent) = [b; c; h; w]) as Hz by exact Hl.
  rewrite Hz. cbn [unpack4]. rewrite bind_Ok. cbv beta iota.
  unfold F_interpolate. rewrite Hz.
  destruct (Nat.ltb_spec 0 c); [| lia]. destruct (Nat.ltb_spec 0 h); [| lia].
  destruct (Nat.ltb_spec 0 w); [| lia]. cbn [andb Nat.ltb Nat.leb].
  rewrite bind_Ok, Ew, Eb, bind_Ok. reflexivity.
Qed.

(** run_transformer unpacks four dimensions from the latent and indexes
    the timestep as a vector: a latent that is not 4-D raises ValueError,
    and, past the patchify, a 0-d timestep raises IndexError. *)
Theorem run_transformer_rejects_ranks (sd : state_dict)
    (latent timestep context : tensor F) (num_blocks : Z) :
  (length (shape latent) <> 4 ->
   run_transformer latent timestep context sd num_blocks = Err ValueError) /\
  (forall b c h w,
     shape latent = [b; c; h; w] -> shape timestep = [] ->
     sd !! (prefix +:+ "img_in.weight") = None ->
     run_transformer latent timestep context sd num_blocks = Err IndexError).
Proof.
  split.
  - intros Hn. unfold run_transformer.
    destruct (shape latent) as [| b [| c [| h [| w [| ? ?]]]]];
      try reflexivity.
    cbn [length] in Hn. lia.
  - intros b c h w Hl Ht Ein.
    destruct (run_transformer_padded sd latent timestep context num_blocks
                b c h w Hl) as (l1 & h' & w' & fin & Hl1 & Eh & Ew & _ & ->).
    destruct (patchify_yields l1 b c h' w' Hl1 Eh Ew) as (x0 & -> & _).
    rewrite bind_Ok. unfold input_projection. rewrite Ein, bind_Ok.
    unfold timestep_embedding, sinusoidal, index_colon_none. cbv zeta.
    rewrite Ht. reflexivity.
Qed.

End InferenceProperties.

(** * Properties of the module classes *)

Section ModuleProperties.
Context {F : Type} `{Modules F}.

Lemma bshape_rev_nil_r (r : list nat) : bshape_rev r [] = Some r.
Proof. destruct r; reflexivity. Qed.

Lemma broadcast_keepdim (lead : list nat) (d : nat) :
  broadcast_shapes (lead ++ [d]) (lead ++ [1]) = Some (lead ++ [d]).
Proof.
  unfold broadcast_shapes. rewrite !reverse_snoc. cbn [bshape_rev].
  rewrite bdim_one_r, bshape_rev_same. cbn [mbind option_bind fmap option_fmap option_map].
  rewrite reverse_cons, reverse_involutive. reflexivity.
Qed.

Lemma broadcast_vector (lead : list nat) (d m : nat) :
  broadcast_shapes (lead ++ [d]) [m]
  = (fun x => lead ++ [x]) <$> bdim d m.
Proof.
  unfold broadcast_shapes. rewrite reverse_snoc.
  change (reverse [m]) with [m]. cbn [bshape_rev].
  rewrite bshape_rev_nil_r.
  destruct (bdim d m) as [x |]; [| reflexivity].
  cbn [mbind option_bind fmap option_fmap option_map].
  rewrite reverse_cons, reverse_involutive. reflexivity.
Qed.

Lemma mean_last_shape (x : tensor F) (lead : list nat) (d : nat) :
  shape x = lead ++ [d] -> shape (mean_last x) = lead ++ [1].
Proof.
  intros E. unfold mean_last. rewrite E, reverse_snoc. cbn [shape of_kernel].
  rewrite reverse_involutive. reflexivity.
Qed.

Lemma binop_broadcast (f : F -> F -> F) (a b : tensor F) (s : list nat) :
  broadcast_shapes (shape a) (shape b) = Some s -> yields (binop f a b) s.
Proof. intros E. unfold binop. rewrite E. eexists. split; reflexivity. Qed.

Lemma binop_broadcast_fails (f : F -> F -> F) (a b : tensor F) :
  broadcast_shapes (shape a) (shape b) = None -> binop f a b = Err RuntimeError.
Proof. intros E. unfold binop. rewrite E. reflexivity. Qed.

(** RMSNorm.forward keeps the shape of an input whose last dimension is
    dim; an input whose last dimension is 1 is broadcast to dim; any other
    last dimension (for dim other than 1) is a RuntimeError. *)
Theorem RMSNorm_forward_shape (dim : Z) (eps : F) (m : RMSNorm.t F)
    (x : tensor F) (lead : list nat) (d : nat) :
  RMSNorm.init dim eps = Ok m -> shape x = lead ++ [d] ->
  (d = Z.to_nat dim -> yields (RMSNorm.forward m x) (lead ++ [d])) /\
  (d = 1 -> yields (RMSNorm.forward m x) (lead ++ [Z.to_nat dim])) /\
  (d <> Z.to_nat dim -> d <> 1 -> Z.to_nat dim <> 1 ->
   RMSNorm.forward m x = Err RuntimeError).
Proof.
  intros Em Hx. unfold RMSNorm.init in Em.
  destruct (dim <? 0)%Z; [discriminate Em |]. injection Em as <-.
  unfold RMSNorm.forward. cbv zeta. cbn [RMSNorm.eps RMSNorm.weight].
  set (xf := tmap (f_cast float32) x).
  set (norm := tmap f_rsqrt _).
  assert (shape xf = lead ++ [d]) as Hxf by exact Hx.
  assert (shape norm = lead ++ [1]) as Hn.
  { unfold norm. cbn [tmap shape]. apply (mean_last_shape _ lead d). exact Hx. }
  destruct (binop_broadcast f_mul xf norm (lead ++ [d])) as (xn & Exn & Sxn).
  { rewrite Hxf, Hn. apply broadcast_keepdim. }
  unfold t_mul. rewrite Exn, bind_Ok.
  assert (broadcast_shapes (shape (tmap (f_cast (k_dtype x)) xn))
            (shape (ones [Z.to_nat dim]))
          = (fun v => lead ++ [v]) <$> bdim d (Z.to_nat dim)) as Eb.
  { cbn [shape tmap ones]. rewrite Sxn. apply broadcast_vector. }
  unfold bdim in Eb.
  split; [| split].
  - intros Hd. rewrite Hd, Nat.eqb_refl in Eb. rewrite Hd.
    apply binop_broadcast. exact Eb.
  - intros Hd. apply binop_broadcast. rewrite Eb, Hd.
    destruct (Nat.eqb_spec 1 (Z.to_nat dim)) as [<- | _]; reflexivity.
  - intros H2 H3 H4. apply binop_broadcast_fails. rewrite Eb.
    destruct (Nat.eqb_spec d (Z.to_nat dim)); [contradiction |].
    destruct (Nat.eqb_spec d 1); [contradiction |].
    destruct (Nat.eqb_spec (Z.to_nat dim) 1); [contradiction |]. reflexivity.
Qed.

Lemma nn_Linear_shapes (i o : Z) (g g' : rng) (m : Linear F) :
  nn_Linear i o g = Ok (m, g') ->
  (0 <= i)%Z /\ (0 <= o)%Z /\
  shape (l_weight m) = [Z.to_nat o; Z.to_nat i] /\
  shape (l_bias m) = [Z.to_nat o].
Proof.
  unfold nn_Linear.
  destruct (Z.ltb_spec i 0); [discriminate |].
  destruct (Z.ltb_spec o 0); [discriminate |].
  cbn [orb]. intros [= <- <-]. repeat split; assumption.
Qed.

Lemma Linear_forward_yields (m : Linear F) (x : tensor F)
    (lead : list nat) (i o : nat) :
  shape (l_weight m) = [o; i] -> shape (l_bias m) = [o] ->
  shape x = lead ++ [i] ->
  yields (Linear_forward m x) (lead ++ [o]).
Proof.
  intros Hw Hb Hx. unfold Linear_forward, F_linear, linear_shape.
  rewrite Hx, Hw, reverse_snoc. cbn [fmap option_fmap option_map].
  rewrite Hb, Nat.eqb_refl.
  rewrite bool_decide_eq_true_2 by (right; reflexivity).
  cbn [andb]. rewrite reverse_involutive. eexists. split; reflexivity.
Qed.

Lemma Linear_forward_mismatch (m : Linear F) (x : tensor F)
    (lead : list nat) (i i' o : nat) :
  shape (l_weight m) = [o; i] -> shape x = lead ++ [i'] -> i' <> i ->
  Linear_forward m x = Err RuntimeError.
Proof.
  intros Hw Hx Hi. unfold Linear_forward, F_linear, linear_shape.
  rewrite Hx, Hw, reverse_snoc.
  destruct (Nat.eqb_spec i' i); [contradiction |]. reflexivity.
Qed.

Lemma sinusoid_yields (m : TimestepEmbedding.t F) (t : tensor F) (n : nat) :
  (0 < TimestepEmbedding.max_period m)%Z ->
  (0 <= TimestepEmbedding.dim m)%Z ->
  shape t = [n] ->
  yields (TimestepEmbedding.sinusoid m t)
    [n; 2 * Z.to_nat (TimestepEmbedding.dim m `div` 2)].
Proof.
  intros Hp Hd Ht. unfold TimestepEmbedding.sinusoid, math_log, torch_arange.
  cbv zeta.
  destruct (Z.leb_spec (TimestepEmbedding.max_period m) 0); [lia |].
  rewrite bind_Ok.
  pose proof (Z.div_pos (TimestepEmbedding.dim m) 2 Hd ltac:(lia)) as Hh.
  destruct (Z.ltb_spec (TimestepEmbedding.dim m `div` 2) 0); [lia |].
  rewrite bind_Ok.
  set (half := Z.to_nat (TimestepEmbedding.dim m `div` 2)).
  eapply yields_bind; [apply (index_colon_none_yields _ n Ht) |].
  intros tcol Htcol.
  eapply (yields_bind _ _ [1; half]).
  { unfold unsqueeze. eexists. split; reflexivity. }
  intros frow Hfrow.
  eapply yields_bind.
  { apply (binop_outer f_mul (tmap (f_cast float32) tcol) frow n half);
      assumption. }
  intros args Hargs.
  replace (2 * half) with (half + half) by lia.
  apply (cat_last_yields (tmap f_cos args) (tmap f_sin args) n half);
    exact Hargs.
Qed.

(** TimestepEmbedding.forward of a module built for an even dim maps n
    timesteps to an [n, dim] embedding; for an odd dim the sinusoid has
    dim - 1 columns and linear1 refuses it; a max_period that is not
    positive fails in math.log. *)
Theorem TimestepEmbedding_forward_shape (dim max_period : Z) (g g' : rng)
    (m : TimestepEmbedding.t F) (t : tensor F) (n : nat) :
  TimestepEmbedding.init dim max_period g = Ok (m, g') ->
  shape t = [n] ->
  ((max_period <= 0)%Z -> TimestepEmbedding.forward m t = Err ValueError) /\
  ((0 < max_period)%Z -> (dim `mod` 2 = 0)%Z ->
   yields (TimestepEmbedding.forward m t) [n; Z.to_nat dim]) /\
  ((0 < max_period)%Z -> (dim `mod` 2 = 1)%Z ->
   TimestepEmbedding.forward m t = Err RuntimeError).
Proof.
  intros Em Ht. unfold TimestepEmbedding.init in Em.
  destruct (nn_Linear dim (dim * 4) g) as [[l1 g1] |] eqn:E1;
    [| discriminate Em].
  rewrite bind_Ok in Em.
  destruct (nn_Linear (dim * 4) dim g1) as [[l2 g2] |] eqn:E2;
    [| discriminate Em].
  rewrite bind_Ok in Em. injection Em as <- <-.
  apply nn_Linear_shapes in E1 as (Hd & _ & W1 & B1).
  apply nn_Linear_shapes in E2 as (_ & _ & W2 & B2).
  pose proof (Z.div_mod dim 2 ltac:(lia)) as Hdm.
  split; [| split].
  - intros Hp. unfold TimestepEmbedding.forward, TimestepEmbedding.sinusoid,
      math_log. cbn [TimestepEmbedding.max_period].
    destruct (Z.leb_spec max_period 0); [reflexivity | lia].
  - intros Hp Heven. unfold TimestepEmbedding.forward.
    eapply yields_bind; [apply (sinusoid_yields _ t n); [exact Hp | exact Hd | exact Ht] |].
    cbn [TimestepEmbedding.dim TimestepEmbedding.linear1 TimestepEmbedding.linear2].
    intros emb Hemb.
    eapply yields_bind.
    { apply (Linear_forward_yields l1 emb [n] (Z.to_nat dim) (Z.to_nat (dim * 4)) W1 B1).
      rewrite Hemb. cbn [app]. do 2 f_equal. lia. }
    intros e1 He1.
    apply (Linear_forward_yields l2 (tmap f_silu e1) [n] (Z.to_nat (dim * 4))
             (Z.to_nat dim) W2 B2 He1).
  - intros Hp Hodd. unfold TimestepEmbedding.forward.
    destruct (sinusoid_yields {| TimestepEmbedding.dim := dim;
                                 TimestepEmbedding.max_period := max_period;
                                 TimestepEmbedding.linear1 := l1;
                                 TimestepEmbedding.linear2 := l2 |} t n Hp Hd Ht)
      as (emb & -> & Hemb).
    rewrite bind_Ok.
    cbn [TimestepEmbedding.dim TimestepEmbedding.linear1] in *.
    rewrite (Linear_forward_mismatch l1 emb [n] (Z.to_nat dim)
               (2 * Z.to_nat (dim `div` 2)) (Z.to_nat (dim * 4)) W1 Hemb);
      [reflexivity | lia].
Qed.

(** The sinusoid of TimestepEmbedding.forward puts the cosines first: row r
    is cos(t_r * f_k) for k < half followed by sin(t_r * f_k), with
    f_k = exp(-log(max_period) * k / half) and half = dim // 2; the
    embedding then goes through linear1, SiLU and linear2. *)
Theorem TimestepEmbedding_sinusoid_elements (m : TimestepEmbedding.t F)
    (t : tensor F) (n : nat) :
  (0 < TimestepEmbedding.max_period m)%Z ->
  (0 <= TimestepEmbedding.dim m)%Z ->
  shape t = [n] -> length (data t) = n ->
  let half := Z.to_nat (TimestepEmbedding.dim m `div` 2) in
  let f_k :=
    TimestepEmbedding.frequency
      (f_log (f_of_Z (TimestepEmbedding.max_period m)))
      (TimestepEmbedding.dim m `div` 2) in
  exists emb,
    TimestepEmbedding.sinusoid m t = Ok emb /\
    shape emb = [n; 2 * half] /\
    (forall r k v,
       data t !! r = Some v -> k < half ->
       data emb !! (r * (2 * half) + k)
       = Some (f_cos (f_mul (f_cast float32 v) (f_k k))) /\
       data emb !! (r * (2 * half) + (half + k))
       = Some (f_sin (f_mul (f_cast float32 v) (f_k k)))) /\
    TimestepEmbedding.forward m t
    = (e ← Linear_forward (TimestepEmbedding.linear1 m) emb;
       Linear_forward (TimestepEmbedding.linear2 m) (tmap f_silu e)).
Proof.
  intros Hp Hd St Lt half f_k.
  assert (exists emb,
            TimestepEmbedding.sinusoid m t = Ok emb /\
            shape emb = [n; 2 * half] /\
            forall r k v,
              data t !! r = Some v -> k < half ->
              data emb !! (r * (2 * half) + k)
              = Some (f_cos (f_mul (f_cast float32 v) (f_k k))) /\
              data emb !! (r * (2 * half) + (half + k))
              = Some (f_sin (f_mul (f_cast float32 v) (f_k k))))
    as (emb & Eemb & Semb & Demb).
  { unfold TimestepEmbedding.sinusoid, math_log, torch_arange. cbv zeta.
    destruct (Z.leb_spec (TimestepEmbedding.max_period m) 0); [lia |].
    rewrite bind_Ok.
    pose proof (Z.div_pos (TimestepEmbedding.dim m) 2 Hd ltac:(lia)) as Hh.
    destruct (Z.ltb_spec (TimestepEmbedding.dim m `div` 2) 0); [lia |].
    rewrite bind_Ok. fold half.
    unfold index_colon_none, unsqueeze. rewrite St.
    cbn [shape tmap arange length Nat.leb take drop app]. rewrite !bind_Ok.
    match goal with
    | |- context [t_mul ?a ?b] =>
        destruct (binop_outer_data f_mul a b n half)
          as (prod & Eprod & Sprod & Lprod & Dprod);
        [reflexivity | cbn [data tmap]; rewrite length_fmap; exact Lt | reflexivity
        | cbn [data tmap arange]; rewrite !length_fmap, length_seq; reflexivity |]
    end.
    unfold t_mul. rewrite Eprod, bind_Ok.
    destruct (cat_last_data (tmap f_cos prod) (tmap f_sin prod) n half)
      as (cat & Ecat & Scat & Dcat);
      [exact Sprod | exact Sprod
      | cbn [data tmap]; rewrite length_fmap; exact Lprod
      | cbn [data tmap]; rewrite length_fmap; exact Lprod |].
    rewrite Ecat. exists cat. split; [reflexivity |].
    split; [rewrite Scat; f_equal; f_equal; lia |].
    intros r k v Hr Hk.
    assert (r < n) as Hrn by (rewrite <- Lt; eapply lookup_lt_Some; eauto).
    pose proof (Dprod r k (f_cast float32 v) (f_k k)) as Dp.
    cbn [data tmap arange] in Dp. rewrite !list_lookup_fmap in Dp.
    rewrite Hr, lookup_seq_lt in Dp by exact Hk.
    specialize (Dp eq_refl eq_refl).
    destruct (Dcat r k Hrn Hk) as [D1 D2].
    cbn [data tmap] in D1, D2.
    replace (2 * half) with (half + half) by lia.
    rewrite D1, D2, !list_lookup_fmap, Dp. split; reflexivity. }
  exists emb. split; [exact Eemb |]. split; [exact Semb |].
  split; [exact Demb |].
  unfold TimestepEmbedding.forward. rewrite Eemb, bind_Ok. reflexivity.
Qed.

Lemma nn_Conv2d_dims (i o : nat) (g : rng) :
  conv_dims (nn_Conv2d i o 3 g).1 i o.
Proof. split; reflexivity. Qed.

Lemma nn_GroupNorm_dims (g q : nat) :
  0 < g ->
  exists m, nn_GroupNorm g (q * g) = Ok m /\ norm_dims m g q.
Proof.
  intros Hg. unfold nn_GroupNorm.
  destruct (Nat.ltb_spec 0 g); [| lia].
  rewrite Nat.Div0.mod_mul, Nat.eqb_refl. cbn [andb].
  eexists. split; [reflexivity |]. repeat split. exact Hg.
Qed.

Lemma Conv2d_forward_yields (m : Conv2d F) (x : tensor F) (b i o h w : nat) :
  conv_dims m i o -> shape x = [b; i; h; w] -> 0 < i -> 0 < o ->
  0 < h -> 0 < w ->
  yields (Conv2d_forward m x) [b; o; h; w].
Proof.
  intros [Hw Hb] Hx Hi Ho Hh Hw'.
  unfold Conv2d_forward, F_conv2d, conv2d_shape, conv2d_batch_shape.
  rewrite Hx, Hw, Hb, Nat.eqb_refl, bool_decide_eq_true_2 by reflexivity.
  destruct (Nat.leb_spec 1 o); [| lia].
  destruct (Nat.leb_spec 3 (h + 2 * 1)); [| lia].
  destruct (Nat.leb_spec 3 (w + 2 * 1)); [| lia].
  destruct (Nat.ltb_spec 0 h); [| lia].
  destruct (Nat.ltb_spec 0 w); [| lia].
  destruct (Nat.eqb_spec i 0); [lia |].
  cbn [andb Nat.leb]. rewrite !orb_true_r. eexists. split; [reflexivity |].
  cbn [shape of_kernel]. repeat (f_equal; try lia).
Qed.

Lemma Conv2d_forward_mismatch (m : Conv2d F) (x : tensor F)
    (b c i o h w : nat) :
  conv_dims m i o -> shape x = [b; c; h; w] -> c <> i ->
  Conv2d_forward m x = Err RuntimeError.
Proof.
  intros [Hw Hb] Hx Hc.
  unfold Conv2d_forward, F_conv2d, conv2d_shape, conv2d_batch_shape.
  rewrite Hx, Hw. rewrite (proj2 (Nat.eqb_neq c i)) by exact Hc.
  rewrite andb_false_r. reflexivity.
Qed.

Lemma GroupNorm_forward_yields (m : GroupNorm F) (x : tensor F)
    (g q b h w : nat) :
  norm_dims m g q -> shape x = [b; q * g; h; w] ->
  0 < b -> 2 <= q -> 0 < h -> 0 < w ->
  yields (GroupNorm_forward m x) [b; q * g; h; w].
Proof.
  intros (Hg & Hpos & Hw & Hb) Hx Hb' Hq Hh Hw'.
  unfold GroupNorm_forward, group_norm_shape. rewrite Hx, Hg, Hw, Hb.
  replace (b * (q * g) / g) with (b * q)
    by (rewrite Nat.mul_assoc, Nat.div_mul by lia; reflexivity).
  assert (numel [h; w] = h * w) as -> by (unfold numel; simpl; lia).
  destruct (Nat.eqb_spec (b * q * (h * w)) 1) as [E |]; [nia |].
  destruct (Nat.ltb_spec 0 g); [| lia].
  rewrite Nat.Div0.mod_mul, Nat.eqb_refl, !bool_decide_eq_true_2 by reflexivity.
  cbn [andb]. rewrite bind_Ok. eexists. split; reflexivity.
Qed.

Lemma Upsample_forward_yields (x : tensor F) (b c h w : nat) :
  shape x = [b; c; h; w] -> 0 < c -> 0 < h -> 0 < w ->
  yields (Upsample_forward 2 x) [b; c; 2 * h; 2 * w].
Proof.
  intros Hx Hc Hh Hw. unfold Upsample_forward. rewrite Hx.
  cbn [length Nat.leb andb forallb].
  destruct (Nat.ltb_spec 0 c); [| lia]. destruct (Nat.ltb_spec 0 h); [| lia].
  destruct (Nat.ltb_spec 0 w); [| lia]. cbn [andb Nat.ltb Nat.leb].
  eexists. split; reflexivity.
Qed.

Lemma up_stage_yields (blk : SimpleVAEDecoder.up_block) (x : tensor F)
    (b i q h w : nat) :
  up_block_dims blk i q -> shape x = [b; i; h; w] ->
  0 < b -> 0 < i -> 2 <= q -> 0 < h -> 0 < w ->
  yields (SimpleVAEDecoder.up_stage x blk) [b; q * 32; 2 * h; 2 * w].
Proof.
  intros (Hu & Hc & Hn1 & Hc1 & Hn2 & Hc2) Hx Hb Hi Hq Hh Hw.
  unfold SimpleVAEDecoder.up_stage. rewrite Hu.
  eapply yields_bind; [apply (Upsample_forward_yields x b i h w); assumption |].
  intros h1 S1.
  eapply yields_bind;
    [apply (Conv2d_forward_yields _ h1 b i (q * 32) (2 * h) (2 * w)); [assumption | assumption | lia | lia | lia | lia] |].
  intros h2 S2. cbv zeta.
  eapply yields_bind;
    [apply (GroupNorm_forward_yields _ h2 32 q b (2 * h) (2 * w)); [assumption | assumption | lia | lia | lia | lia] |].
  intros h3 S3.
  eapply yields_bind;
    [apply (Conv2d_forward_yields _ (tmap f_silu h3) b (q * 32) (q * 32) (2 * h) (2 * w)); [assumption | exact S3 | lia | lia | lia | lia] |].
  intros h4 S4.
  eapply yields_bind;
    [apply (GroupNorm_forward_yields _ h4 32 q b (2 * h) (2 * w)); [assumption | assumption | lia | lia | lia | lia] |].
  intros h5 S5.
  eapply yields_bind;
    [apply (Conv2d_forward_yields _ (tmap f_silu h5) b (q * 32) (q * 32) (2 * h) (2 * w)); [assumption | exact S5 | lia | lia | lia | lia] |].
  intros h6 S6. apply binop_same; assumption.
Qed.

Lemma make_up_block_dims (i q : nat) (g : rng) :
  exists blk g', SimpleVAEDecoder._make_up_block i (q * 32) g = Ok (blk, g') /\
                 up_block_dims blk i q.
Proof.
  unfold SimpleVAEDecoder._make_up_block.
  destruct (nn_GroupNorm_dims 32 q ltac:(lia)) as (n1 & En & Hn1).
  unfold nn_Conv2d. cbv beta iota zeta. rewrite En, !bind_Ok.
  do 2 eexists. split; [reflexivity |].
  repeat split; try apply Hn1.
Qed.

Lemma load_from_state_dict_dims (self : SimpleVAEDecoder.t F)
    (sd : gmap string (tensor F)) (g : rng) :
  exists dec g',
    SimpleVAEDecoder.load_from_state_dict self sd g = Ok (dec, g') /\
    decoder_dims dec.
Proof.
  unfold SimpleVAEDecoder.load_from_state_dict, SimpleVAEDecoder._load_weights.
  destruct (nn_GroupNorm_dims 32 16 ltac:(lia)) as (n16 & E16 & Hn16).
  destruct (nn_GroupNorm_dims 32 4 ltac:(lia)) as (n4 & E4 & Hn4).
  change (16 * 32) with 512 in E16. change (4 * 32) with 128 in E4.
  unfold nn_Conv2d at 1 2 3. cbv beta iota zeta. rewrite E16, !bind_Ok.
  match goal with
  | |- context [SimpleVAEDecoder._make_up_block 512 512 ?g0] =>
      destruct (make_up_block_dims 512 16 g0) as (u1 & g1 & E1 & H1')
  end.
  change (16 * 32) with 512 in E1. rewrite E1, bind_Ok.
  destruct (make_up_block_dims 512 8 g1) as (u2 & g2 & E2 & H2).
  change (8 * 32) with 256 in E2. rewrite E2, bind_Ok.
  destruct (make_up_block_dims 256 4 g2) as (u3 & g3 & E3 & H3).
  change (4 * 32) with 128 in E3. rewrite E3, bind_Ok.
  destruct (make_up_block_dims 128 4 g3) as (u4 & g4 & E4' & H4).
  change (4 * 32) with 128 in E4'. rewrite E4', bind_Ok, E4, bind_Ok.
  unfold nn_Conv2d. cbv beta iota zeta.
  do 2 eexists. split; [reflexivity |].
  unfold decoder_dims.
  cbn [SimpleVAEDecoder.conv_in SimpleVAEDecoder.mid_norm1
       SimpleVAEDecoder.mid_conv1 SimpleVAEDecoder.mid_norm2
       SimpleVAEDecoder.mid_conv2 SimpleVAEDecoder.up_blocks
       SimpleVAEDecoder.norm_out SimpleVAEDecoder.conv_out].
  do 11 eexists.
  repeat (split; [first [reflexivity | eassumption | split; reflexivity] |]).
  split; reflexivity.
Qed.

Lemma decoder_forward_yields (dec : SimpleVAEDecoder.t F) (z : tensor F)
    (b h w : nat) :
  decoder_dims dec -> shape z = [b; 16; h; w] -> 0 < b -> 0 < h -> 0 < w ->
  yields (SimpleVAEDecoder.forward dec z) [b; 3; 16 * h; 16 * w].
Proof.
  intros (cin & n1 & c1 & n2 & c2 & u1 & u2 & u3 & u4 & nout & cout &
          Ecin & Hcin & En1 & Hn1 & Ec1 & Hc1 & En2 & Hn2 & Ec2 & Hc2 &
          Eup & Hu1 & Hu2 & Hu3 & Hu4 & Eno & Hno & Eco & Hco)
         Hz Hb Hh Hw.
  unfold SimpleVAEDecoder.forward. cbv zeta.
  rewrite Ecin, En1, Ec1, En2, Ec2, Eup, Eno, Eco. cbn [getattr].
  rewrite bind_Ok.
  eapply yields_bind;
    [apply (Conv2d_forward_yields cin (vae_scale z) b 16 512 h w);
       [assumption | exact Hz | lia | lia | lia | lia] |].
  intros h1 S1. rewrite bind_Ok.
  eapply yields_bind;
    [apply (GroupNorm_forward_yields n1 h1 32 16 b h w);
       [assumption | exact S1 | lia | lia | lia | lia] |].
  intros h2 S2. rewrite bind_Ok.
  eapply yields_bind;
    [apply (Conv2d_forward_yields c1 (tmap f_silu h2) b 512 512 h w);
       [assumption | exact S2 | lia | lia | lia | lia] |].
  intros h3 S3. rewrite bind_Ok.
  eapply yields_bind;
    [apply (GroupNorm_forward_yields n2 h3 32 16 b h w);
       [assumption | exact S3 | lia | lia | lia | lia] |].
  intros h4 S4. rewrite bind_Ok.
  eapply yields_bind;
    [apply (Conv2d_forward_yields c2 (tmap f_silu h4) b 512 512 h w);
       [assumption | exact S4 | lia | lia | lia | lia] |].
  intros h5 S5. rewrite bind_Ok. cbn [for_each].
  eapply (yields_bind _ _ [b; 4 * 32; 2 * (2 * (2 * (2 * h)));
                           2 * (2 * (2 * (2 * w)))]).
  { eapply yields_bind;
      [apply (up_stage_yields u1 h5 b 512 16 h w);
         [assumption | exact S5 | lia | lia | lia | lia | lia] |].
    intros x1 X1.
    eapply yields_bind;
      [apply (up_stage_yields u2 x1 b 512 8 (2 * h) (2 * w));
         [assumption | exact X1 | lia | lia | lia | lia | lia] |].
    intros x2 X2.
    eapply yields_bind;
      [apply (up_stage_yields u3 x2 b 256 4 (2 * (2 * h)) (2 * (2 * w)));
         [assumption | exact X2 | lia | lia | lia | lia | lia] |].
    intros x3 X3.
    eapply yields_bind;
      [apply (up_stage_yields u4 x3 b 128 4 (2 * (2 * (2 * h)))
                (2 * (2 * (2 * w))));
         [assumption | exact X3 | lia | lia | lia | lia | lia] |].
    intros x4 X4. apply yields_ok. exact X4. }
  intros h6 S6. rewrite bind_Ok.
  eapply yields_bind;
    [apply (GroupNorm_forward_yields nout h6 32 4 b
              (2 * (2 * (2 * (2 * h)))) (2 * (2 * (2 * (2 * w)))));
       [assumption | exact S6 | lia | lia | lia | lia] |].
  intros h7 S7. rewrite bind_Ok.
  replace (16 * h) with (2 * (2 * (2 * (2 * h)))) by lia.
  replace (16 * w) with (2 * (2 * (2 * (2 * w)))) by lia.
  apply (Conv2d_forward_yields cout (tmap f_silu h7) b 128 3 _ _);
    [assumption | exact S7 | lia | lia | lia | lia].
Qed.

(** A SimpleVAEDecoder has no layer until load_from_state_dict has run:
    forward on a fresh decoder raises AttributeError.  And the loader reads
    no tensor of the state dict it is given (_load_weights is empty): the
    decoder it builds is the same for any two state dicts, its parameters
    the freshly initialised ones. *)
Theorem SimpleVAEDecoder_load_reads_no_weight
    (self self' : SimpleVAEDecoder.t F) (sd sd' : gmap string (tensor F))
    (g : rng) (z : tensor F) :
  SimpleVAEDecoder.forward SimpleVAEDecoder.init z = Err AttributeError /\
  SimpleVAEDecoder.load_from_state_dict self sd g
  = SimpleVAEDecoder.load_from_state_dict self' sd' g.
Proof. split; reflexivity. Qed.

(** After load_from_state_dict, forward maps a [B, 16, H, W] latent (B, H,
    W at least 1) to a [B, 3, 16 H, 16 W] tensor: four up blocks double the
    sides, so the decoder upsamples by 16 where VAE_SCALE_FACTOR is 8; a
    latent with another number of channels is refused by conv_in. *)
Theorem SimpleVAEDecoder_forward_shape (self : SimpleVAEDecoder.t F)
    (sd : gmap string (tensor F)) (g : rng) (z : tensor F) (b c h w : nat) :
  shape z = [b; c; h; w] -> 0 < b -> 0 < h -> 0 < w ->
  exists dec g',
    SimpleVAEDecoder.load_from_state_dict self sd g = Ok (dec, g') /\
    (c = 16 -> yields (SimpleVAEDecoder.forward dec z) [b; 3; 16 * h; 16 * w]) /\
    (c <> 16 -> SimpleVAEDecoder.forward dec z = Err RuntimeError).
Proof.
  intros Hz Hb Hh Hw.
  destruct (load_from_state_dict_dims self sd g) as (dec & g' & E & Hd).
  exists dec, g'. split; [exact E |]. split.
  - intros ->. apply decoder_forward_yields; assumption.
  - intros Hc. destruct Hd as (cin & ? & ? & ? & ? & ? & ? & ? & ? & ? & ? &
                               Ecin & Hcin & _).
    unfold SimpleVAEDecoder.forward. cbv zeta. rewrite Ecin. cbn [getattr].
    rewrite bind_Ok.
    rewrite (Conv2d_forward_mismatch cin (vae_scale z) b c 16 512 h w Hcin Hz Hc).
    reflexivity.
Qed.

End ModuleProperties.

(** * Further properties of the client *)

Section ClientRequests.
Import ComfyUI.
Context `{Env}.

Lemma bind_lift_world {A B} (m : M A) (k : A -> res B) (w : world) :
  (bind m (fun a => lift (k a)) w).2 = (m w).2.
Proof.
  unfold bind, lift. destruct (m w) as [[a | e |] w1]; [| reflexivity ..].
  destruct (k a); reflexivity.
Qed.

Local Abbreviation history_request prompt_id :=
  (GET (COMFYUI_URL +:+ "/history/" +:+ py_str prompt_id)).

Lemma get_history_world (pid : pyval) (w : world) :
  (get_history pid w).2 = after_request (history_request pid) w.
Proof.
  unfold get_history. rewrite bind_lift_world. apply urlopen_after.
Qed.

(** Each of the three HTTP helpers calls urlopen once and touches no file:
    whether it returns or raises, it has made one request, or none when
    urllib refuses the URL before it connects, and then it raises what
    urllib raises.  queue_prompt makes the POST of {prompt: workflow} to
    /prompt, which is never refused; get_history the GET of
    /history/<prompt_id>; get_image the GET of /view with the three
    parameters pasted into the query string as they are. *)
Theorem http_helpers_request_once
    (workflow prompt_id fname subfolder folder_type : pyval) (w : world) :
  let history := GET (COMFYUI_URL +:+ "/history/" +:+ py_str prompt_id) in
  let view :=
    GET (COMFYUI_URL +:+ "/view?filename=" +:+ py_str fname +:+
         "&subfolder=" +:+ py_str subfolder +:+
         "&type=" +:+ py_str folder_type) in
  (queue_prompt workflow w).2
  = World (requests w ++
             [POST (COMFYUI_URL +:+ "/prompt")
                (json_dumps (PDict [("prompt", workflow)])) "application/json"])
      (files w) /\
  (get_history prompt_id w).2
  = match refused history with
    | Some _ => w
    | None => World (requests w ++ [history]) (files w)
    end /\
  (get_image fname subfolder folder_type w).2
  = match refused view with
    | Some _ => w
    | None => World (requests w ++ [view]) (files w)
    end /\
  (forall e, refused history = Some e ->
             get_history prompt_id w = (Raise e, w)) /\
  (forall e, refused view = Some e ->
             get_image fname subfolder folder_type w = (Raise e, w)).
Proof.
  cbv zeta. split; [| split; [| split; [| split]]].
  - apply queue_prompt_world.
  - apply get_history_world.
  - unfold get_image. apply urlopen_after.
  - intros e E. unfold get_history, bind.
    rewrite (urlopen_refused _ e w E). reflexivity.
  - intros e E. unfold get_image, view_url. apply urlopen_refused. exact E.
Qed.

Lemma poll_world (pid : pyval) (w : world) :
  (poll pid w).2 = after_request (history_request pid) w.
Proof.
  unfold poll. unfold bind at 1.
  pose proof (get_history_world pid w) as Eh.
  destruct (get_history pid w) as [[history | e |] w1]; cbn [snd] in Eh;
    subst w1; [| reflexivity ..].
  unfold bind, lift, ret.
  destruct (py_contains pid history) as [[|] |]; [| reflexivity ..].
  destruct (py_getitem history pid) as [entry |]; [| reflexivity].
  destruct (py_get entry "outputs" (PDict [])) as [outputs |]; [| reflexivity].
  destruct (py_truthy outputs); [| reflexivity].
  destruct (py_items outputs) as [items |]; [| reflexivity].
  destruct (find_images items); reflexivity.
Qed.

Lemma wait_loop_polls (clock : list Q) (start timeout : Q) (pid : pyval)
    (w : world) :
  exists k, k <= length clock /\
    (wait_loop clock start timeout pid w).2
    = World (requests w ++ replicate k (history_request pid)) (files w).
Proof.
  revert w. induction clock as [| now clock IH]; intros w.
  - exists 0. split; [lia |]. cbn [wait_loop snd replicate].
    rewrite app_nil_r. destruct w; reflexivity.
  - rewrite wait_loop_cons. destruct (Qlt_bool (now - start) timeout).
    + unfold bind. pose proof (poll_world pid w) as Ep.
      unfold after_request in Ep.
      assert (World (requests w ++ []) (files w) = w) as Ew
        by (rewrite app_nil_r; destruct w; reflexivity).
      destruct (refused (history_request pid));
        destruct (poll pid w) as [[[images |] | e |] w1]; cbn [snd] in Ep;
        subst w1; cbn [snd ret].
      * exists 0. split; [lia | symmetry; exact Ew].
      * destruct (IH w) as (k & Hk & ->).
        exists k. split; [cbn [length]; lia | reflexivity].
      * exists 0. split; [lia | symmetry; exact Ew].
      * exists 0. split; [lia | symmetry; exact Ew].
      * exists 1. split; [cbn [length]; lia | reflexivity].
      * destruct (IH (World (requests w ++ [history_request pid]) (files w)))
          as (k & Hk & ->).
        exists (S k). split; [cbn [length]; lia |].
        cbn [requests files replicate]. rewrite <- app_assoc. reflexivity.
      * exists 1. split; [cbn [length]; lia | reflexivity].
      * exists 1. split; [cbn [length]; lia | reflexivity].
    + exists 0. split; [lia |]. cbn [ret snd replicate].
      rewrite app_nil_r. destruct w; reflexivity.
Qed.

(** wait_for_completion only ever sends GET /history/<prompt_id>, at most
    once per reading of the clock after the first, and writes no file; when
    the first look at the clock is already past the timeout (a timeout of
    zero, say) it returns None without a single request. *)
Theorem wait_for_completion_only_polls (clock : list Q) (prompt_id : pyval)
    (timeout : Q) (w : world) :
  let r := wait_for_completion clock prompt_id timeout w in
  (exists k, k <= length clock - 1 /\
     r.2 = World (requests w ++
                    replicate k (GET (COMFYUI_URL +:+ "/history/" +:+
                                      py_str prompt_id)))
             (files w)) /\
  (forall start now rest,
     clock = start :: now :: rest ->
     Qlt_bool (now - start) timeout = false ->
     r = (Ret PNone, w)).
Proof.
  cbv zeta. split.
  - destruct clock as [| start clock].
    + exists 0. split; [cbn [length]; lia |]. cbn [wait_for_completion snd replicate].
      rewrite app_nil_r. destruct w; reflexivity.
    + cbn [wait_for_completion].
      destruct (wait_loop_polls clock start timeout prompt_id w) as (k & Hk & E).
      exists k. split; [cbn [length]; lia | exact E].
  - intros start now rest -> E. cbn [wait_for_completion].
    rewrite wait_loop_cons, E. reflexivity.
Qed.

(** The loop over outputs.items() returns the images of the first node
    output that has an images key and skips the node outputs before it;
    it ends without images only when no node output has the key. *)
Theorem find_images_first_match (items : list (string * pyval)) :
  (forall images,
     find_images items = Ok (Some images) ->
     exists before node_id node_output after,
       items = before ++ (node_id, node_output) :: after /\
       Forall (fun item => py_contains (PStr "images") item.2 = Ok false)
         before /\
       py_contains (PStr "images") node_output = Ok true /\
       py_getitem node_output (PStr "images") = Ok images) /\
  (find_images items = Ok None <->
   Forall (fun item => py_contains (PStr "images") item.2 = Ok false) items).
Proof.
  induction items as [| [node_id node_output] items [IH1 IH2]].
  - split; [intros images [=] |]. split; [constructor | reflexivity].
  - cbn [find_images].
    destruct (py_contains (PStr "images") node_output) as [[|] | e] eqn:Ec;
      cbn [mbind res_bind].
    + split.
      * intros images E.
        destruct (py_getitem node_output (PStr "images")) as [v |] eqn:Eg;
          [| discriminate E].
        injection E as <-.
        exists [], node_id, node_output, items.
        repeat split; [constructor | exact Ec | exact Eg].
      * split.
        -- destruct (py_getitem node_output (PStr "images")); discriminate.
        -- intros Hall. apply Forall_cons in Hall as [Hc _]. cbn [snd] in Hc.
           congruence.
    + split.
      * intros images E. destruct (IH1 images E)
          as (before & nid & nout & after & -> & Hb & Hc & Hg).
        exists ((node_id, node_output) :: before), nid, nout, after.
        repeat split; [constructor; assumption | exact Hc | exact Hg].
      * rewrite IH2. split.
        -- intros Hall. constructor; assumption.
        -- intros Hall. apply Forall_cons in Hall as [_ Hall]. exact Hall.
    + split; [discriminate |]. split; [discriminate |].
      intros Hall. apply Forall_cons in Hall as [Hc _]. cbn [snd] in Hc.
      congruence.
Qed.

Ltac by_name s :=
  match goal with
  | |- context [String.eqb s ?lit] =>
      destruct (String.eqb_spec s lit) as [-> | ?]
  end.

(** The workflow generate_asset_comfyui submits is the template with four
    inputs replaced (the width and height of node 5, the text of node 4,
    the seed of node 6): every other input of every node is the template's,
    so the sampler settings, the model files and the links stay as
    written, the negative conditioning of the sampler being the same node
    4 as the positive one. *)
Theorem asset_workflow_changes_four_inputs (cfg : asset_config) (seed : Z)
    (n key : string) :
  (n, key) ∉ [("5", "width"); ("5", "height"); ("4", "text"); ("6", "seed")] ->
  get_input (asset_workflow cfg seed) n key
  = get_input get_workflow_template n key.
Proof.
  intros Hn. unfold get_input, asset_workflow, get_workflow_template, node.
  cbn [py_getitem hashable assoc mbind res_bind].
  repeat (by_name n; [try reflexivity |]); [| | | reflexivity].
  - cbn [py_getitem hashable assoc mbind res_bind String.eqb Ascii.eqb Bool.eqb].
    repeat (by_name key; [try reflexivity |]); [| reflexivity].
    exfalso. apply Hn. set_solver.
  - cbn [py_getitem hashable assoc mbind res_bind String.eqb Ascii.eqb Bool.eqb].
    repeat (by_name key; [try reflexivity |]); [| | reflexivity].
    + exfalso. apply Hn. set_solver.
    + exfalso. apply Hn. set_solver.
  - cbn [py_getitem hashable assoc mbind res_bind String.eqb Ascii.eqb Bool.eqb].
    repeat (by_name key; [try reflexivity |]); [| reflexivity].
    exfalso. apply Hn. set_solver.
Qed.

End ClientRequests.

(** ** The batch run *)

Section BatchProperties.
Import ComfyUI Batch.
Context `{StatusEnv}.

(** check_comfyui_running never raises: it sends one GET /system_stats,
    touches no file, and answers True exactly when the request was
    answered with status 200. *)
Theorem check_comfyui_running_outcome (w : world) :
  let k := length (requests w) in
  let r := check_comfyui_running w in
  r.2 = World (requests w ++ [stats_request]) (files w) /\
  r.1 = Ret (bool_decide
               (is_ok (server k stats_request) = true /\
                response_status k stats_request = 200%Z)).
Proof.
  cbv zeta. unfold check_comfyui_running, try_except, bind, urlopen_status, ret.
  fold stats_request. rewrite (refused_plain stats_request eq_refl).
  destruct (server (length (requests w)) stats_request) as [body | e];
    cbn [is_ok fst snd].
  - split; [reflexivity |]. f_equal.
    destruct (Z.eqb_spec (response_status (length (requests w)) stats_request) 200)
      as [E | E]; symmetry.
    + apply bool_decide_eq_true_2. split.
      * reflexivity.
      * exact E.
    + apply bool_decide_eq_false. intros [_ E']. contradiction.
  - split; reflexivity.
Qed.

Lemma config_dict_run (clock : list Q) (asset_name : string)
    (cfg : asset_config) (seed : option Z) (w : world) :
  let workflow :=
    asset_workflow cfg
      match seed with
      | None => (str_hash asset_name `mod` 2 ^ 32)%Z
      | Some s => s
      end in
  generate_asset_comfyui clock asset_name (config_dict cfg) seed w
  = match fetch_image clock workflow w with
    | (Ret (Some data), w') =>
        match save_image (config_dict cfg) data w' with
        | (Raise e, w'') => (Ret false, w'')
        | r => r
        end
    | (Ret None, w') => (Ret false, w')
    | (Raise e, w') => (Ret false, w')
    | (Stuck, w') => (Stuck, w')
    end.
Proof.
  exact (generate_asset_comfyui_run clock asset_name (config_dict cfg)
           (PInt (width cfg)) (PInt (height cfg)) (PStr (prompt cfg)) seed w
           eq_refl eq_refl eq_refl).
Qed.

Lemma generate_asset_comfyui_effect (clock : list Q) (asset_name : string)
    (cfg : asset_config) (seed : option Z) (w : world) :
  let r := generate_asset_comfyui clock asset_name (config_dict cfg) seed w in
  (forall e, r.1 <> Raise e) /\
  (forall p, p <> output_path cfg -> files r.2 !! p = files w !! p) /\
  (exists rest, requests r.2 = requests w ++ rest).
Proof.
  cbv zeta. rewrite config_dict_run. cbv zeta.
  set (workflow := asset_workflow cfg _).
  destruct (stable_fetch_image clock workflow w) as (Ef & rest & Er).
  destruct (fetch_image clock workflow w) as [[[data |] | e |] w1];
    cbn [fst snd] in *.
  2-4: (split; [discriminate |]; split;
        [intros p _; rewrite Ef; reflexivity | exists rest; exact Er]).
  destruct (save_image_cases (config_dict cfg) data w1)
    as [(name & En & _ & _ & _ & Esv) |
        [(e & name & En & _ & Esv) | (e & Esv & _)]];
    cbv zeta in Esv; rewrite Esv; cbn [fst snd requests files].
  - injection En as <-. split; [discriminate |]. split.
    + intros p Hp. rewrite <- Ef. apply lookup_insert_ne.
      intros E. apply Hp. symmetry. exact E.
    + exists rest. exact Er.
  - injection En as <-. split; [discriminate |]. split.
    + intros p Hp. rewrite <- Ef. apply lookup_insert_ne.
      intros E. apply Hp. symmetry. exact E.
    + exists rest. exact Er.
  - split; [discriminate |]. split.
    + intros p _. rewrite Ef. reflexivity.
    + exists rest. exact Er.
Qed.

Lemma generate_each_effect (clocks : string -> list Q)
    (assets : list (string * asset_config)) (success_count : Z) (w : world) :
  let r := generate_each clocks assets success_count w in
  (forall e, r.1 <> Raise e) /\
  (forall p, foreign assets p -> files r.2 !! p = files w !! p) /\
  (exists rest, requests r.2 = requests w ++ rest).
Proof.
  cbv zeta. revert success_count w.
  induction assets as [| [name cfg] assets IH]; intros success_count w.
  - cbn [generate_each ret fst snd]. split; [discriminate |].
    split; [reflexivity |]. exists []. symmetry. apply app_nil_r.
  - cbn [generate_each]. unfold bind.
    destruct (generate_asset_comfyui_effect (clocks name) name cfg None w)
      as (Hne & Hf & (rest & Hr)).
    destruct (generate_asset_comfyui (clocks name) name (config_dict cfg)
                None w)
      as [[ok | e |] w1]; cbn [fst snd] in *.
    + destruct (IH (if ok then (success_count + 1)%Z else success_count) w1)
        as (Hne' & Hf' & (rest' & Hr')).
      split; [exact Hne' |]. split.
      * intros p Hp. rewrite Hf'.
        -- apply Hf. apply (Hp name cfg). left.
        -- intros n c Hin. apply (Hp n c). right. exact Hin.
      * exists (rest ++ rest'). rewrite Hr', Hr, app_assoc. reflexivity.
    + exfalso. apply (Hne e). reflexivity.
    + split; [discriminate |]. split.
      * intros p Hp. apply Hf. apply (Hp name cfg). left.
      * exists rest. exact Hr.
Qed.

Lemma never_stuck_generate_asset (start : Q) (readings : list Q)
    (asset_name : string) (cfg : asset_config) (seed : option Z) (w : world) :
  Exists (fun now => Qlt_bool (now - start) 300 = false) readings ->
  (generate_asset_comfyui (start :: readings) asset_name (config_dict cfg)
     seed w).1 <> Stuck.
Proof.
  intros Hd. rewrite config_dict_run. cbv zeta.
  set (workflow := asset_workflow cfg _).
  pose proof (never_stuck_fetch_image start readings workflow Hd w) as Hn.
  destruct (fetch_image (start :: readings) workflow w)
    as [[[data |] | e |] w1]; cbn [fst snd] in *;
    [| discriminate | discriminate | exfalso; apply Hn; reflexivity].
  destruct (save_image_cases (config_dict cfg) data w1)
    as [(name & _ & _ & _ & _ & Esv) |
        [(e & name & _ & _ & Esv) | (e & Esv & _)]];
    cbv zeta in Esv; rewrite Esv; discriminate.
Qed.

Lemma never_stuck_generate_each (clocks : string -> list Q)
    (assets : list (string * asset_config)) (success_count : Z) (w : world) :
  deadlines_met clocks assets ->
  (generate_each clocks assets success_count w).1 <> Stuck.
Proof.
  revert success_count w.
  induction assets as [| [name cfg] assets IH]; intros success_count w Hd.
  - discriminate.
  - cbn [generate_each]. unfold bind.
    destruct (Hd name cfg ltac:(left)) as (start & readings & Ec & Hex).
    pose proof (never_stuck_generate_asset start readings name cfg None w Hex)
      as Hn.
    rewrite <- Ec in Hn.
    destruct (generate_asset_comfyui (clocks name) name (config_dict cfg)
                None w)
      as [[ok | e |] w1]; cbn [fst snd] in *.
    + apply IH. intros n c Hin. apply (Hd n c). right. exact Hin.
    + discriminate.
    + contradiction.
Qed.

(** generate_all: the first request asks for /system_stats, and when the
    answer is not a 200 nothing else happens; an exception can only come
    from creating the output directory, before any asset is requested; no
    file other than the output files of the asset table is ever changed;
    and the run ends normally when the directory can be created and the
    clock of every asset reaches its deadline. *)
Theorem generate_all_outcome (clocks : string -> list Q) (w : world) :
  let k := length (requests w) in
  let r := generate_all clocks w in
  (exists rest, requests r.2 = requests w ++ stats_request :: rest) /\
  (~ (is_ok (server k stats_request) = true /\
      response_status k stats_request = 200%Z) ->
   r = (Ret tt, World (requests w ++ [stats_request]) (files w))) /\
  (forall e, r.1 = Raise e ->
     mkdir_fault = Some e /\
     r.2 = World (requests w ++ [stats_request]) (files w)) /\
  (forall p, foreign ASSETS p -> files r.2 !! p = files w !! p) /\
  (is_ok (server k stats_request) = true ->
   response_status k stats_request = 200%Z ->
   mkdir_fault = None -> deadlines_met clocks ASSETS ->
   r.1 = Ret tt).
Proof.
  intros k r.
  pose proof (eq_refl : r = generate_all clocks w) as Er.
  unfold generate_all, bind in Er.
  destruct (check_comfyui_running_outcome w) as [Ew Ec]. cbv zeta in Ew, Ec.
  destruct (check_comfyui_running w) as [o w1]. cbn [fst snd] in Ew, Ec.
  subst o w1. fold k in Er.
  set (w1 := World (requests w ++ [stats_request]) (files w)) in *.
  destruct (bool_decide_reflect
              (is_ok (server k stats_request) = true /\
               response_status k stats_request = 200%Z))
    as [Hrun | Hrun]; cbn [negb] in Er.
  2: { rewrite Er. cbn [ret fst snd]. split; [exists []; reflexivity |].
       split; [reflexivity |]. split; [discriminate |].
       split; [reflexivity |]. intros E1 E2. exfalso. apply Hrun.
       split; assumption. }
  unfold mkdir, fault in Er.
  destruct mkdir_fault as [e0 |] eqn:Em.
  { rewrite Er. cbn [fst snd].
    split; [exists []; reflexivity |]. split; [contradiction |].
    split; [intros e [= <-]; split; reflexivity |].
    split; [reflexivity |]. discriminate. }
  destruct (generate_each_effect clocks ASSETS 0 w1) as (Hne & Hf & (rest & Hr)).
  pose proof (never_stuck_generate_each clocks ASSETS 0 w1) as Hns.
  destruct (generate_each clocks ASSETS 0 w1) as [[c | e |] w2];
    rewrite Er; cbn [fst snd ret] in *.
  - split; [exists rest; rewrite Hr; unfold w1; cbn [requests];
             rewrite <- app_assoc; reflexivity |].
    split; [contradiction |]. split; [discriminate |].
    split; [exact Hf |]. reflexivity.
  - exfalso. apply (Hne e). reflexivity.
  - split; [exists rest; rewrite Hr; unfold w1; cbn [requests];
             rewrite <- app_assoc; reflexivity |].
    split; [contradiction |]. split; [discriminate |].
    split; [exact Hf |]. intros _ _ _ Hd. exfalso. apply (Hns Hd). reflexivity.
Qed.

End BatchProperties.

(** * Properties of the key survey *)

Section KeySurvey.
Import LocalQwen2.

Lemma append_nil_l (s : string) : EmptyString +:+ s = s.
Proof. reflexivity. Qed.

Lemma append_cons (a : Ascii.ascii) (s t : string) :
  String a s +:+ t = String a (s +:+ t).
Proof. reflexivity. Qed.

Lemma split_not_nil (sep : Ascii.ascii) (s : string) : split sep s <> [].
Proof.
  destruct s as [| a s]; cbn [split]; [discriminate |].
  destruct (Ascii.eqb a sep); [discriminate |].
  destruct (split sep s); discriminate.
Qed.

(** what the first part and the number of parts say about the string *)
Lemma split_head (sep : Ascii.ascii) (s part : string) (parts : list string) :
  split sep s = part :: parts ->
  ~ occurs sep part /\
  match parts with
  | [] => s = part
  | _ :: _ => exists rest, s = part +:+ String sep rest
  end.
Proof.
  revert part parts. induction s as [| a s IH]; intros part parts E.
  - cbn [split] in E. injection E as <- <-. split; [intros [] | reflexivity].
  - cbn [split] in E. destruct (Ascii.eqb_spec a sep) as [-> | Hne].
    + injection E as <- <-. split; [intros [] |].
      pose proof (split_not_nil sep s) as Hn.
      destruct (split sep s); [contradiction |]. exists s. reflexivity.
    + destruct (split sep s) as [| p ps] eqn:Es;
        [exfalso; exact (split_not_nil sep s Es) |].
      injection E as <- <-. destruct (IH p ps eq_refl) as [Hp Hs]. split.
      * intros [Ha | Ho]; [congruence | contradiction].
      * destruct ps as [| q ps].
        -- rewrite Hs. reflexivity.
        -- destruct Hs as (rest & ->). exists rest. reflexivity.
Qed.

Lemma split_prefix (sep : Ascii.ascii) (part rest : string) :
  ~ occurs sep part ->
  exists parts, split sep (part +:+ String sep rest) = part :: parts /\
                parts <> [].
Proof.
  induction part as [| a part IH]; intros Hp.
  - rewrite append_nil_l. cbn [split]. rewrite Ascii.eqb_refl.
    exists (split sep rest). split; [reflexivity | apply split_not_nil].
  - rewrite append_cons. cbn [split].
    destruct (Ascii.eqb_spec a sep) as [-> | Hne];
      [exfalso; apply Hp; left; reflexivity |].
    destruct IH as (parts & -> & Hn); [intros Ho; apply Hp; right; exact Ho |].
    exists parts. split; [reflexivity | exact Hn].
Qed.

Lemma prefixes_snoc (keys : list string) (key : string) :
  prefixes (keys ++ [key])
  = match split "."%char key with
    | part :: _ :: _ => prefixes keys ∪ {[ part ]}
    | _ => prefixes keys
    end.
Proof.
  unfold prefixes. rewrite foldl_app. cbn [foldl].
  destruct (split "."%char key) as [| part [| q ps]]; reflexivity.
Qed.

(** The prefixes the survey collects are exactly the parts before the first
    dot of the keys that have a dot; a key without a dot adds nothing. *)
Theorem prefixes_are_first_parts (keys : list string) (p : string) :
  p ∈ prefixes keys <->
  exists key rest,
    key ∈ keys /\ key = p +:+ String "."%char rest /\ ~ occurs "."%char p.
Proof.
  induction keys as [| key keys IH] using rev_ind.
  - split; [intros Hp; apply elem_of_empty in Hp; contradiction |].
    intros (key & rest & Hin & _). apply elem_of_nil in Hin. contradiction.
  - rewrite prefixes_snoc.
    destruct (split "."%char key) as [| part [| q ps]] eqn:Es.
    + exfalso. exact (split_not_nil _ _ Es).
    + destruct (split_head _ _ _ _ Es) as [Hn ->]. rewrite IH. split.
      * intros (k & rest & Hin & Hk & Hp). exists k, rest.
        split; [apply elem_of_app; left; exact Hin | split; assumption].
      * intros (k & rest & Hin & Hk & Hp). apply elem_of_app in Hin as [Hin | Hin].
        -- exists k, rest. split; [exact Hin | split; assumption].
        -- apply list_elem_of_singleton in Hin. subst k.
           destruct (split_prefix "."%char p rest Hp) as (parts & E' & Hne).
           rewrite <- Hk in E'. rewrite Es in E'. injection E' as _ <-.
           contradiction.
    + destruct (split_head _ _ _ _ Es) as [Hn (rest0 & Hkey)].
      rewrite elem_of_union, elem_of_singleton, IH. split.
      * intros [(k & rest & Hin & Hk & Hp) | ->].
        -- exists k, rest.
           split; [apply elem_of_app; left; exact Hin | split; assumption].
        -- exists key, rest0.
           split; [apply elem_of_app; right; apply list_elem_of_singleton; reflexivity |].
           split; assumption.
      * intros (k & rest & Hin & Hk & Hp). apply elem_of_app in Hin as [Hin | Hin].
        -- left. exists k, rest. split; [exact Hin | split; assumption].
        -- right. apply list_elem_of_singleton in Hin. subst k.
           destruct (split_prefix "."%char p rest Hp) as (parts & E' & Hne).
           rewrite <- Hk in E'. rewrite Es in E'. injection E' as <- _.
           reflexivity.
Qed.

(** split and join are inverse on the string: no character is lost *)
Lemma join_split (sep : Ascii.ascii) (s : string) : join sep (split sep s) = s.
Proof.
  induction s as [| a s IH]; [reflexivity |].
  cbn [split]. destruct (Ascii.eqb_spec a sep) as [-> | Hne].
  - pose proof (split_not_nil sep s) as Hn.
    destruct (split sep s) as [| p ps]; [contradiction |].
    cbn [join]. rewrite append_nil_l. cbn [join] in IH. rewrite IH. reflexivity.
  - pose proof (split_not_nil sep s) as Hn.
    destruct (split sep s) as [| p ps]; [contradiction |].
    destruct ps as [| q ps].
    + cbn [join] in *. rewrite IH. reflexivity.
    + cbn [join] in *. rewrite append_cons, IH. reflexivity.
Qed.

End KeySurvey.

(** * The statements on the integer backend *)

Module Examples.
Import IntBackend ComfyUI Inputs.

Lemma apply_transformer_block_ignores_context_witness :
  apply_transformer_block (iota [1; 2; 4]) x0 (Tensor [1; 256] [])
    0 small_sd cuda bfloat16
  = apply_transformer_block (iota [1; 2; 4]) two_sigmas (Tensor [1; 256] [])
      0 small_sd cuda bfloat16.
Proof.
  exact (proj1 (apply_transformer_block_ignores_context
                  (iota [1; 2; 4]) x0 two_sigmas (Tensor [1; 256] [])
                  0 small_sd cuda bfloat16)).
Defined.



(** C5 as stated fails: with the model that returns 1, the latent 0 and the
    schedule [1, 0], euler_sample returns 1 and the inline loop -1. *)
Lemma euler_sample_differs_from_inline_loop :
  euler_sample (as_model_fn unit_model) x0 two_sigmas x0 None 7%Z 1
    = Ok (Tensor [1] [1%Z]) /\
  sampling_loop unit_model two_sigmas x0 = Ok (Tensor [1] [(-1)%Z]) /\
  euler_sample (as_model_fn unit_model) x0 two_sigmas x0 None 7%Z 1
    <> sampling_loop unit_model two_sigmas x0.
Proof.
  split; [reflexivity |]. split; [reflexivity |].
  intros E. vm_compute in E. discriminate E.
Qed.

Lemma int_sign_laws : @sign_laws Z int_arith.
Proof. repeat split; intros a b; simpl; lia. Defined.

Lemma euler_sample_is_inline_loop_on_negated_model_witness :
  @sign_laws Z int_arith /\
  euler_sample (as_model_fn (negated unit_model)) x0 two_sigmas x0 None 7%Z 1
  = sampling_loop unit_model two_sigmas x0.
Proof.
  split; [exact int_sign_laws |].
  exact (euler_sample_is_inline_loop_on_negated_model
           unit_model x0 two_sigmas x0 None 7%Z 1 int_sign_laws).
Defined.


Lemma run_transformer_preserves_shape_witness :
  shape (iota [1; 1; 3; 3]) = [1; 1; 3; 3] /\
  shape (Tensor [1] [5%Z]) = [1] /\ (1 = 1 \/ 1 = 1) /\
  dims_consistent small_sd 1 8 256 = true /\
  exists out,
    run_transformer (iota [1; 1; 3; 3]) (Tensor [1] [5%Z]) x0 small_sd 60
    = Ok out /\
    shape out = [1; 1; 3; 3].
Proof.
  split; [reflexivity |]. split; [reflexivity |].
  split; [left; reflexivity |].
  assert (dims_consistent small_sd 1 8 256 = true) as Hc
    by (vm_compute; reflexivity).
  split; [exact Hc |].
  exact (run_transformer_preserves_shape small_sd (iota [1; 1; 3; 3])
           (Tensor [1] [5%Z]) x0 60 1 1 3 3 1 8 256
           eq_refl eq_refl (or_introl eq_refl) Hc).
Defined.

Lemma run_transformer_missing_linear_2_raises_witness :
  shape (iota [1; 1; 2; 2]) = [1; 1; 2; 2] /\
  shape (Tensor [1] [5%Z]) = [1] /\
  partial_sd !! (prefix +:+ "img_in.weight") = None /\
  partial_sd !! (prefix +:+ "time_text_embed.timestep_embedder.linear_1.weight")
    = Some (iota [4; 256]) /\
  partial_sd !! (prefix +:+ "time_text_embed.timestep_embedder.linear_2.weight")
    = None /\
  run_transformer (iota [1; 1; 2; 2]) (Tensor [1] [5%Z]) x0 partial_sd 60
  = Err AttributeError.
Proof.
  assert (partial_sd !! (prefix +:+ "img_in.weight") = None) as E0
    by (vm_compute; reflexivity).
  assert (partial_sd !!
            (prefix +:+ "time_text_embed.timestep_embedder.linear_1.weight")
          = Some (iota [4; 256])) as E1 by (vm_compute; reflexivity).
  assert (partial_sd !!
            (prefix +:+ "time_text_embed.timestep_embedder.linear_2.weight")
          = None) as E2 by (vm_compute; reflexivity).
  split; [reflexivity |]. split; [reflexivity |].
  split; [exact E0 |]. split; [exact E1 |]. split; [exact E2 |].
  exact (run_transformer_missing_linear_2_raises partial_sd
           (iota [1; 1; 2; 2]) (Tensor [1] [5%Z]) x0 (iota [4; 256]) 60
           1 1 2 2 1 eq_refl eq_refl E0 E1 E2).
Defined.

Lemma run_transformer_fitting_weights_raise_witness :
  shape (iota [1; 1; 3; 3]) = [1; 1; 3; 3] /\
  shape (Tensor [1] [5%Z]) = [1] /\
  shape (iota [4; 256]) = [4; 2 * half_dim] /\
  (forall e, weights_fit partial_sd 1 (1 * 4) e = true) /\
  run_transformer (iota [1; 1; 3; 3]) (Tensor [1] [5%Z]) x0 partial_sd 60
  = Err AttributeError.
Proof.
  split; [reflexivity |]. split; [reflexivity |]. split; [reflexivity |].
  exact (run_transformer_fitting_weights_raise
           (iota [1; 1; 3; 3]) (Tensor [1] [5%Z]) x0 (iota [4; 256]) 60
           1 1 3 3 1 4 eq_refl eq_refl eq_refl).
Defined.



End Examples.

(** * The further statements on the integer backend *)

Module Instances.
Import IntBackend ComfyUI Batch LocalQwen2 Inputs Fixtures.

Lemma unpatchify_inverts_patchify_witness :
  shape (iota [1; 2; 2; 4]) = [1; 2; 2; 4] /\
  length (data (iota [1; 2; 2; 4])) = numel [1; 2; 2; 4] /\
  2 mod 2 = 0 /\ 4 mod 2 = 0 /\
  (x ← patchify (iota [1; 2; 2; 4]) 1 2 2 4; unpatchify x 1 2 2 4)
  = Ok (iota [1; 2; 2; 4]).
Proof.
  do 4 (split; [reflexivity |]).
  exact (unpatchify_inverts_patchify (iota [1; 2; 2; 4]) 1 2 2 4
           eq_refl eq_refl eq_refl eq_refl).
Defined.

Lemma crop_inverts_pad_witness :
  shape (iota [1; 2; 3; 3]) = [1; 2; 3; 3] /\
  length (data (iota [1; 2; 3; 3])) = numel [1; 2; 3; 3] /\
  (x ← F_pad (iota [1; 2; 3; 3]) 0 1 0 1;
   slice_to x [None; None; Some 3; Some 3]) = Ok (iota [1; 2; 3; 3]).
Proof.
  do 2 (split; [reflexivity |]).
  exact (crop_inverts_pad (iota [1; 2; 3; 3]) 1 2 3 3 1 1 eq_refl eq_refl).
Defined.

Lemma run_transformer_without_weights_returns_latent_witness :
  shape (iota [1; 2; 3; 3]) = [1; 2; 3; 3] /\
  length (data (iota [1; 2; 3; 3])) = numel [1; 2; 3; 3] /\
  shape (Tensor [1] [5%Z]) = [1] /\
  run_transformer (iota [1; 2; 3; 3]) (Tensor [1] [5%Z]) x0 ∅ 60
  = Ok (iota [1; 2; 3; 3]).
Proof.
  do 3 (split; [reflexivity |]).
  exact (run_transformer_without_weights_returns_latent ∅
           (iota [1; 2; 3; 3]) (Tensor [1] [5%Z]) x0 60 1 2 3 3 1
           eq_refl eq_refl eq_refl
           (lookup_empty _) (lookup_empty _) (fun i _ => lookup_empty _)
           (lookup_empty _) (lookup_empty _)).
Defined.

Lemma run_transformer_result_has_latent_shape_witness :
  exists out,
    run_transformer (iota [1; 1; 3; 3]) (Tensor [1] [5%Z]) x0 small_sd 60
    = Ok out /\
    shape out = shape (iota [1; 1; 3; 3]).
Proof.
  destruct (run_transformer (iota [1; 1; 3; 3]) (Tensor [1] [5%Z]) x0 small_sd 60)
    as [out | e] eqn:E.
  - exists out. split; [reflexivity |].
    exact (run_transformer_result_has_latent_shape small_sd (iota [1; 1; 3; 3])
             (Tensor [1] [5%Z]) x0 out 60 E).
  - exfalso. vm_compute in E. discriminate E.
Defined.

Lemma generate_with_ai_image_size_witness :
  (8 <= 16)%Z /\ (8 <= 24)%Z /\ (-1 <= 2)%Z /\
  dims_consistent (∅ : gmap string (tensor Z)) 16 64 256 = true /\
  (∅ : gmap string (tensor Z)) !! conv_out_key = None /\
  exists arr g',
    generate_with_ai "moon" 16 24 ∅ ∅ ∅ 2 7%Z None 0%Z
    = (image ← Image_fromarray arr; Ok (image, g')) /\
    a_shape arr = [Z.to_nat (8 * (24 `div` 8)); Z.to_nat (8 * (16 `div` 8)); 3].
Proof.
  assert (dims_consistent (∅ : gmap string (tensor Z)) 16 64 256 = true) as Hc
    by (vm_compute; reflexivity).
  split; [lia |]. split; [lia |]. split; [lia |]. split; [exact Hc |].
  split; [apply lookup_empty |].
  apply (@generate_with_ai_image_size Z int_arith int_backend "moon" 16 24 ∅ ∅ ∅ 2 7%Z None 0%Z 64 256);
    [lia | lia | lia | intros s; discriminate | exact Hc | apply lookup_empty].
Defined.

Lemma generate_with_ai_generator_state_witness :
  exists image_out g_out,
    generate_with_ai "moon" 16 24 ∅ ∅ ∅ 2 7%Z (Some 11%Z) 0%Z
    = Ok (image_out, g_out) /\
    g_out = k_manual_seed 11.
Proof.
  assert (dims_consistent (∅ : gmap string (tensor Z)) 16 64 256 = true) as Hc
    by (vm_compute; reflexivity).
  destruct (@generate_with_ai_returns Z int_arith int_backend "moon" 16 24 ∅ ∅ ∅ 2 7%Z (Some 11%Z) 0%Z
              64 256 ltac:(lia) ltac:(lia) ltac:(lia)
              ltac:(intros s [= <-]; lia) Hc (lookup_empty _))
    as (arr & E & _).
  exists arr, (k_manual_seed 11). split; [exact E |].
  exact (@generate_with_ai_generator_state Z int_arith int_backend "moon" 16 24 ∅ ∅ ∅ 2 7%Z (Some 11%Z)
           0%Z (k_manual_seed 11) arr E).
Defined.

Lemma generate_with_ai_needs_eight_pixels_witness :
  ((4 < 8)%Z \/ (16 < 8)%Z) /\
  is_ok (generate_with_ai "moon" 4 16 ∅ ∅ ∅ 2 7%Z None 0%Z) = false.
Proof.
  split; [left; lia |].
  apply (@generate_with_ai_needs_eight_pixels Z int_arith int_backend "moon" 4 16 ∅ ∅ ∅ 2 7%Z None 0%Z).
  left. lia.
Defined.

Lemma generate_with_ai_without_steps_witness :
  generate_with_ai "moon" 16 16 small_sd ∅ ∅ 0 7%Z None 0%Z
  = generate_with_ai "moon" 16 16 ∅ ∅ ∅ 0 7%Z None 0%Z /\
  generate_with_ai "moon" 16 16 small_sd ∅ ∅ (-2) 7%Z None 0%Z
  = Err RuntimeError.
Proof.
  split.
  - apply (@generate_with_ai_without_steps Z int_arith int_backend "moon" 16 16 small_sd ∅ ∅ ∅ 0 7%Z
             None 0%Z). left. reflexivity.
  - apply (@generate_with_ai_without_steps Z int_arith int_backend "moon" 16 16 small_sd ∅ ∅ ∅ (-2) 7%Z
             None 0%Z). lia.
Defined.

Lemma euler_sample_schedule_decides_witness :
  euler_sample (as_model_fn unit_model) x0 (Tensor [1] [1%Z]) x0 None 7%Z 20
  = Ok x0 /\
  euler_sample (as_model_fn unit_model) x0 (Tensor [] [1%Z]) x0 None 7%Z 20
  = Err TypeError.
Proof.
  split.
  - exact (proj1 (proj2 (euler_sample_schedule_decides (as_model_fn unit_model)
                    x0 (Tensor [1] [1%Z]) x0 None 7%Z 20)) 1 [] eq_refl
             (le_n 1)).
  - exact (proj1 (euler_sample_schedule_decides (as_model_fn unit_model)
                    x0 (Tensor [] [1%Z]) x0 None 7%Z 20) eq_refl).
Defined.

Lemma decode_vae_simple_channel_mismatch_witness :
  conv_sd !! conv_out_key = Some (iota [3; 128; 3; 3]) /\
  conv_sd !! conv_out_bias_key = Some (iota [3]) /\
  decode_vae_simple (iota [1; 16; 2; 2]) conv_sd = Err RuntimeError.
Proof.
  assert (conv_sd !! conv_out_key = Some (iota [3; 128; 3; 3])) as Ew
    by (vm_compute; reflexivity).
  assert (conv_sd !! conv_out_bias_key = Some (iota [3])) as Eb
    by (vm_compute; reflexivity).
  split; [exact Ew |]. split; [exact Eb |].
  apply (decode_vae_simple_channel_mismatch (iota [1; 16; 2; 2]) conv_sd
           (iota [3; 128; 3; 3]) (iota [3]) 1 16 2 2 3 128 3 3);
    [reflexivity | lia | lia | lia | exact Ew | exact Eb | reflexivity | lia].
Defined.

Lemma latent_to_image_array_shape_witness :
  (exists arr,
     latent_to_image (iota [2; 16; 1; 2]) ∅ = Image_fromarray arr /\
     a_shape arr = [8 * 1; 8 * 2; Nat.min 3 16]) /\
  (exists arr,
     latent_to_image (iota [2; 16; 1; 2]) rgb_sd = Image_fromarray arr /\
     a_shape arr = [8 * 1; 8 * 2; 3]).
Proof.
  assert (rgb_sd !! conv_out_key = Some (iota [3; 4; 3; 3])) as Ew
    by (vm_compute; reflexivity).
  assert (rgb_sd !! conv_out_bias_key = Some (iota [3])) as Eb
    by (vm_compute; reflexivity).
  split.
  - apply (proj1 (latent_to_image_array_shape (iota [2; 16; 1; 2]) ∅ 2 16 1 2
                    eq_refl ltac:(lia) ltac:(lia) ltac:(lia)));
      [apply lookup_empty | lia].
  - apply (proj2 (latent_to_image_array_shape (iota [2; 16; 1; 2]) rgb_sd
                    2 16 1 2 eq_refl ltac:(lia) ltac:(lia) ltac:(lia))
             (iota [3; 4; 3; 3]) (iota [3]) 3 4 Ew Eb eq_refl eq_refl);
      lia.
Defined.

Lemma apply_transformer_block_missing_mlp_2_raises_witness :
  apply_transformer_block (iota [1; 1; 8]) x0 (iota [1; 256]) 0 half_mlp_sd
    cuda bfloat16 = Err TypeError.
Proof.
  assert (forall name,
            half_mlp_sd !! (block_prefix 0 +:+ name)
            = half_mlp_sd !! ("model.diffusion_model.transformer_blocks.0." +:+ name))
    as Hp by reflexivity.
  apply (apply_transformer_block_missing_mlp_2_raises half_mlp_sd
           (iota [1; 1; 8]) x0 (iota [1; 256]) (iota [48; 256]) (iota [4; 8])
           0 1 1 1 8 256 4 cuda bfloat16);
    try reflexivity; try (left; reflexivity);
    rewrite Hp; vm_compute; reflexivity.
Defined.

Lemma decode_vae_simple_missing_bias_witness :
  weight_only_sd !! conv_out_key = Some (iota [3; 4; 3; 3]) /\
  weight_only_sd !! conv_out_bias_key = None /\
  decode_vae_simple (iota [1; 16; 2; 2]) weight_only_sd = Err KeyError.
Proof.
  assert (weight_only_sd !! conv_out_key = Some (iota [3; 4; 3; 3])) as Ew
    by (vm_compute; reflexivity).
  assert (weight_only_sd !! conv_out_bias_key = None) as Eb
    by (vm_compute; reflexivity).
  split; [exact Ew |]. split; [exact Eb |].
  apply (decode_vae_simple_missing_bias (iota [1; 16; 2; 2]) weight_only_sd
           (iota [3; 4; 3; 3]) 1 16 2 2);
    [reflexivity | lia | lia | lia | exact Ew | exact Eb].
Defined.

Lemma run_transformer_rejects_ranks_witness :
  run_transformer (iota [2; 2]) (Tensor [1] [5%Z]) x0 ∅ 60 = Err ValueError /\
  run_transformer (iota [1; 1; 2; 2]) (Tensor [] [5%Z]) x0 ∅ 60
  = Err IndexError.
Proof.
  split.
  - apply (proj1 (run_transformer_rejects_ranks ∅ (iota [2; 2])
                    (Tensor [1] [5%Z]) x0 60)).
    cbn [shape iota length]. lia.
  - apply (proj2 (run_transformer_rejects_ranks ∅ (iota [1; 1; 2; 2])
                    (Tensor [] [5%Z]) x0 60) 1 1 2 2 eq_refl eq_refl).
    apply lookup_empty.
Defined.

Lemma RMSNorm_forward_shape_witness :
  RMSNorm.init 4 0%Z = Ok {| RMSNorm.eps := 0%Z; RMSNorm.weight := ones [4] |} /\
  shape (iota [2; 4]) = [2] ++ [4] /\
  yields (RMSNorm.forward {| RMSNorm.eps := 0%Z; RMSNorm.weight := ones [4] |}
            (iota [2; 4])) ([2] ++ [4]) /\
  RMSNorm.forward {| RMSNorm.eps := 0%Z; RMSNorm.weight := ones [4] |}
    (iota [2; 3]) = Err RuntimeError.
Proof.
  split; [reflexivity |]. split; [reflexivity |]. split.
  - apply (proj1 (RMSNorm_forward_shape 4 0%Z _ (iota [2; 4]) [2] 4
                    eq_refl eq_refl)). reflexivity.
  - apply (proj2 (proj2 (RMSNorm_forward_shape 4 0%Z _ (iota [2; 3]) [2] 3
                           eq_refl eq_refl))); cbn; lia.
Defined.

Lemma TimestepEmbedding_forward_shape_witness :
  exists m g',
    @TimestepEmbedding.init Z _ int_backend _ 4 10000 0%Z = Ok (m, g') /\
    yields (TimestepEmbedding.forward m (Tensor [2] [5%Z; 7%Z])) [2; Z.to_nat 4].
Proof.
  destruct (@TimestepEmbedding.init Z _ int_backend _ 4 10000 0%Z) as [[m g'] | e] eqn:E.
  - exists m, g'. split; [reflexivity |].
    apply (proj1 (proj2 (@TimestepEmbedding_forward_shape Z _ int_backend _ 4 10000 0%Z g' m
                           (Tensor [2] [5%Z; 7%Z]) 2 E eq_refl)));
      [lia | reflexivity].
  - exfalso. vm_compute in E. discriminate E.
Defined.

Lemma TimestepEmbedding_sinusoid_elements_witness :
  (0 < TimestepEmbedding.max_period embedding_4)%Z /\
  (0 <= TimestepEmbedding.dim embedding_4)%Z /\
  exists emb,
    TimestepEmbedding.sinusoid embedding_4 (Tensor [2] [5%Z; 7%Z]) = Ok emb /\
    shape emb = [2; 2 * Z.to_nat (4 `div` 2)].
Proof.
  split; [cbn; lia |]. split; [cbn; lia |].
  destruct (TimestepEmbedding_sinusoid_elements embedding_4
              (Tensor [2] [5%Z; 7%Z]) 2 ltac:(cbn; lia) ltac:(cbn; lia)
              eq_refl eq_refl) as (emb & E & S & _).
  exists emb. split; [exact E | exact S].
Defined.

Lemma SimpleVAEDecoder_forward_shape_witness :
  exists dec g',
    @SimpleVAEDecoder.load_from_state_dict Z _ int_backend _ SimpleVAEDecoder.init ∅ 0%Z
    = Ok (dec, g') /\
    yields (SimpleVAEDecoder.forward dec (iota [1; 16; 2; 3]))
      [1; 3; 16 * 2; 16 * 3].
Proof.
  destruct (@SimpleVAEDecoder_forward_shape Z _ int_backend _ SimpleVAEDecoder.init ∅ 0%Z
              (iota [1; 16; 2; 3]) 1 16 2 3 eq_refl
              ltac:(lia) ltac:(lia) ltac:(lia)) as (dec & g' & E & Hy & _).
  exists dec, g'. split; [exact E | exact (Hy eq_refl)].
Defined.

Lemma generate_all_outcome_witness :
  @generate_all _ (status_env 503) late_clock empty_world
  = (Ret tt, World [stats_request] ∅) /\
  (@generate_all _ (status_env 200) late_clock empty_world).1 = Ret tt.
Proof.
  split.
  - apply (proj1 (proj2 (@generate_all_outcome _ (status_env 503) late_clock
                           empty_world))).
    intros [_ E]. discriminate E.
  - apply (proj2 (proj2 (proj2 (proj2
             (@generate_all_outcome _ (status_env 200) late_clock empty_world)))));
      try reflexivity.
    intros name cfg _. exists 0%Q, [301%Q]. split; [reflexivity |].
    constructor. reflexivity.
Defined.

Lemma wait_for_completion_only_polls_witness :
  @wait_for_completion (scripted_env None) [0; 5]%Q (PStr "p1") 0 empty_world
  = (Ret PNone, empty_world).
Proof.
  apply (proj2 (@wait_for_completion_only_polls (scripted_env None) [0; 5]%Q
                  (PStr "p1") 0 empty_world) 0%Q 5%Q []); reflexivity.
Defined.

Lemma find_images_first_match_witness :
  exists before node_id node_output after,
    node_outputs = before ++ (node_id, node_output) :: after /\
    Forall (fun item =>
              @py_contains (scripted_env None) (PStr "images") item.2 = Ok false)
      before /\
    @py_contains (scripted_env None) (PStr "images") node_output = Ok true /\
    py_getitem node_output (PStr "images") = Ok (PList [PStr "a.png"]).
Proof.
  apply (proj1 (@find_images_first_match (scripted_env None) node_outputs)).
  reflexivity.
Defined.

Lemma asset_workflow_changes_four_inputs_witness :
  (("6", "steps")
     ∉ [("5", "width"); ("5", "height"); ("4", "text"); ("6", "seed")]) /\
  get_input (asset_workflow habit_rest 7) "6" "steps"
  = get_input get_workflow_template "6" "steps".
Proof.
  assert (("6", "steps")
            ∉ [("5", "width"); ("5", "height"); ("4", "text"); ("6", "seed")])
    as Hn.
  { intros Hin.
    repeat (apply elem_of_cons in Hin as [Hin | Hin]; [discriminate Hin |]).
    apply elem_of_nil in Hin. exact Hin. }
  split; [exact Hn |].
  exact (asset_workflow_changes_four_inputs habit_rest 7 "6" "steps" Hn).
Defined.

Lemma prefixes_are_first_parts_witness :
  "model" ∈ prefixes ["model.diffusion_model.img_in.weight"; "scale"].
Proof.
  apply (proj2 (prefixes_are_first_parts
                  ["model.diffusion_model.img_in.weight"; "scale"] "model")).
  exists "model.diffusion_model.img_in.weight", "diffusion_model.img_in.weight".
  split; [left |]. split; [reflexivity |].
  cbn. intros Ho. repeat (destruct Ho as [Ho | Ho]; [discriminate Ho |]).
  exact Ho.
Defined.

End Instances.
